(** * hoisaai: decision-tree classifier, bagging and random forest

    A shallow embedding of
    [hoisaai/layer_1/model/supervised/classification/decision_tree.py].

    Tensors are nested lists read by index ([nth] with a default); the
    broadcasting of the source becomes index plumbing: an axis added by
    [expand_dimension] is an index that the operand ignores.  Integer
    tensors hold [Z]; the results of true division, [log2], [nan_to_num] and
    [nanmean] are extended reals ([fval]): exact real arithmetic together
    with the three special values of the float format.  Rounding is not
    modelled. *)

From Stdlib Require Import ZArith List Bool Lia Reals Lra Sorted.
From Stdlib Require String Ascii DecimalString DecimalNat DecimalZ.
Import ListNotations.

Open Scope Z_scope.

(** ** Tensor algebra: the operations the classifier calls *)

Module Tensor.

(** A float: a real number, or one of the special values. *)
Inductive fval : Type :=
| Fin (r : R)
| PInf
| NInf
| NaN.

Definition of_Z (z : Z) : fval := Fin (IZR z).

(** [a / b] on integer tensors is true division: [x/0] is an infinity of
    the sign of [x], and [0/0] is NaN. *)
Definition truediv (a b : Z) : fval :=
  if b =? 0 then
    (if a =? 0 then NaN else if 0 <? a then PInf else NInf)
  else Fin (IZR a / IZR b).

(** An infinity times a finite factor [r]. *)
Definition scale_inf (positive : bool) (r : R) : fval :=
  if Req_dec_T r 0 then NaN
  else if Rlt_dec 0 r then (if positive then PInf else NInf)
  else (if positive then NInf else PInf).

Definition fmul (x y : fval) : fval :=
  match x, y with
  | NaN, _ | _, NaN => NaN
  | Fin a, Fin b => Fin (a * b)
  | Fin a, PInf => scale_inf true a
  | Fin a, NInf => scale_inf false a
  | PInf, Fin b => scale_inf true b
  | NInf, Fin b => scale_inf false b
  | PInf, PInf | NInf, NInf => PInf
  | PInf, NInf | NInf, PInf => NInf
  end.

Definition fadd (x y : fval) : fval :=
  match x, y with
  | NaN, _ | _, NaN => NaN
  | Fin a, Fin b => Fin (a + b)
  | PInf, NInf | NInf, PInf => NaN
  | PInf, _ | _, PInf => PInf
  | NInf, _ | _, NInf => NInf
  end.

(** [log2]: minus infinity at 0, NaN below 0. *)
Definition log2 (x : fval) : fval :=
  match x with
  | Fin r =>
      if Rlt_dec 0 r then Fin (ln r / ln 2)
      else if Req_dec_T r 0 then NInf else NaN
  | PInf => PInf
  | NInf | NaN => NaN
  end.

(** [nan_to_num(nan=0.0, posinf=0.0, neginf=0.0)]. *)
Definition nan_to_num (x : fval) : fval :=
  match x with
  | Fin r => Fin r
  | PInf | NInf | NaN => Fin 0
  end.

(** [==] between floats: false as soon as a NaN is involved. *)
Definition feqb (x y : fval) : bool :=
  match x, y with
  | Fin a, Fin b => if Req_dec_T a b then true else false
  | PInf, PInf | NInf, NInf => true
  | _, _ => false
  end.

Definition is_nan (x : fval) : bool :=
  match x with NaN => true | _ => false end.

(** [sum] along an axis, the axis given as the list of its entries. *)
Definition fsum (l : list fval) : fval := fold_left fadd l (Fin 0).

Definition zsum (l : list Z) : Z := fold_right Z.add 0 l.

(** [1 * (a == b)] on integer tensors. *)
Definition ind (c : bool) : Z := 1 * (if c then 1 else 0).

(** [count_nonzero] along an axis. *)
Definition count_nonzero (l : list Z) : Z :=
  Z.of_nat (length (filter (fun v => negb (v =? 0)) l)).

(** [count_nonzero] of a boolean tensor. *)
Definition count_true (l : list bool) : Z :=
  Z.of_nat (length (filter (fun c => c) l)).

(** [arange(start=0, stop, step=1)]. *)
Definition arange (stop : Z) : list Z :=
  map Z.of_nat (seq 0 (Z.to_nat stop)).

(** [nanmean] along an axis: the mean of the entries that are not NaN
    (NaN when there is none). *)
Definition nanmean (l : list fval) : fval :=
  let kept := filter (fun x => negb (is_nan x)) l in
  match kept with
  | [] => NaN
  | _ => fmul (fsum kept) (Fin (/ INR (length kept)))
  end.

(** Insertion of a value in a sorted list without repetition. *)
Fixpoint insert_unique (x : Z) (l : list Z) : list Z :=
  match l with
  | [] => [x]
  | y :: l' =>
      if x <? y then x :: l
      else if x =? y then l
      else y :: insert_unique x l'
  end.

(** [unique] of a flattened tensor: its distinct values in increasing
    order. *)
Definition unique (flat : list Z) : list Z :=
  fold_right insert_unique [] flat.

End Tensor.

Import Tensor.

(** Shapes used below. *)
Definition matrix : Type := list (list Z).
(** Branch assignments of every candidate split:
    [observation][target][threshold candidate][feature]. *)
Definition tensor4 : Type := list (list (list (list Z))).
(** Class counts: [target][unique y][leaf]. *)
Definition table : Type := list (list (list Z)).
(** Probabilities: [sample][target][unique y]. *)
Definition cube : Type := list (list (list fval)).

Definition at2 (m : matrix) (i j : nat) : Z := nth j (nth i m []) 0.
Definition at3 (c : table) (i j k : nat) : Z := nth k (nth j (nth i c []) []) 0.
Definition at4 (b : tensor4) (i j k l : nat) : Z :=
  nth l (nth k (nth j (nth i b []) []) []) 0.
Definition fat3 (c : cube) (i j k : nat) : fval :=
  nth k (nth j (nth i c []) []) NaN.

(** The information-gain callback handed to the induction engine. *)
Definition gain_callback : Type := matrix -> tensor4 -> Z -> cube.

(** ** The induction engine ([hoisaai.layer_1.model.supervised.core]) *)

Module DecisionTree.

(** One entry of the Split Record. *)
Record split : Type := { feature_index : nat; threshold : Z }.

Definition no_split : split := {| feature_index := 0; threshold := 0 |}.

(** The Split Record of one tree: [level][target]. *)
Definition split_table : Type := list (list split).

Definition branch_arity : Z := 2.

(** The first [T] columns are the targets, the others the features. *)
Definition targets (T : nat) (in_sample : matrix) : matrix :=
  map (firstn T) in_sample.
Definition features (T : nat) (in_sample : matrix) : matrix :=
  map (skipn T) in_sample.

Section Engine.

(** The comparison of a feature value with a threshold that sends an
    observation to branch 1.  The specification words it as
    [feature_value > threshold]; the leaf codes that
    [test_decision_tree_init] expects are obtained with
    [feature_value <= threshold].  The engine is modelled for any
    comparison. *)
Variable to_branch_1 : Z -> Z -> bool.

(** Steps 3a-3d of the specification: the best candidate split of a
    level for one target, scored by the injected callback.  The search
    belongs to the core module and is kept abstract. *)
Variable best_split :
  gain_callback -> matrix -> matrix -> nat -> matrix -> nat -> split.

(** Modelled from the spec: step 3a for one observation and one split,
    the branch (0 or 1) that the comparison chooses. *)
Definition branch_choice (s : split) (x_row : list Z) : Z :=
  if to_branch_1 (nth (feature_index s) x_row 0) (threshold s)
  then 1 else 0.

(** Modelled from the spec: step 3e, one level folded into the running
    leaf codes, [leaf_code = leaf_code * branch_arity + branch_choice]. *)
Definition fold_level (T : nat) (level : list split)
    (codes x : matrix) : matrix :=
  map (fun o =>
         map (fun t =>
                at2 codes o t * branch_arity
                + branch_choice (nth t level no_split) (nth o x []))
             (seq 0 T))
      (seq 0 (length x)).

(** Modelled from the spec: the levels of a Split Record folded one
    after the other into the leaf codes of the rows [x]. *)
Definition replay (T : nat) (x : matrix) (record : split_table)
    (codes : matrix) : matrix :=
  fold_left (fun codes level => fold_level T level codes x)
            record codes.

(** Modelled from the spec: [pre_predict], the replay of the stored
    Split Record on sample rows, from leaf code 0. *)
Definition pre_predict (T : nat) (record : split_table)
    (sample_x : matrix) : matrix :=
  replay T sample_x record (map (fun _ => repeat 0 T) sample_x).

(** Modelled from the spec: the level loop of [fit] (steps 2 and 3),
    which returns the Split Record and the leaf codes of the training
    rows. *)
Fixpoint grow (gain : gain_callback) (T : nat) (y x : matrix)
    (levels level : nat) (codes : matrix) : split_table * matrix :=
  match levels with
  | O => ([], codes)
  | S levels' =>
      let chosen := map (best_split gain y x level codes) (seq 0 T) in
      let codes' := fold_level T chosen codes x in
      let (rest, final) := grow gain T y x levels' (S level) codes' in
      (chosen :: rest, final)
  end.

(** Modelled from the spec: [DecisionTree.fit] on a dataset without
    batch axis, for a client state [S] with its three hooks.  Returns
    the client state after [post_fit] and the Split Record. *)
Definition fit {S : Type} (depth : nat)
    (information_gain : S -> gain_callback)
    (pre_fit : S -> matrix -> S)
    (post_fit : S -> matrix -> matrix -> Z -> S)
    (self : S) (in_sample : matrix) (number_of_target : nat)
    : S * split_table :=
  let y := targets number_of_target in_sample in
  let x := features number_of_target in_sample in
  let self := pre_fit self y in
  let (record, leaf) :=
    grow (information_gain self) number_of_target y x depth 0
         (map (fun _ => repeat 0 number_of_target) x) in
  (post_fit self y leaf (branch_arity ^ Z.of_nat depth), record).

(** Modelled from the spec: the same [fit] on a dataset with one leading
    batch axis (one tree per member, grown in lockstep); the hooks then
    receive batched tensors. *)
Definition fit_batch {S : Type} (depth : nat)
    (information_gain : S -> gain_callback)
    (pre_fit : S -> list matrix -> S)
    (post_fit : S -> list matrix -> list matrix -> Z -> S)
    (self : S) (in_sample : list matrix) (number_of_target : nat)
    : S * list split_table :=
  let y := map (targets number_of_target) in_sample in
  let x := map (features number_of_target) in_sample in
  let self := pre_fit self y in
  let grown :=
    map (fun yx =>
           grow (information_gain self) number_of_target
                (fst yx) (snd yx) depth 0
                (map (fun _ => repeat 0 number_of_target) (snd yx)))
        (combine y x) in
  (post_fit self y (map snd grown) (branch_arity ^ Z.of_nat depth),
   map fst grown).

End Engine.

(** *** Ensemble preparation *)

Section Preparation.

(** The pseudo-random generator of the tensor runtime: a state, its
    seeding, and one raw draw. *)
Variable key : Type.
Variable seed_key : Z -> key.
Variable next : key -> nat * key.

(** Computations that advance the generator. *)
Definition Gen (A : Type) : Type := key -> A * key.

Definition ret {A : Type} (a : A) : Gen A := fun k => (a, k).

Definition bind {A B : Type} (c : Gen A) (f : A -> Gen B) : Gen B :=
  fun k => let (a, k') := c k in f a k'.

Notation "x <- c ;; f" := (bind c (fun x => f))
  (at level 61, c at next level, right associativity).

Definition reseed (seed : Z) : Gen unit := fun _ => (tt, seed_key seed).

(** One index below [bound]. *)
Definition randint (bound : nat) : Gen nat :=
  fun k => let (raw, k') := next k in (Nat.modulo raw bound, k').

(** [n] indices below [bound], with replacement, in draw order. *)
Fixpoint draw_with_replacement (bound n : nat) : Gen (list nat) :=
  match n with
  | O => ret []
  | S n' =>
      i <- randint bound ;;
      rest <- draw_with_replacement bound n' ;;
      ret (i :: rest)
  end.

(** [n] entries of [pool], without replacement, in draw order. *)
Fixpoint draw_without_replacement (pool : list nat) (n : nat)
    : Gen (list nat) :=
  match n with
  | O => ret []
  | S n' =>
      i <- randint (length pool) ;;
      rest <- draw_without_replacement
                (firstn i pool ++ skipn (S i) pool) n' ;;
      ret (nth i pool 0%nat :: rest)
  end.

Definition gather_rows (in_sample : matrix) (rows : list nat) : matrix :=
  map (fun i => nth i in_sample []) rows.

Fixpoint bootstrap (in_sample : matrix) (number_of_subset subset_size : nat)
    : Gen (list matrix) :=
  match number_of_subset with
  | O => ret []
  | S n' =>
      rows <- draw_with_replacement (length in_sample) subset_size ;;
      rest <- bootstrap in_sample n' subset_size ;;
      ret (gather_rows in_sample rows :: rest)
  end.

(** Modelled from the spec: [bagging_preparation] of the core module:
    for each subset, [subset_size] row indices drawn with replacement
    from a generator seeded with [seed], the rows gathered in draw
    order. *)
Definition bagging_preparation (in_sample : matrix)
    (number_of_subset subset_size : nat) (seed : Z) : Gen (list matrix) :=
  _ <- reseed seed ;;
  bootstrap in_sample number_of_subset subset_size.

Definition gather_columns (T : nat) (chosen : list nat) (subset : matrix)
    : matrix :=
  map (fun row => firstn T row ++ map (fun j => nth j row 0) chosen)
      subset.

Fixpoint choose_features (T columns chosen : nat) (subsets : list matrix)
    : Gen (list matrix) :=
  match subsets with
  | [] => ret []
  | subset :: subsets' =>
      cols <- draw_without_replacement (seq T (columns - T)) chosen ;;
      rest <- choose_features T columns chosen subsets' ;;
      ret (gather_columns T cols subset :: rest)
  end.

Inductive prepared : Type :=
| Prepared (batch : list matrix)
| ConfigError.

(** Modelled from the spec: [random_forest_preparation] of the core
    module: the row bootstrap of [bagging_preparation], then per subset
    the feature columns drawn without replacement; [ConfigError] when
    more features are asked for than there are. *)
Definition random_forest_preparation (in_sample : matrix)
    (number_of_target number_of_chosen_feature : nat)
    (number_of_subset subset_size : nat) (seed : Z) : Gen prepared :=
  let columns := length (nth 0 in_sample []) in
  if (columns - number_of_target <? number_of_chosen_feature)%nat
  then ret ConfigError
  else
    _ <- reseed seed ;;
    subsets <- bootstrap in_sample number_of_subset subset_size ;;
    batch <- choose_features number_of_target columns
               number_of_chosen_feature subsets ;;
    ret (Prepared batch).

End Preparation.

End DecisionTree.

(** ** The classifier (decision_tree.py) *)

Module DecisionTreeClassifier.

Import DecisionTree.

Inductive Impurity : Type := ENTROPY.

(** The attributes of an instance.  [ST] and [CT] are the types of the
    Split Record and of the count tensor: one tree, or one tree per member
    of a leading batch axis. *)
Record t (ST CT : Type) : Type := {
  depth : nat;
  impurity : Impurity;
  number_of_target : nat;
  record : ST;
  unique_y : option (list Z);
  count : option CT
}.
Arguments depth {ST CT}.
Arguments impurity {ST CT}.
Arguments number_of_target {ST CT}.
Arguments record {ST CT}.
Arguments unique_y {ST CT}.
Arguments count {ST CT}.

Definition tree : Type := t split_table table.
Definition forest : Type := t (list split_table) (list table).

(** [__init__]: nothing fitted yet. *)
Definition init {ST CT : Type} (depth : nat) (impurity : Impurity)
    (empty : ST) : t ST CT :=
  {| depth := depth; impurity := impurity; number_of_target := 0;
     record := empty; unique_y := None; count := None |}.

(** [DecisionTreeClassifier(depth, impurity)]; the second is the same
    instance before a fit on a dataset with a leading batch axis. *)
Definition new (depth : nat) (impurity : Impurity) : tree :=
  init depth impurity [].
Definition new_batch (depth : nat) (impurity : Impurity) : forest :=
  init depth impurity [].

Definition set_unique_y {ST CT} (self : t ST CT) (u : list Z) : t ST CT :=
  {| depth := depth self; impurity := impurity self;
     number_of_target := number_of_target self; record := record self;
     unique_y := Some u; count := count self |}.

Definition set_count {ST CT} (self : t ST CT) (c : CT) : t ST CT :=
  {| depth := depth self; impurity := impurity self;
     number_of_target := number_of_target self; record := record self;
     unique_y := unique_y self; count := Some c |}.

Definition set_record {ST CT} (self : t ST CT) (T : nat) (r : ST)
    : t ST CT :=
  {| depth := depth self; impurity := impurity self;
     number_of_target := T; record := r;
     unique_y := unique_y self; count := count self |}.

(** The class labels as a tensor of shape (Unique y,). *)
Definition labels {ST CT} (self : t ST CT) : list Z :=
  match unique_y self with Some u => u | None => [] end.

(** *** [information_gain_entropy] *)

Section InformationGain.

Variable uy : list Z.
Variable in_sample_y : matrix.
Variable branches : tensor4.
Variable number_of_branches : Z.

(** The observation axis. *)
Definition observations : list nat := seq 0 (length branches).

(** [branch = 1 * (branches.expand_dimension(-1) == arange(...))]. *)
Definition branch (o t c f : nat) (b : Z) : Z :=
  ind (at4 branches o t c f =? b).

(** [category_count]: non-zero entries, along the observation axis, of
    [1 * ((branch * in_sample_y).expand_dimension(-1) == unique_y)]. *)
Definition category_count (t c f : nat) (b u : Z) : Z :=
  count_nonzero
    (map (fun o => ind (branch o t c f b * at2 in_sample_y o t =? u))
         observations).

(** [branch.count_nonzero(axis=-5)]. *)
Definition branch_count (t c f : nat) (b : Z) : Z :=
  count_nonzero (map (fun o => branch o t c f b) observations).

Definition probability (t c f : nat) (b u : Z) : fval :=
  truediv (category_count t c f b u) (branch_count t c f b).

(** One cell of the returned tensor. *)
Definition gain (t c f : nat) : fval :=
  fadd (Fin 1)
    (fsum
       (map (fun b =>
               fsum
                 (map (fun u =>
                         fmul
                           (nan_to_num
                              (fmul (log2 (probability t c f b u))
                                    (probability t c f b u)))
                           (truediv (category_count t c f b u)
                                    (Z.of_nat (length in_sample_y))))
                      uy))
            (arange number_of_branches))).

(** The returned tensor, of shape (Target, Candidate, Feature). *)
Definition information_gain_entropy_of : cube :=
  let shape := nth 0 branches [] in
  map (fun t =>
         map (fun c =>
                map (fun f => gain t c f)
                    (seq 0 (length (nth 0 (nth 0 shape []) []))))
             (seq 0 (length (nth 0 shape []))))
      (seq 0 (length shape)).

End InformationGain.

Definition information_gain_entropy {ST CT} (self : t ST CT)
    : gain_callback :=
  fun in_sample_y branches number_of_branches =>
    information_gain_entropy_of (labels self) in_sample_y branches
                                number_of_branches.

(** *** [pre_fit] and [post_fit] *)

(** [if self.unique_y is None: self.unique_y, _ = in_sample_y.unique()];
    [flat] is the tensor flattened. *)
Definition pre_fit_flat {ST CT} (self : t ST CT) (flat : list Z)
    : t ST CT :=
  match unique_y self with
  | None => set_unique_y self (unique flat)
  | Some _ => self
  end.

Definition pre_fit (self : tree) (in_sample_y : matrix) : tree :=
  pre_fit_flat self (concat in_sample_y).

Definition pre_fit_batch (self : forest) (in_sample_y : list matrix)
    : forest :=
  pre_fit_flat self (concat (map (@concat Z) in_sample_y)).

(** The tensor assigned to [self.count] by [post_fit], for one tree:
    [branch] becomes the 0/1 membership of each leaf, [branch / branch]
    is 1 for a member and NaN otherwise, and the rows whose masked target
    equals the label are counted along the observation axis. *)
Definition count_table (uy : list Z) (in_sample_y branch : matrix)
    (number_of_branches : Z) : table :=
  map (fun t =>
         map (fun u =>
                map (fun l =>
                       count_true
                         (map (fun o =>
                                 let b := ind (at2 branch o t =? l) in
                                 feqb (fmul (truediv b b)
                                            (of_Z (at2 in_sample_y o t)))
                                      (of_Z (u * 1)))
                              (seq 0 (length in_sample_y))))
                    (arange number_of_branches))
             uy)
      (seq 0 (length (nth 0 in_sample_y []))).

Definition post_fit (self : tree) (in_sample_y branch : matrix)
    (number_of_branches : Z) : tree :=
  set_count self
    (count_table (labels self) in_sample_y branch number_of_branches).

Definition post_fit_batch (self : forest) (in_sample_y branch : list matrix)
    (number_of_branches : Z) : forest :=
  set_count self
    (map (fun yb => count_table (labels self) (fst yb) (snd yb)
                                number_of_branches)
         (combine in_sample_y branch)).

(** *** [predict_with_probability] *)

Record Probability : Type := {
  probability_of : cube;
  unique_y_of : option (list Z)
}.

(** [count.expand_dimension(-4).get_by_index(indexes=leaf codes)] and
    the normalisation along the class axis, for one tree. *)
Definition normalise (cnt : table) (codes : matrix) : cube :=
  map (fun s =>
         map (fun t =>
                let gathered :=
                  map (fun u => at3 cnt t u (Z.to_nat (at2 codes s t)))
                      (seq 0 (length (nth t cnt []))) in
                map (fun c => nan_to_num (truediv c (zsum gathered)))
                    gathered)
             (seq 0 (length (nth s codes []))))
      (seq 0 (length codes)).

Definition stored_count {ST CT} (self : t ST CT) (none : CT) : CT :=
  match count self with Some c => c | None => none end.

Section WithEngine.

Variable to_branch_1 : Z -> Z -> bool.
Variable best_split :
  gain_callback -> matrix -> matrix -> nat -> matrix -> nat -> split.

Definition fit (self : tree) (in_sample : matrix) (number_of_target : nat)
    : tree :=
  let (self', r) :=
    DecisionTree.fit to_branch_1 best_split (depth self)
      information_gain_entropy pre_fit post_fit
      self in_sample number_of_target in
  set_record self' number_of_target r.

Definition fit_batch (self : forest) (in_sample : list matrix)
    (number_of_target : nat) : forest :=
  let (self', r) :=
    DecisionTree.fit_batch to_branch_1 best_split (depth self)
      information_gain_entropy pre_fit_batch post_fit_batch
      self in_sample number_of_target in
  set_record self' number_of_target r.

Definition predict_with_probability (self : tree) (sample_x : matrix)
    : Probability :=
  {| probability_of :=
       normalise (stored_count self [])
         (pre_predict to_branch_1 (number_of_target self) (record self)
                      sample_x);
     unique_y_of := unique_y self |}.

(** The same method on an instance with a leading batch axis: every
    operation works member by member. *)
Definition predict_with_probability_batch (self : forest)
    (sample_x : matrix) : list cube * option (list Z) :=
  (map (fun cr =>
          normalise (fst cr)
            (pre_predict to_branch_1 (number_of_target self) (snd cr)
                         sample_x))
       (combine (stored_count self []) (record self)),
   unique_y self).

End WithEngine.

End DecisionTreeClassifier.

(** [nanmean(axis=0, keep_dimension=False)] of a batch of probability
    tensors: the leading axis is averaged away. *)
Definition nanmean_axis0 (batch : list cube) : cube :=
  let shape := nth 0 batch [] in
  map (fun s =>
         map (fun t =>
                map (fun u => nanmean (map (fun p => fat3 p s t u) batch))
                    (seq 0 (length (nth t (nth s shape []) []))))
             (seq 0 (length (nth s shape []))))
      (seq 0 (length shape)).

(** ** The ensembles *)

Module BaggingClassifier.

Import DecisionTree.

Record t : Type := {
  base : DecisionTreeClassifier.forest;
  number_of_subset : nat;
  subset_size : nat;
  seed : Z
}.

Definition init (depth : nat) (impurity : DecisionTreeClassifier.Impurity)
    (number_of_subset subset_size : nat) (seed : Z) : t :=
  {| base := DecisionTreeClassifier.new_batch depth impurity;
     number_of_subset := number_of_subset;
     subset_size := subset_size;
     seed := seed |}.

Definition with_base (self : t) (b : DecisionTreeClassifier.forest) : t :=
  {| base := b; number_of_subset := number_of_subset self;
     subset_size := subset_size self; seed := seed self |}.

Section WithEngine.

Variable to_branch_1 : Z -> Z -> bool.
Variable best_split :
  gain_callback -> matrix -> matrix -> nat -> matrix -> nat -> split.
Variable key : Type.
Variable seed_key : Z -> key.
Variable next : key -> nat * key.

(** [fit]: the base [fit] on the prepared batch. *)
Definition fit (self : t) (in_sample : matrix) (number_of_target : nat)
    : Gen key t :=
  bind key
    (bagging_preparation key seed_key next in_sample
       (number_of_subset self) (subset_size self) (seed self))
    (fun prepared =>
       ret key
         (with_base self
            (DecisionTreeClassifier.fit_batch to_branch_1 best_split
               (base self) prepared number_of_target))).

Definition predict_with_probability (self : t) (sample_x : matrix)
    : DecisionTreeClassifier.Probability :=
  let probability :=
    DecisionTreeClassifier.predict_with_probability_batch
      to_branch_1 (base self) sample_x in
  {| DecisionTreeClassifier.probability_of :=
       nanmean_axis0 (fst probability);
     DecisionTreeClassifier.unique_y_of := snd probability |}.

End WithEngine.

End BaggingClassifier.

Module RandomForestClassifier.

Import DecisionTree.

Record t : Type := {
  base : DecisionTreeClassifier.forest;
  number_of_chosen_feature : nat;
  number_of_subset : nat;
  subset_size : nat;
  seed : Z
}.

Definition init (depth : nat) (impurity : DecisionTreeClassifier.Impurity)
    (number_of_chosen_feature number_of_subset subset_size : nat)
    (seed : Z) : t :=
  {| base := DecisionTreeClassifier.new_batch depth impurity;
     number_of_chosen_feature := number_of_chosen_feature;
     number_of_subset := number_of_subset;
     subset_size := subset_size;
     seed := seed |}.

Definition with_base (self : t) (b : DecisionTreeClassifier.forest) : t :=
  {| base := b;
     number_of_chosen_feature := number_of_chosen_feature self;
     number_of_subset := number_of_subset self;
     subset_size := subset_size self; seed := seed self |}.

Section WithEngine.

Variable to_branch_1 : Z -> Z -> bool.
Variable best_split :
  gain_callback -> matrix -> matrix -> nat -> matrix -> nat -> split.
Variable key : Type.
Variable seed_key : Z -> key.
Variable next : key -> nat * key.

(** [fit]: the base [fit] on the prepared batch; an error of the
    preparation leaves through [fit] ([None]). *)
Definition fit (self : t) (in_sample : matrix) (number_of_target : nat)
    : Gen key (option t) :=
  bind key
    (random_forest_preparation key seed_key next in_sample
       number_of_target (number_of_chosen_feature self)
       (number_of_subset self) (subset_size self) (seed self))
    (fun prepared =>
       ret key
         match prepared with
         | Prepared batch =>
             Some (with_base self
                     (DecisionTreeClassifier.fit_batch
                        to_branch_1 best_split
                        (base self) batch number_of_target))
         | ConfigError => None
         end).

Definition predict_with_probability (self : t) (sample_x : matrix)
    : DecisionTreeClassifier.Probability :=
  let probability :=
    DecisionTreeClassifier.predict_with_probability_batch
      to_branch_1 (base self) sample_x in
  {| DecisionTreeClassifier.probability_of :=
       nanmean_axis0 (fst probability);
     DecisionTreeClassifier.unique_y_of := snd probability |}.

End WithEngine.

End RandomForestClassifier.

(** ** The claim of the specification on the entropy criterion *)

Module EntropySpec.

Section Formula.

Variable uy : list Z.
Variable in_sample_y : matrix.
Variable branches : tensor4.
Variable number_of_branches : Z.

(** count(class, branch): the observations of the branch that carry the
    class. *)
Definition count_class_branch (t c f : nat) (b u : Z) : Z :=
  count_true
    (map (fun o => (at4 branches o t c f =? b) && (at2 in_sample_y o t =? u))
         (seq 0 (length branches))).

(** count(branch). *)
Definition count_branch (t c f : nat) (b : Z) : Z :=
  count_true
    (map (fun o => at4 branches o t c f =? b) (seq 0 (length branches))).

Definition p (t c f : nat) (b u : Z) : fval :=
  truediv (count_class_branch t c f b u) (count_branch t c f b).

Definition w (t c f : nat) (b u : Z) : fval :=
  truediv (count_class_branch t c f b u) (Z.of_nat (length in_sample_y)).

(** gain = 1 + sum over branches and classes of w * log2(p) * p, the
    0 * log2(0) terms sanitised to 0 before the summation. *)
Definition gain (t c f : nat) : fval :=
  fadd (Fin 1)
    (fsum
       (map (fun b =>
               fsum
                 (map (fun u =>
                         fmul (nan_to_num (fmul (log2 (p t c f b u))
                                                (p t c f b u)))
                              (w t c f b u))
                      uy))
            (arange number_of_branches))).

End Formula.

End EntropySpec.

(** ** Method calls on an instance, and the inputs of the scenarios *)

Module Scenario.

Import DecisionTree DecisionTreeClassifier.

(** The two hooks are the only methods that assign [unique_y] and
    [count]; a life of an instance after its first [pre_fit] is a sequence
    of such calls. *)
Inductive call : Type :=
| PreFit (in_sample_y : matrix)
| PostFit (in_sample_y branch : matrix) (number_of_branches : Z).

Definition run_call (self : tree) (c : call) : tree :=
  match c with
  | PreFit y => pre_fit self y
  | PostFit y b n => post_fit self y b n
  end.

(** Whether a target value is one of the stored labels. *)
Definition known (uy : list Z) (v : Z) : bool := existsb (Z.eqb v) uy.

(** The training rows of leaf [l] for target [t]; all of them, and those
    whose target value is a stored label. *)
Definition rows_in_leaf (branch : matrix) (t : nat) (l : Z) : Z :=
  count_true (map (fun o => at2 branch o t =? l) (seq 0 (length branch))).

Definition known_rows_in_leaf (uy : list Z) (in_sample_y branch : matrix)
    (t : nat) (l : Z) : Z :=
  count_true
    (map (fun o => (at2 branch o t =? l) && known uy (at2 in_sample_y o t))
         (seq 0 (length in_sample_y))).

Definition known_rows (uy : list Z) (in_sample_y : matrix) (t : nat) : Z :=
  count_true
    (map (fun o => known uy (at2 in_sample_y o t))
         (seq 0 (length in_sample_y))).

(** One entry of the count tensor: the rows of leaf [l] whose target [t]
    is [u]. *)
Definition leaf_class_count (in_sample_y branch : matrix) (t : nat)
    (u l : Z) : Z :=
  count_true
    (map (fun o => (at2 branch o t =? l) && (at2 in_sample_y o t =? u))
         (seq 0 (length in_sample_y))).

(** A probability vector on the simplex. *)
Definition simplex (row : list fval) : Prop :=
  Forall (fun p => exists r, p = Fin r /\ (0 <= r)%R) row
  /\ fsum row = Fin 1.

Definition all_zero (row : list fval) : Prop :=
  Forall (fun p => p = Fin 0) row.

(** The probabilities of sample [s] for target [t], along the class
    axis. *)
Definition class_axis (p : cube) (s t : nat) : list fval :=
  nth t (nth s p []) [].

(** Every entry of a tensor of leaf codes lies in [0, bound). *)
Definition codes_below (bound : Z) (codes : matrix) : Prop :=
  Forall (Forall (fun c => 0 <= c < bound)) codes.

(** The claim on [predict_with_probability] as it is worded: the
    probabilities of a sample are all zero when its leaf holds [rows = 0]
    training rows, and lie on the simplex otherwise. *)
Definition simplex_unless_empty_leaf (row : list fval) (rows : Z) : Prop :=
  if rows =? 0 then all_zero row else simplex row.

(** A split search that always answers the same split; at depth 0 no
    search is made. *)
Definition constant_split :
    gain_callback -> matrix -> matrix -> nat -> matrix -> nat
    -> DecisionTree.split :=
  fun _ _ _ _ _ _ => DecisionTree.no_split.

(** The number that a float holds (0 for a special value), and the sum of
    a list of numbers. *)
Definition real_of (x : fval) : R :=
  match x with Fin r => r | _ => 0%R end.

Definition rsum (l : list R) : R := fold_right Rplus 0%R l.

(** A probability between 0 and 1. *)
Definition unit_interval (p : fval) : Prop :=
  exists r, p = Fin r /\ (0 <= r <= 1)%R.

(** Three rows with the targets 0, 1 and 2 and one feature column. *)
Definition c4_in_sample : matrix := [[0; 1]; [1; 1]; [2; 1]].

(** A tree of depth 1 fitted on two rows with the targets 0 and 1. *)
Definition fitted_stump : DecisionTreeClassifier.tree :=
  DecisionTreeClassifier.fit Z.gtb constant_split
    (DecisionTreeClassifier.new 1 DecisionTreeClassifier.ENTROPY)
    [[0; 1]; [1; 2]] 1.

(** Two trees of depth 1 fitted in one batch, each on those two rows. *)
Definition fitted_pair : DecisionTreeClassifier.forest :=
  DecisionTreeClassifier.fit_batch Z.gtb constant_split
    (DecisionTreeClassifier.new_batch 1 DecisionTreeClassifier.ENTROPY)
    [[[0; 1]; [1; 2]]; [[0; 1]; [1; 2]]] 1.

(** Two observations with the labels 0 and 1, one target, one candidate
    split that sends the first observation to branch 0 and the second to
    branch 1. *)
Definition c1_unique_y : list Z := [0; 1].
Definition c1_in_sample_y : matrix := [[0]; [1]].
Definition c1_branches : tensor4 := [[[[0]]]; [[[1]]]].

End Scenario.

(** ** [__str__] of the three classes *)

Module Printing.

Import String.
Local Open Scope string_scope.

(** [str] of a non-negative integer and of an integer: decimal digits, a
    leading minus sign for a negative number. *)
Definition str_nat (n : nat) : string :=
  DecimalString.NilEmpty.string_of_uint (Nat.to_uint n).

Definition str_Z (z : Z) : string :=
  DecimalString.NilEmpty.string_of_int (Z.to_int z).

(** [Impurity.value]. *)
Definition Impurity_value (i : DecisionTreeClassifier.Impurity) : string :=
  match i with
  | DecisionTreeClassifier.ENTROPY => "Entropy"
  end.

Definition DecisionTreeClassifier_str {ST CT : Type}
    (self : DecisionTreeClassifier.t ST CT) : string :=
  "Decision Tree Classifier: "
  ++ ("depth=" ++ str_nat (DecisionTreeClassifier.depth self) ++ ", ")
  ++ ("impurity=" ++ Impurity_value (DecisionTreeClassifier.impurity self)).

Definition BaggingClassifier_str (self : BaggingClassifier.t) : string :=
  "Bagging Classifier: "
  ++ ("depth="
      ++ str_nat (DecisionTreeClassifier.depth (BaggingClassifier.base self))
      ++ ", ")
  ++ ("impurity="
      ++ Impurity_value
           (DecisionTreeClassifier.impurity (BaggingClassifier.base self))
      ++ ", ")
  ++ ("number_of_subset="
      ++ str_nat (BaggingClassifier.number_of_subset self) ++ ", ")
  ++ ("subset_size=" ++ str_nat (BaggingClassifier.subset_size self) ++ ", ")
  ++ ("seed=" ++ str_Z (BaggingClassifier.seed self)).

Definition RandomForestClassifier_str (self : RandomForestClassifier.t)
    : string :=
  "Random Forest Classifier: "
  ++ ("depth="
      ++ str_nat
           (DecisionTreeClassifier.depth (RandomForestClassifier.base self))
      ++ ", ")
  ++ ("impurity="
      ++ Impurity_value
           (DecisionTreeClassifier.impurity
              (RandomForestClassifier.base self))
      ++ ", ")
  ++ ("number_of_chosen_feature="
      ++ str_nat (RandomForestClassifier.number_of_chosen_feature self)
      ++ ", ")
  ++ ("number_of_subset="
      ++ str_nat (RandomForestClassifier.number_of_subset self) ++ ", ")
  ++ ("subset_size="
      ++ str_nat (RandomForestClassifier.subset_size self) ++ ", ")
  ++ ("seed=" ++ str_Z (RandomForestClassifier.seed self)).

End Printing.

(** * Properties *)

Import Scenario.

(** ** Floats *)

Open Scope R_scope.

Lemma ln2_pos : 0 < ln 2.
Proof. rewrite <- ln_1. apply ln_increasing; lra. Qed.

Lemma log2_pos (r : R) : 0 < r -> log2 (Fin r) = Fin (ln r / ln 2).
Proof.
  intros H. unfold log2. destruct (Rlt_dec 0 r); [reflexivity | contradiction].
Qed.

Lemma log2_zero : log2 (Fin 0) = NInf.
Proof.
  unfold log2. destruct (Rlt_dec 0 0); [lra |].
  destruct (Req_dec_T 0 0); [reflexivity | lra].
Qed.

Lemma scale_inf_zero (s : bool) : scale_inf s 0 = NaN.
Proof. unfold scale_inf. destruct (Req_dec_T 0 0); [reflexivity | lra]. Qed.

(** The factor [log2(p) * p] after [nan_to_num], at the three values of
    [p] that a split of two observations produces. *)
Lemma entropy_term_zero :
  nan_to_num (fmul (log2 (Fin 0)) (Fin 0)) = Fin 0.
Proof. rewrite log2_zero. simpl. rewrite scale_inf_zero. reflexivity. Qed.

Lemma entropy_term_one :
  nan_to_num (fmul (log2 (Fin 1)) (Fin 1)) = Fin 0.
Proof.
  rewrite log2_pos by lra. simpl. f_equal. rewrite ln_1. field.
  apply Rgt_not_eq, ln2_pos.
Qed.

Lemma entropy_term_two :
  nan_to_num (fmul (log2 (Fin 2)) (Fin 2)) = Fin 2.
Proof.
  rewrite log2_pos by lra. simpl. f_equal. field.
  apply Rgt_not_eq, ln2_pos.
Qed.

Close Scope R_scope.

(** ** C1: the entropy criterion *)

(** C1, the code at this input: the observation outside a branch has the
    masked target [0 * y = 0] and is counted with the class 0, so the
    class 0 gets probability 2/1 in branch 0 and the returned gain is 3,
    where the formula of the specification gives 1. *)
Theorem information_gain_entropy_label_zero :
  DecisionTreeClassifier.information_gain_entropy_of
    c1_unique_y c1_in_sample_y c1_branches 2 = [[[Fin 3]]]
  /\ EntropySpec.gain c1_unique_y c1_in_sample_y c1_branches 2 0 0 0 = Fin 1
  /\ DecisionTreeClassifier.category_count c1_in_sample_y c1_branches 0 0 0 0 0 = 2
  /\ EntropySpec.count_class_branch c1_in_sample_y c1_branches 0 0 0 0 0 = 1.
Proof.
  split; [| split; [| split; reflexivity]].
  - unfold DecisionTreeClassifier.information_gain_entropy_of.
    cbn [c1_branches nth length seq map].
    unfold DecisionTreeClassifier.gain, DecisionTreeClassifier.probability.
    change (arange 2) with [0; 1]. cbn [map c1_unique_y].
    replace (DecisionTreeClassifier.category_count c1_in_sample_y c1_branches 0 0 0 0 0) with 2 by reflexivity.
    replace (DecisionTreeClassifier.category_count c1_in_sample_y c1_branches 0 0 0 0 1) with 0 by reflexivity.
    replace (DecisionTreeClassifier.category_count c1_in_sample_y c1_branches 0 0 0 1 0) with 1 by reflexivity.
    replace (DecisionTreeClassifier.category_count c1_in_sample_y c1_branches 0 0 0 1 1) with 1 by reflexivity.
    replace (DecisionTreeClassifier.branch_count c1_branches 0 0 0 0) with 1 by reflexivity.
    replace (DecisionTreeClassifier.branch_count c1_branches 0 0 0 1) with 1 by reflexivity.
    cbn [truediv Z.eqb Z.ltb Z.compare Pos.compare Pos.compare_cont c1_in_sample_y length Z.of_nat Pos.of_succ_nat Pos.succ Pos.eqb].
    replace (2 / 1)%R with 2%R by field.
    replace (0 / 1)%R with 0%R by field.
    replace (1 / 1)%R with 1%R by field.
    rewrite entropy_term_zero, entropy_term_one, entropy_term_two.
    cbn [fsum fold_left fmul fadd].
    match goal with |- [[[Fin ?a]]] = _ => replace a with 3%R by field end.
    reflexivity.
  - unfold EntropySpec.gain, EntropySpec.p, EntropySpec.w.
    change (arange 2) with [0; 1]. cbn [map c1_unique_y].
    replace (EntropySpec.count_class_branch c1_in_sample_y c1_branches 0 0 0 0 0) with 1 by reflexivity.
    replace (EntropySpec.count_class_branch c1_in_sample_y c1_branches 0 0 0 0 1) with 0 by reflexivity.
    replace (EntropySpec.count_class_branch c1_in_sample_y c1_branches 0 0 0 1 0) with 0 by reflexivity.
    replace (EntropySpec.count_class_branch c1_in_sample_y c1_branches 0 0 0 1 1) with 1 by reflexivity.
    replace (EntropySpec.count_branch c1_branches 0 0 0 0) with 1 by reflexivity.
    replace (EntropySpec.count_branch c1_branches 0 0 0 1) with 1 by reflexivity.
    cbn [truediv Z.eqb Z.ltb Z.compare Pos.compare Pos.compare_cont c1_in_sample_y length Z.of_nat Pos.of_succ_nat Pos.succ Pos.eqb].
    replace (0 / 1)%R with 0%R by field.
    replace (1 / 1)%R with 1%R by field.
    rewrite entropy_term_zero, entropy_term_one.
    cbn [fsum fold_left fmul fadd].
    match goal with |- Fin ?a = _ => replace a with 1%R by field end.
    reflexivity.
Qed.

(** Where the code and the formula part: only at the label 0. *)

Lemma count_nonzero_ind {A : Type} (g : A -> bool) (l : list A) :
  count_nonzero (map (fun a => ind (g a)) l) = count_true (map g l).
Proof.
  unfold count_nonzero, count_true. f_equal.
  induction l as [| a l IH]; [reflexivity |].
  cbn [map filter]. unfold ind at 1.
  destruct (g a); cbn [Z.mul Z.eqb negb length]; rewrite IH; reflexivity.
Qed.

Lemma branch_count_is_count_branch (branches : tensor4) (t c f : nat) (b : Z) :
  DecisionTreeClassifier.branch_count branches t c f b
  = EntropySpec.count_branch branches t c f b.
Proof.
  unfold DecisionTreeClassifier.branch_count, EntropySpec.count_branch,
    DecisionTreeClassifier.branch, DecisionTreeClassifier.observations.
  apply count_nonzero_ind.
Qed.

(** For a label other than 0 the code counts the observations of the branch
    that carry the label. *)
Lemma category_count_other_label (y : matrix) (branches : tensor4)
    (t c f : nat) (b u : Z) :
  u <> 0 ->
  DecisionTreeClassifier.category_count y branches t c f b u
  = EntropySpec.count_class_branch y branches t c f b u.
Proof.
  intros Hu.
  unfold DecisionTreeClassifier.category_count,
    EntropySpec.count_class_branch, DecisionTreeClassifier.observations.
  rewrite count_nonzero_ind. f_equal. apply map_ext. intros o.
  unfold DecisionTreeClassifier.branch, ind.
  destruct (at4 branches o t c f =? b); cbn [andb].
  - f_equal. lia.
  - change (1 * 0 * at2 y o t) with 0. apply Z.eqb_neq. lia.
Qed.

(** For the label 0 it counts, besides them, every observation outside the
    branch. *)
Lemma category_count_label_zero (y : matrix) (branches : tensor4)
    (t c f : nat) (b : Z) :
  DecisionTreeClassifier.category_count y branches t c f b 0
  = count_true
      (map (fun o => negb (at4 branches o t c f =? b) || (at2 y o t =? 0))
           (seq 0 (length branches))).
Proof.
  unfold DecisionTreeClassifier.category_count,
    DecisionTreeClassifier.observations.
  rewrite count_nonzero_ind. f_equal. apply map_ext. intros o.
  unfold DecisionTreeClassifier.branch, ind.
  destruct (at4 branches o t c f =? b); cbn [negb orb].
  - f_equal. lia.
  - reflexivity.
Qed.

(** X1.  When 0 is not one of the labels, [information_gain_entropy]
    returns, in every cell, 1 plus the sum over branches and labels of
    [nan_to_num(log2(p) * p) * w], where [p] is the share of the label
    among the observations of the branch and [w] the share of those
    observations among all of them. *)
Lemma gain_without_label_zero (uy : list Z) (y : matrix) (branches : tensor4)
    (number_of_branches : Z) (t c f : nat) :
  ~ In 0 uy ->
  DecisionTreeClassifier.gain uy y branches number_of_branches t c f
  = EntropySpec.gain uy y branches number_of_branches t c f.
Proof.
  intros H0. unfold DecisionTreeClassifier.gain, EntropySpec.gain.
  do 2 f_equal. apply map_ext. intros b. f_equal.
  apply map_ext_in. intros u Hu.
  assert (Hne : u <> 0) by (intros ->; contradiction).
  unfold DecisionTreeClassifier.probability, EntropySpec.p, EntropySpec.w.
  rewrite category_count_other_label by exact Hne.
  rewrite branch_count_is_count_branch. reflexivity.
Qed.

(** ** Lists read by index *)

Lemma nth_map_seq {A : Type} (f : nat -> A) (n i : nat) (d : A) :
  (i < n)%nat -> nth i (map f (seq 0 n)) d = f i.
Proof.
  intros H.
  rewrite (nth_indep _ d (f 0%nat)) by (rewrite length_map, length_seq; exact H).
  rewrite (map_nth f), seq_nth by exact H. reflexivity.
Qed.

Lemma map_nth_seq {A B : Type} (f : A -> B) (l : list A) (d : A) :
  map (fun i => f (nth i l d)) (seq 0 (length l)) = map f l.
Proof.
  induction l as [| a l IH]; [reflexivity |].
  cbn [length seq map nth]. f_equal.
  rewrite <- seq_shift, map_map. exact IH.
Qed.

(** ** C3: the labels are those of the first fit *)

Lemma insert_unique_In (x v : Z) (l : list Z) :
  In v (insert_unique x l) <-> v = x \/ In v l.
Proof.
  induction l as [| y l IH]; cbn [insert_unique].
  - cbn. intuition.
  - destruct (x <? y) eqn:Hlt; [cbn; intuition |].
    destruct (x =? y) eqn:Heq.
    + apply Z.eqb_eq in Heq. subst y. cbn. intuition.
    + cbn [In]. rewrite IH. intuition.
Qed.

Lemma unique_In (v : Z) (flat : list Z) : In v (unique flat) <-> In v flat.
Proof.
  induction flat as [| x flat IH]; cbn [unique fold_right]; [reflexivity |].
  fold (unique flat). rewrite insert_unique_In, IH. cbn. intuition.
Qed.

Lemma insert_unique_sorted (x : Z) (l : list Z) :
  StronglySorted Z.lt l -> StronglySorted Z.lt (insert_unique x l).
Proof.
  induction l as [| y l IH]; intros Hs; cbn [insert_unique].
  - constructor; constructor.
  - inversion Hs as [| ? ? Hl Hy]; subst.
    destruct (x <? y) eqn:Hlt.
    + apply Z.ltb_lt in Hlt. constructor; [exact Hs |].
      constructor; [exact Hlt |].
      eapply Forall_impl; [| exact Hy]. intros z Hz. cbn in Hz. lia.
    + destruct (x =? y) eqn:Heq; [exact Hs |].
      apply Z.ltb_ge in Hlt. apply Z.eqb_neq in Heq.
      constructor; [exact (IH Hl) |].
      apply Forall_forall. intros z Hz.
      apply insert_unique_In in Hz. destruct Hz as [-> | Hz]; [lia |].
      rewrite Forall_forall in Hy. exact (Hy z Hz).
Qed.

Lemma unique_sorted (flat : list Z) : StronglySorted Z.lt (unique flat).
Proof.
  induction flat as [| x flat IH]; cbn [unique fold_right].
  - constructor.
  - apply insert_unique_sorted. exact IH.
Qed.

Lemma sorted_NoDup (l : list Z) : StronglySorted Z.lt l -> NoDup l.
Proof.
  induction 1 as [| x l Hs IH Hx]; constructor; [| exact IH].
  intros Hin. rewrite Forall_forall in Hx. specialize (Hx x Hin). lia.
Qed.

Lemma unique_NoDup (flat : list Z) : NoDup (unique flat).
Proof. apply sorted_NoDup, unique_sorted. Qed.

Lemma insert_unique_length (x : Z) (l : list Z) :
  (length (insert_unique x l) <= S (length l))%nat.
Proof.
  induction l as [| y l IH]; cbn [insert_unique length]; [lia |].
  destruct (x <? y); [cbn [length]; lia |].
  destruct (x =? y); cbn [length]; lia.
Qed.

Lemma unique_length (flat : list Z) :
  (length (unique flat) <= length flat)%nat.
Proof.
  induction flat as [| x flat IH]; cbn [unique fold_right length]; [lia |].
  fold (unique flat). pose proof (insert_unique_length x (unique flat)). lia.
Qed.

(** Once set, the labels survive every hook. *)
Lemma run_call_unique_y (self : DecisionTreeClassifier.tree) (c : call)
    (u : list Z) :
  DecisionTreeClassifier.unique_y self = Some u ->
  DecisionTreeClassifier.unique_y (run_call self c) = Some u.
Proof.
  intros H. destruct c as [y | y b n]; cbn [run_call].
  - unfold DecisionTreeClassifier.pre_fit, DecisionTreeClassifier.pre_fit_flat.
    rewrite H. exact H.
  - exact H.
Qed.

Lemma run_calls_unique_y (calls : list call)
    (self : DecisionTreeClassifier.tree) (u : list Z) :
  DecisionTreeClassifier.unique_y self = Some u ->
  DecisionTreeClassifier.unique_y (fold_left run_call calls self) = Some u.
Proof.
  revert self. induction calls as [| c calls IH]; intros self H; [exact H |].
  cbn [fold_left]. apply IH, run_call_unique_y, H.
Qed.

(** C3.  On an instance whose [unique_y] is still unset, [pre_fit] stores
    the distinct target values in increasing order.  Any later [pre_fit]
    changes nothing, whatever its data; after any sequence of hook calls
    the labels are still those of the first fit, so a value that the first
    fit did not see is never one of the labels the predictions are indexed
    by. *)
Theorem pre_fit_first_fit_wins
    (self : DecisionTreeClassifier.tree) (in_sample_y : matrix)
    (Hfirst : DecisionTreeClassifier.unique_y self = None) :
  let first := DecisionTreeClassifier.pre_fit self in_sample_y in
  DecisionTreeClassifier.unique_y first = Some (unique (concat in_sample_y))
  /\ StronglySorted Z.lt (unique (concat in_sample_y))
  /\ (forall v, In v (unique (concat in_sample_y)) <-> In v (concat in_sample_y))
  /\ (forall later, DecisionTreeClassifier.pre_fit first later = first)
  /\ (forall calls to_branch_1 sample_x v,
        let self' := fold_left run_call calls first in
        DecisionTreeClassifier.unique_y_of
          (DecisionTreeClassifier.predict_with_probability
             to_branch_1 self' sample_x)
        = Some (unique (concat in_sample_y))
        /\ (~ In v (concat in_sample_y) ->
            ~ In v (DecisionTreeClassifier.labels self'))).
Proof.
  intros first.
  assert (Hu : DecisionTreeClassifier.unique_y first
               = Some (unique (concat in_sample_y))).
  { unfold first, DecisionTreeClassifier.pre_fit,
      DecisionTreeClassifier.pre_fit_flat.
    rewrite Hfirst. reflexivity. }
  split; [exact Hu |].
  split; [apply unique_sorted |].
  split; [intros v; apply unique_In |].
  split.
  - intros later.
    unfold DecisionTreeClassifier.pre_fit at 1.
    unfold DecisionTreeClassifier.pre_fit_flat. rewrite Hu. reflexivity.
  - intros calls to_branch_1 sample_x v self'.
    pose proof (run_calls_unique_y calls first _ Hu) as Hkeep.
    fold self' in Hkeep. split.
    + cbn [DecisionTreeClassifier.predict_with_probability
             DecisionTreeClassifier.unique_y_of]. exact Hkeep.
    + unfold DecisionTreeClassifier.labels. rewrite Hkeep.
      rewrite unique_In. tauto.
Qed.

(** A fresh instance, first fitted on the targets 2, 1, 2 and later on the
    targets 3, 3. *)
Lemma pre_fit_first_fit_wins_witness :
  DecisionTreeClassifier.unique_y
    (DecisionTreeClassifier.new 1 DecisionTreeClassifier.ENTROPY)
  = None
  /\ DecisionTreeClassifier.unique_y
       (DecisionTreeClassifier.pre_fit
          (DecisionTreeClassifier.pre_fit
             (DecisionTreeClassifier.new 1 DecisionTreeClassifier.ENTROPY)
             [[2]; [1]; [2]])
          [[3]; [3]])
     = Some [1; 2].
Proof.
  split; [reflexivity |].
  pose proof (pre_fit_first_fit_wins
                (DecisionTreeClassifier.new 1 DecisionTreeClassifier.ENTROPY)
                [[2]; [1]; [2]] eq_refl) as H.
  cbv zeta in H.
  destruct H as [H1 [_ [_ [H4 _]]]].
  rewrite (H4 [[3]; [3]]). exact H1.
Defined.

(** ** Sums of counts *)

Lemma zsum_app (l1 l2 : list Z) : zsum (l1 ++ l2) = zsum l1 + zsum l2.
Proof.
  induction l1 as [| a l1 IH]; cbn [app zsum fold_right]; [reflexivity |].
  fold (zsum (l1 ++ l2)). fold (zsum l1). lia.
Qed.

Lemma zsum_map_add {A : Type} (f g : A -> Z) (l : list A) :
  zsum (map (fun a => f a + g a) l) = zsum (map f l) + zsum (map g l).
Proof.
  induction l as [| a l IH]; cbn [map zsum fold_right]; [reflexivity |].
  fold (zsum (map (fun a => f a + g a) l)).
  fold (zsum (map f l)). fold (zsum (map g l)). lia.
Qed.

Lemma zsum_map_zero {A : Type} (l : list A) : zsum (map (fun _ => 0) l) = 0.
Proof. induction l as [| a l IH]; cbn; [reflexivity | exact IH]. Qed.

Lemma zsum_map_ext_in {A : Type} (f g : A -> Z) (l : list A) :
  (forall a, In a l -> f a = g a) -> zsum (map f l) = zsum (map g l).
Proof. intros H. f_equal. apply map_ext_in, H. Qed.

(** The order of two summations. *)
Lemma zsum_swap {A B : Type} (f : A -> B -> Z) (la : list A) (lb : list B) :
  zsum (map (fun a => zsum (map (f a) lb)) la)
  = zsum (map (fun b => zsum (map (fun a => f a b) la)) lb).
Proof.
  induction la as [| a la IH]; cbn [map zsum fold_right].
  - symmetry. apply zsum_map_zero.
  - fold (zsum (map (fun a => zsum (map (f a) lb)) la)). rewrite IH.
    symmetry. apply (zsum_map_add (f a)).
Qed.

Lemma zsum_map_scale {A : Type} (k : Z) (f : A -> Z) (l : list A) :
  zsum (map (fun a => k * f a) l) = k * zsum (map f l).
Proof.
  induction l as [| a l IH]; cbn [map zsum fold_right]; [lia |].
  fold (zsum (map (fun a => k * f a) l)). fold (zsum (map f l)). lia.
Qed.

Lemma count_true_zsum {A : Type} (g : A -> bool) (l : list A) :
  count_true (map g l) = zsum (map (fun a => Z.b2z (g a)) l).
Proof.
  unfold count_true.
  induction l as [| a l IH]; cbn [map filter length zsum fold_right];
    [reflexivity |].
  fold (zsum (map (fun a => Z.b2z (g a)) l)). rewrite <- IH.
  destruct (g a); cbn [length Z.b2z]; lia.
Qed.

Lemma count_true_nonneg (l : list bool) : 0 <= count_true l.
Proof. unfold count_true. lia. Qed.

(** A code below [n] is met once by [arange]. *)
Lemma zsum_seq_eqb (c : Z) (n : nat) :
  0 <= c ->
  zsum (map (fun l => Z.b2z (c =? Z.of_nat l)) (seq 0 n))
  = Z.b2z (c <? Z.of_nat n).
Proof.
  intros Hc. induction n as [| n IH].
  - cbn. destruct (c <? 0) eqn:E; [apply Z.ltb_lt in E; lia | reflexivity].
  - rewrite seq_S, map_app, zsum_app, IH. cbn [Nat.add map zsum fold_right].
    destruct (c <? Z.of_nat n) eqn:E1; destruct (c =? Z.of_nat n) eqn:E2;
      destruct (c <? Z.of_nat (S n)) eqn:E3; cbn [Z.b2z];
      rewrite ?Z.ltb_lt, ?Z.ltb_ge, ?Z.eqb_eq, ?Z.eqb_neq in *; lia.
Qed.

Lemma zsum_arange_eqb (c stop : Z) :
  0 <= c ->
  zsum (map (fun l => Z.b2z (c =? l)) (arange stop)) = Z.b2z (c <? stop).
Proof.
  intros Hc. unfold arange. rewrite map_map, zsum_seq_eqb by exact Hc.
  destruct (c <? Z.of_nat (Z.to_nat stop)) eqn:E1;
    destruct (c <? stop) eqn:E2; cbn [Z.b2z];
    rewrite ?Z.ltb_lt, ?Z.ltb_ge in *; lia.
Qed.

(** A value is met once by a list of distinct labels that holds it. *)
Lemma zsum_labels_eqb (uy : list Z) (v : Z) :
  NoDup uy ->
  zsum (map (fun u => Z.b2z (v =? u)) uy) = Z.b2z (known uy v).
Proof.
  unfold known.
  induction 1 as [| u uy Hnotin Hnodup IH]; [reflexivity |].
  cbn [map zsum fold_right existsb].
  fold (zsum (map (fun u => Z.b2z (v =? u)) uy)). rewrite IH.
  destruct (v =? u) eqn:E; [| reflexivity].
  apply Z.eqb_eq in E. subst u.
  destruct (existsb (Z.eqb v) uy) eqn:Ex; [| reflexivity].
  apply existsb_exists in Ex. destruct Ex as [x [Hx Hvx]].
  apply Z.eqb_eq in Hvx. subst x. contradiction.
Qed.

(** ** C10: what [post_fit] counts *)

(** The masked comparison of [post_fit]: [branch / branch] is 1 on the
    members of a leaf and NaN elsewhere, and NaN equals no label. *)
Lemma masked_target_eq (member : bool) (y u : Z) :
  feqb (fmul (truediv (ind member) (ind member)) (of_Z y)) (of_Z (u * 1))
  = member && (y =? u).
Proof.
  destruct member; unfold ind; cbn [andb]; [| reflexivity].
  change (1 * 1) with 1. rewrite Z.mul_1_r.
  unfold truediv, of_Z. cbn [Z.eqb fmul feqb].
  match goal with
  | |- context [Req_dec_T ?a ?b] => destruct (Req_dec_T a b) as [E | E]
  end; destruct (y =? u) eqn:Hyu; try reflexivity.
  - apply Z.eqb_neq in Hyu. exfalso. apply Hyu, eq_IZR.
    rewrite <- E. field.
  - apply Z.eqb_eq in Hyu. subst u. exfalso. apply E. field.
Qed.

Lemma count_table_target (uy : list Z) (in_sample_y branch : matrix)
    (number_of_branches : Z) (t : nat) :
  (t < length (nth 0 in_sample_y []))%nat ->
  nth t (DecisionTreeClassifier.count_table uy in_sample_y branch
           number_of_branches) []
  = map (fun u => map (fun l => leaf_class_count in_sample_y branch t u l)
                      (arange number_of_branches))
        uy.
Proof.
  intros Ht. unfold DecisionTreeClassifier.count_table.
  rewrite nth_map_seq by exact Ht.
  apply map_ext. intros u. apply map_ext. intros l.
  unfold leaf_class_count. f_equal. apply map_ext. intros o.
  apply masked_target_eq.
Qed.

(** The rows of one target, summed over the class and leaf axes. *)
Lemma count_table_total (uy : list Z) (in_sample_y branch : matrix)
    (number_of_branches : Z) (t : nat) :
  NoDup uy ->
  (t < length (nth 0 in_sample_y []))%nat ->
  (forall o, (o < length in_sample_y)%nat ->
             0 <= at2 branch o t < number_of_branches) ->
  zsum (map zsum
          (nth t (DecisionTreeClassifier.count_table uy in_sample_y branch
                    number_of_branches) []))
  = known_rows uy in_sample_y t.
Proof.
  intros Hnodup Ht Hrange.
  rewrite count_table_target by exact Ht.
  rewrite map_map. unfold leaf_class_count, known_rows.
  rewrite count_true_zsum.
  erewrite zsum_map_ext_in.
  2:{ intros u _. erewrite zsum_map_ext_in.
      2:{ intros l _. apply count_true_zsum. }
      apply zsum_swap. }
  rewrite zsum_swap.
  apply zsum_map_ext_in. intros o Ho.
  apply in_seq in Ho. specialize (Hrange o ltac:(lia)).
  erewrite zsum_map_ext_in.
  2:{ intros u _.
      erewrite zsum_map_ext_in.
      2:{ intros l _.
          instantiate (1 := fun l => Z.b2z (at2 in_sample_y o t =? u)
                                     * Z.b2z (at2 branch o t =? l)).
          cbv beta.
          destruct (at2 branch o t =? l), (at2 in_sample_y o t =? u);
            reflexivity. }
      rewrite zsum_map_scale, zsum_arange_eqb by lia.
      replace (at2 branch o t <? number_of_branches) with true
        by (symmetry; apply Z.ltb_lt; lia).
      cbn [Z.b2z]. apply Z.mul_1_r. }
  apply zsum_labels_eqb, Hnodup.
Qed.

(** C10.  With the labels frozen by an earlier fit, [post_fit] raises
    nothing and stores a count tensor in which, for every target, the sum
    over the class and leaf axes is the number of training rows whose target
    value is one of the labels: the other rows are left out. *)
Theorem post_fit_counts_known_rows
    (self : DecisionTreeClassifier.tree) (in_sample_y branch : matrix)
    (number_of_branches : Z) (t : nat)
    (Hlabels : NoDup (DecisionTreeClassifier.labels self))
    (Htarget : (t < length (nth 0 in_sample_y []))%nat)
    (Hleaf : forall o, (o < length in_sample_y)%nat ->
                       0 <= at2 branch o t < number_of_branches) :
  exists cnt,
    DecisionTreeClassifier.count
      (DecisionTreeClassifier.post_fit self in_sample_y branch
         number_of_branches) = Some cnt
    /\ zsum (map zsum (nth t cnt []))
       = known_rows (DecisionTreeClassifier.labels self) in_sample_y t
    /\ known_rows (DecisionTreeClassifier.labels self) in_sample_y t
       <= Z.of_nat (length in_sample_y).
Proof.
  eexists. split; [reflexivity |]. split.
  - apply count_table_total; assumption.
  - unfold known_rows, count_true.
    pose proof (filter_length_le (fun c : bool => c)
                  (map (fun o => known (DecisionTreeClassifier.labels self)
                                       (at2 in_sample_y o t))
                       (seq 0 (length in_sample_y)))) as H.
    rewrite length_map, length_seq in H. lia.
Qed.

(** The labels are frozen to [0] by a first fit; a later fit brings the
    targets 0 and 5 in one leaf: one row is counted, not two. *)
Lemma post_fit_counts_known_rows_witness :
  exists cnt,
    DecisionTreeClassifier.count
      (DecisionTreeClassifier.post_fit
         (DecisionTreeClassifier.pre_fit
            (DecisionTreeClassifier.new 0 DecisionTreeClassifier.ENTROPY)
            [[0]; [0]])
         [[0]; [5]] [[0]; [0]] 1) = Some cnt
    /\ zsum (map zsum (nth 0%nat cnt [])) = 1.
Proof.
  destruct (post_fit_counts_known_rows
              (DecisionTreeClassifier.pre_fit
                 (DecisionTreeClassifier.new 0 DecisionTreeClassifier.ENTROPY)
                 [[0]; [0]])
              [[0]; [5]] [[0]; [0]] 1 0%nat) as [cnt [Hc [Hs _]]].
  - repeat constructor; simpl; tauto.
  - simpl; lia.
  - intros [| [| o]] Ho; [vm_compute; split; congruence .. | simpl in Ho; lia].
  - exists cnt. split; [exact Hc | exact Hs].
Defined.

(** The same count on an instance with a leading batch axis, member by
    member. *)
Lemma post_fit_batch_counts_known_rows
    (self : DecisionTreeClassifier.forest) (in_sample_y branch : list matrix)
    (number_of_branches : Z) (k t : nat) :
  NoDup (DecisionTreeClassifier.labels self) ->
  (k < length in_sample_y)%nat ->
  length branch = length in_sample_y ->
  (t < length (nth 0 (nth k in_sample_y []) []))%nat ->
  (forall o, (o < length (nth k in_sample_y []))%nat ->
             0 <= at2 (nth k branch []) o t < number_of_branches) ->
  exists cnt,
    DecisionTreeClassifier.count
      (DecisionTreeClassifier.post_fit_batch self in_sample_y branch
         number_of_branches) = Some cnt
    /\ zsum (map zsum (nth t (nth k cnt []) []))
       = known_rows (DecisionTreeClassifier.labels self)
                    (nth k in_sample_y []) t.
Proof.
  intros Hnodup Hk Hlen Ht Hleaf. eexists. split; [reflexivity |].
  rewrite (nth_indep _ []
             ((fun yb => DecisionTreeClassifier.count_table
                           (DecisionTreeClassifier.labels self)
                           (fst yb) (snd yb) number_of_branches)
                (@nil (list Z), @nil (list Z))))
    by (rewrite length_map, length_combine; lia).
  rewrite (map_nth (fun yb => DecisionTreeClassifier.count_table
                                (DecisionTreeClassifier.labels self)
                                (fst yb) (snd yb) number_of_branches)).
  rewrite combine_nth by (symmetry; exact Hlen). cbn [fst snd].
  apply count_table_total; assumption.
Qed.

(** ** C8: the range of the leaf codes *)

Section EngineFacts.

Import DecisionTree.

Variable to_branch_1 : Z -> Z -> bool.
Variable best_split :
  gain_callback -> matrix -> matrix -> nat -> matrix -> nat -> split.

Lemma branch_choice_bit (s : split) (x_row : list Z) :
  0 <= branch_choice to_branch_1 s x_row <= 1.
Proof. unfold branch_choice. destruct (to_branch_1 _ _); lia. Qed.

Lemma codes_below_at2 (bound : Z) (codes : matrix) (o t : nat) :
  0 < bound -> codes_below bound codes -> 0 <= at2 codes o t < bound.
Proof.
  intros Hb Hc. unfold at2, codes_below in *.
  rewrite Forall_forall in Hc.
  destruct (nth_in_or_default o codes []) as [Hin | Hd].
  - specialize (Hc _ Hin). rewrite Forall_forall in Hc.
    destruct (nth_in_or_default t (nth o codes []) 0) as [Hin' | Hd'].
    + exact (Hc _ Hin').
    + rewrite Hd'. lia.
  - rewrite Hd. destruct t; cbn; lia.
Qed.

Lemma fold_level_length (T : nat) (level : list split) (codes x : matrix) :
  length (fold_level to_branch_1 T level codes x) = length x.
Proof. unfold fold_level. rewrite length_map, length_seq. reflexivity. Qed.

Lemma fold_level_row_length (T : nat) (level : list split)
    (codes x : matrix) (o : nat) :
  (o < length x)%nat ->
  length (nth o (fold_level to_branch_1 T level codes x) []) = T.
Proof.
  intros Ho. unfold fold_level. rewrite nth_map_seq by exact Ho.
  rewrite length_map, length_seq. reflexivity.
Qed.

(** One more level doubles the bound. *)
Lemma fold_level_below (T : nat) (level : list split) (codes x : matrix)
    (bound : Z) :
  0 < bound -> codes_below bound codes ->
  codes_below (bound * 2) (fold_level to_branch_1 T level codes x).
Proof.
  intros Hb Hc. unfold codes_below, fold_level.
  apply Forall_forall. intros row Hrow.
  apply in_map_iff in Hrow. destruct Hrow as [o [<- _]].
  apply Forall_forall. intros c Hcin.
  apply in_map_iff in Hcin. destruct Hcin as [t [<- _]].
  pose proof (codes_below_at2 bound codes o t Hb Hc).
  pose proof (branch_choice_bit (nth t level no_split) (nth o x [])).
  unfold branch_arity. lia.
Qed.

Lemma replay_below (T : nat) (x : matrix) (record : split_table) :
  forall (codes : matrix) (bound : Z),
    0 < bound -> codes_below bound codes ->
    codes_below (bound * 2 ^ Z.of_nat (length record))
                (replay to_branch_1 T x record codes).
Proof.
  induction record as [| level record IH]; intros codes bound Hb Hc.
  - cbn [length replay fold_left]. change (2 ^ Z.of_nat 0) with 1.
    rewrite Z.mul_1_r. exact Hc.
  - cbn [length replay fold_left].
    replace (bound * 2 ^ Z.of_nat (S (length record)))
      with (bound * 2 * 2 ^ Z.of_nat (length record)).
    + apply IH; [lia | apply fold_level_below; assumption].
    + rewrite Nat2Z.inj_succ, Z.pow_succ_r by lia. lia.
Qed.

Lemma replay_length (T : nat) (x : matrix) (record : split_table) :
  forall codes, length codes = length x ->
                length (replay to_branch_1 T x record codes) = length x.
Proof.
  induction record as [| level record IH]; intros codes Hc; [exact Hc |].
  cbn [replay fold_left]. apply IH, fold_level_length.
Qed.

Lemma replay_row_length (T : nat) (x : matrix) (record : split_table)
    (o : nat) :
  (o < length x)%nat ->
  forall codes, length (nth o codes []) = T ->
                length (nth o (replay to_branch_1 T x record codes) []) = T.
Proof.
  intros Ho.
  induction record as [| level record IH]; intros codes Hc; [exact Hc |].
  cbn [replay fold_left]. apply IH, fold_level_row_length, Ho.
Qed.

Lemma zeros_below (T : nat) (x : matrix) :
  codes_below 1 (map (fun _ => repeat 0 T) x).
Proof.
  apply Forall_forall. intros row Hrow.
  apply in_map_iff in Hrow. destruct Hrow as [_ [<- _]].
  apply Forall_forall. intros c Hc. apply repeat_spec in Hc. lia.
Qed.

Lemma pre_predict_replay (T : nat) (record : split_table) (x : matrix) :
  pre_predict to_branch_1 T record x
  = replay to_branch_1 T x record (map (fun _ => repeat 0 T) x).
Proof. reflexivity. Qed.

Lemma pre_predict_below (T : nat) (record : split_table) (x : matrix) :
  codes_below (2 ^ Z.of_nat (length record))
              (pre_predict to_branch_1 T record x).
Proof.
  rewrite pre_predict_replay.
  rewrite <- (Z.mul_1_l (2 ^ Z.of_nat (length record))).
  apply replay_below; [lia | apply zeros_below].
Qed.

Lemma pre_predict_length (T : nat) (record : split_table) (x : matrix) :
  length (pre_predict to_branch_1 T record x) = length x.
Proof.
  rewrite pre_predict_replay. apply replay_length, length_map.
Qed.

Lemma pre_predict_row_length (T : nat) (record : split_table) (x : matrix)
    (o : nat) :
  (o < length x)%nat ->
  length (nth o (pre_predict to_branch_1 T record x) []) = T.
Proof.
  intros Ho. rewrite pre_predict_replay. apply replay_row_length; [exact Ho |].
  clear - Ho. revert o Ho.
  induction x as [| row x IH]; intros o Ho; [cbn in Ho; lia |].
  destruct o as [| o]; cbn [map nth]; [apply repeat_length |].
  apply IH. cbn in Ho. lia.
Qed.

(** The level loop of [fit] records one level per unit of depth, and the
    leaf codes it ends with are those that the replay of its record
    gives. *)
Lemma grow_spec (gain : gain_callback) (T : nat) (y x : matrix)
    (levels : nat) :
  forall (level : nat) (codes : matrix),
    length (fst (grow to_branch_1 best_split gain T y x levels level codes))
    = levels
    /\ snd (grow to_branch_1 best_split gain T y x levels level codes)
       = replay to_branch_1 T x
           (fst (grow to_branch_1 best_split gain T y x levels level codes))
           codes.
Proof.
  induction levels as [| levels IH]; intros level codes; [split; reflexivity |].
  cbn [grow].
  specialize (IH (S level)
                (fold_level to_branch_1 T
                   (map (best_split gain y x level codes) (seq 0 T))
                   codes x)).
  destruct (grow to_branch_1 best_split gain T y x levels (S level) _)
    as [rest final].
  cbn [fst snd] in *. destruct IH as [IH1 IH2].
  split; [cbn [length]; lia |]. cbn [replay fold_left]. exact IH2.
Qed.

(** What [fit] leaves in the instance. *)
Lemma fit_unfold (self : DecisionTreeClassifier.tree) (in_sample : matrix)
    (T : nat) :
  let y := targets T in_sample in
  let x := features T in_sample in
  let self1 := DecisionTreeClassifier.pre_fit self y in
  let grown :=
    grow to_branch_1 best_split
         (DecisionTreeClassifier.information_gain_entropy self1) T y x
         (DecisionTreeClassifier.depth self) 0
         (map (fun _ => repeat 0 T) x) in
  DecisionTreeClassifier.fit to_branch_1 best_split self in_sample T
  = DecisionTreeClassifier.set_record
      (DecisionTreeClassifier.post_fit self1 y (snd grown)
         (2 ^ Z.of_nat (DecisionTreeClassifier.depth self)))
      T (fst grown).
Proof.
  cbv zeta. unfold DecisionTreeClassifier.fit, DecisionTree.fit.
  assert (Hd : DecisionTreeClassifier.depth
                 (DecisionTreeClassifier.pre_fit self (targets T in_sample))
               = DecisionTreeClassifier.depth self).
  { unfold DecisionTreeClassifier.pre_fit,
      DecisionTreeClassifier.pre_fit_flat.
    destruct (DecisionTreeClassifier.unique_y self); reflexivity. }
  destruct (grow _ _ _ _ _ _ _ _ _) as [r leaf]. reflexivity.
Qed.

Lemma fit_depth (self : DecisionTreeClassifier.tree) (in_sample : matrix)
    (T : nat) :
  DecisionTreeClassifier.depth
    (DecisionTreeClassifier.fit to_branch_1 best_split self in_sample T)
  = DecisionTreeClassifier.depth self.
Proof.
  rewrite fit_unfold. cbn.
  unfold DecisionTreeClassifier.pre_fit, DecisionTreeClassifier.pre_fit_flat.
  destruct (DecisionTreeClassifier.unique_y self); reflexivity.
Qed.

Lemma fit_record_length (self : DecisionTreeClassifier.tree)
    (in_sample : matrix) (T : nat) :
  length (DecisionTreeClassifier.record
            (DecisionTreeClassifier.fit to_branch_1 best_split self
               in_sample T))
  = DecisionTreeClassifier.depth self.
Proof.
  rewrite fit_unfold. cbn [DecisionTreeClassifier.record
                             DecisionTreeClassifier.set_record].
  apply grow_spec.
Qed.

(** C8.  After [fit] with depth [D] (branch arity 2), every leaf code that
    [pre_predict] produces, on any sample input, lies in [0, 2^D). *)
Theorem pre_predict_leaf_code_range
    (self : DecisionTreeClassifier.tree) (in_sample : matrix) (T : nat)
    (sample_x : matrix) :
  let fitted :=
    DecisionTreeClassifier.fit to_branch_1 best_split self in_sample T in
  codes_below
    (branch_arity ^ Z.of_nat (DecisionTreeClassifier.depth fitted))
    (pre_predict to_branch_1
       (DecisionTreeClassifier.number_of_target fitted)
       (DecisionTreeClassifier.record fitted) sample_x).
Proof.
  intros fitted. unfold fitted at 1. rewrite fit_depth.
  rewrite <- (fit_record_length self in_sample T).
  apply pre_predict_below.
Qed.

End EngineFacts.

(** The scenario of [test_decision_tree_init]: depth 3, the split on the
    first feature at its first value recorded at every level, and the
    comparison [feature_value <= threshold]. *)
Example test_decision_tree_init_leaf_codes :
  DecisionTree.pre_predict Z.leb 1
    (repeat [{| DecisionTree.feature_index := 0;
                DecisionTree.threshold := 2 |}] 3)
    [[2; 3]; [5; 6]; [8; 9]]
  = [[7]; [0]; [0]].
Proof. reflexivity. Qed.

(** ** C2: the probabilities of a sample *)

Lemma truediv_nonzero (c s : Z) :
  s <> 0 -> truediv c s = Fin (IZR c / IZR s).
Proof.
  intros H. unfold truediv. destruct (s =? 0) eqn:E; [| reflexivity].
  apply Z.eqb_eq in E. contradiction.
Qed.

Lemma fold_fadd_quotients (s : Z) (g : list Z) (a : R) :
  fold_left fadd (map (fun c => Fin (IZR c / IZR s)) g) (Fin a)
  = Fin (a + IZR (zsum g) / IZR s).
Proof.
  revert a. induction g as [| c g IH]; intros a; cbn [map fold_left zsum fold_right].
  - f_equal. unfold Rdiv. rewrite Rmult_0_l. ring.
  - fold (zsum g). cbn [fadd]. rewrite IH. f_equal.
    rewrite plus_IZR. unfold Rdiv. ring.
Qed.

Lemma zsum_nonneg (g : list Z) : Forall (fun c => 0 <= c) g -> 0 <= zsum g.
Proof.
  induction 1 as [| c g Hc Hg IH]; cbn [zsum fold_right]; [lia |].
  fold (zsum g). lia.
Qed.

Lemma zsum_zero_all (g : list Z) :
  Forall (fun c => 0 <= c) g -> zsum g = 0 -> Forall (fun c => c = 0) g.
Proof.
  induction 1 as [| c g Hc Hg IH]; intros Hz; [constructor |].
  cbn [zsum fold_right] in Hz. fold (zsum g) in Hz.
  pose proof (zsum_nonneg g Hg).
  constructor; [lia | apply IH; lia].
Qed.

(** Counts with a positive total, divided by it, lie on the simplex. *)
Lemma normalised_simplex (g : list Z) :
  Forall (fun c => 0 <= c) g -> 0 < zsum g ->
  simplex (map (fun c => nan_to_num (truediv c (zsum g))) g).
Proof.
  intros Hg Hpos.
  assert (Hs : (0 < IZR (zsum g))%R) by (apply IZR_lt; exact Hpos).
  assert (E : map (fun c => nan_to_num (truediv c (zsum g))) g
              = map (fun c => Fin (IZR c / IZR (zsum g))) g).
  { apply map_ext. intros c. rewrite truediv_nonzero by lia. reflexivity. }
  rewrite E. split.
  - apply Forall_forall. intros p Hp. apply in_map_iff in Hp.
    destruct Hp as [c [<- Hc]]. rewrite Forall_forall in Hg.
    exists (IZR c / IZR (zsum g))%R. split; [reflexivity |].
    apply Rmult_le_pos; [apply IZR_le, Hg, Hc |].
    left. apply Rinv_0_lt_compat, Hs.
  - unfold fsum. rewrite fold_fadd_quotients. f_equal. field. lra.
Qed.

(** Counts that are all zero give the probabilities 0: each [0/0] is NaN
    and is replaced by 0. *)
Lemma normalised_zero (g : list Z) :
  Forall (fun c => 0 <= c) g -> zsum g = 0 ->
  all_zero (map (fun c => nan_to_num (truediv c (zsum g))) g).
Proof.
  intros Hg Hz. pose proof (zsum_zero_all g Hg Hz) as Hall.
  rewrite Hz. apply Forall_forall. intros p Hp. apply in_map_iff in Hp.
  destruct Hp as [c [<- Hc]]. rewrite Forall_forall in Hall.
  rewrite (Hall c Hc). reflexivity.
Qed.

Lemma normalise_class_axis (cnt : table) (codes : matrix) (s t : nat) :
  (s < length codes)%nat -> (t < length (nth s codes []))%nat ->
  class_axis (DecisionTreeClassifier.normalise cnt codes) s t
  = let gathered :=
      map (fun u => at3 cnt t u (Z.to_nat (at2 codes s t)))
          (seq 0 (length (nth t cnt []))) in
    map (fun c => nan_to_num (truediv c (zsum gathered))) gathered.
Proof.
  intros Hs Ht. unfold class_axis, DecisionTreeClassifier.normalise.
  rewrite nth_map_seq by exact Hs. rewrite nth_map_seq by exact Ht.
  reflexivity.
Qed.

Lemma nth_map_arange {A : Type} (f : Z -> A) (stop l : Z) (d : A) :
  0 <= l < stop -> nth (Z.to_nat l) (map f (arange stop)) d = f l.
Proof.
  intros H. unfold arange. rewrite map_map.
  rewrite nth_map_seq by lia. f_equal. lia.
Qed.

Lemma leaf_class_count_nonneg (y branch : matrix) (t : nat) (u l : Z) :
  0 <= leaf_class_count y branch t u l.
Proof. apply count_true_nonneg. Qed.

(** The column of the count tensor that a leaf code selects. *)
Lemma count_table_gather (uy : list Z) (y branch : matrix)
    (number_of_branches : Z) (t : nat) (l : Z) :
  (t < length (nth 0 y []))%nat -> 0 <= l < number_of_branches ->
  map (fun u =>
         at3 (DecisionTreeClassifier.count_table uy y branch
                number_of_branches) t u (Z.to_nat l))
      (seq 0 (length (nth t (DecisionTreeClassifier.count_table uy y branch
                               number_of_branches) [])))
  = map (fun u => leaf_class_count y branch t u l) uy.
Proof.
  intros Ht Hl. unfold at3. rewrite count_table_target by exact Ht.
  rewrite length_map.
  rewrite <- (map_nth_seq (fun u => leaf_class_count y branch t u l) uy 0).
  apply map_ext_in. intros i Hi. apply in_seq in Hi.
  rewrite (nth_indep _ [] ((fun u => map (fun l0 => leaf_class_count y branch t u l0)
                                         (arange number_of_branches)) 0))
    by (rewrite length_map; lia).
  rewrite (map_nth (fun u => map (fun l0 => leaf_class_count y branch t u l0)
                                 (arange number_of_branches))).
  apply nth_map_arange, Hl.
Qed.

(** The rows of a leaf, summed over the class axis. *)
Lemma leaf_column_total (uy : list Z) (y branch : matrix) (t : nat) (l : Z) :
  NoDup uy ->
  zsum (map (fun u => leaf_class_count y branch t u l) uy)
  = known_rows_in_leaf uy y branch t l.
Proof.
  intros Hnodup. unfold leaf_class_count, known_rows_in_leaf.
  rewrite count_true_zsum.
  erewrite zsum_map_ext_in.
  2:{ intros u _. apply count_true_zsum. }
  rewrite zsum_swap. apply zsum_map_ext_in. intros o _.
  erewrite zsum_map_ext_in.
  2:{ intros u _.
      instantiate (1 := fun u => Z.b2z (at2 branch o t =? l)
                                 * Z.b2z (at2 y o t =? u)).
      cbv beta. destruct (at2 branch o t =? l), (at2 y o t =? u); reflexivity. }
  rewrite zsum_map_scale, zsum_labels_eqb by exact Hnodup.
  destruct (at2 branch o t =? l), (known uy (at2 y o t)); reflexivity.
Qed.

Lemma pre_fit_labels_NoDup (self : DecisionTreeClassifier.tree) (y : matrix) :
  NoDup (DecisionTreeClassifier.labels self) ->
  NoDup (DecisionTreeClassifier.labels (DecisionTreeClassifier.pre_fit self y)).
Proof.
  intros H. unfold DecisionTreeClassifier.pre_fit,
    DecisionTreeClassifier.pre_fit_flat.
  destruct (DecisionTreeClassifier.unique_y self) eqn:E; [exact H |].
  unfold DecisionTreeClassifier.labels. cbn. apply unique_NoDup.
Qed.

Lemma targets_first_row (T : nat) (in_sample : matrix) :
  in_sample <> [] ->
  Forall (fun row => (T <= length row)%nat) in_sample ->
  length (nth 0 (DecisionTree.targets T in_sample) []) = T.
Proof.
  intros Hne Hcols. destruct in_sample as [| r0 rest]; [contradiction |].
  inversion Hcols; subst. cbn [DecisionTree.targets map nth].
  rewrite length_firstn. lia.
Qed.

(** On rows as wide as the targets, every target value is met in the
    flattened target tensor. *)
Lemma target_value_in_concat (T : nat) (in_sample : matrix) (o t : nat) :
  Forall (fun row => (T <= length row)%nat) in_sample ->
  (o < length in_sample)%nat -> (t < T)%nat ->
  In (at2 (DecisionTree.targets T in_sample) o t)
     (concat (DecisionTree.targets T in_sample)).
Proof.
  intros Hcols Ho Ht. unfold at2, DecisionTree.targets.
  apply in_concat. exists (nth o (map (firstn T) in_sample) []).
  assert (Hlen : (o < length (map (firstn T) in_sample))%nat)
    by (rewrite length_map; exact Ho).
  split; [apply nth_In, Hlen |].
  apply nth_In.
  rewrite (nth_indep _ [] (firstn T [])) by exact Hlen.
  rewrite (map_nth (firstn T)), length_firstn.
  rewrite Forall_forall in Hcols.
  specialize (Hcols (nth o in_sample []) (nth_In _ _ Ho)). lia.
Qed.

Section ProbabilityFacts.

Import DecisionTree.

Variable to_branch_1 : Z -> Z -> bool.
Variable best_split :
  gain_callback -> matrix -> matrix -> nat -> matrix -> nat -> split.

(** The probabilities of a sample after [fit]: the counts of its leaf,
    label by label, over the number of rows of the leaf whose target is a
    label. *)
Lemma fit_class_axis
    (self : DecisionTreeClassifier.tree) (in_sample : matrix) (T : nat)
    (sample_x : matrix) (s t : nat)
    (Hlabels : NoDup (DecisionTreeClassifier.labels self))
    (Hrows : in_sample <> [])
    (Hcols : Forall (fun row => (T <= length row)%nat) in_sample)
    (Hs : (s < length sample_x)%nat)
    (Ht : (t < T)%nat) :
  let fitted :=
    DecisionTreeClassifier.fit to_branch_1 best_split self in_sample T in
  let row :=
    class_axis
      (DecisionTreeClassifier.probability_of
         (DecisionTreeClassifier.predict_with_probability
            to_branch_1 fitted sample_x)) s t in
  let leaf :=
    at2 (pre_predict to_branch_1 T
           (DecisionTreeClassifier.record fitted) sample_x) s t in
  let trained :=
    pre_predict to_branch_1 T (DecisionTreeClassifier.record fitted)
                (features T in_sample) in
  let n :=
    known_rows_in_leaf (DecisionTreeClassifier.labels fitted)
                       (targets T in_sample) trained t leaf in
  row
  = map (fun c => nan_to_num (truediv c n))
        (map (fun u => leaf_class_count (targets T in_sample) trained t u leaf)
             (DecisionTreeClassifier.labels fitted)).
Proof.
  intros fitted row leaf trained n.
  pose proof (fit_unfold to_branch_1 best_split self in_sample T) as Hfit.
  cbv zeta in Hfit. fold fitted in Hfit.
  set (y := targets T in_sample) in *.
  set (x := features T in_sample) in *.
  set (self1 := DecisionTreeClassifier.pre_fit self y) in *.
  set (grown := grow to_branch_1 best_split
                  (DecisionTreeClassifier.information_gain_entropy self1)
                  T y x (DecisionTreeClassifier.depth self) 0
                  (map (fun _ => repeat 0 T) x)) in *.
  destruct (grow_spec to_branch_1 best_split
              (DecisionTreeClassifier.information_gain_entropy self1)
              T y x (DecisionTreeClassifier.depth self) 0%nat
              (map (fun _ => repeat 0 T) x)) as [Hlen Hfinal].
  fold grown in Hlen, Hfinal.
  set (nb := 2 ^ Z.of_nat (DecisionTreeClassifier.depth self)) in *.
  set (uy := DecisionTreeClassifier.labels self1).
  assert (Hrec : DecisionTreeClassifier.record fitted = fst grown)
    by (rewrite Hfit; reflexivity).
  assert (Hlab : DecisionTreeClassifier.labels fitted = uy)
    by (rewrite Hfit; reflexivity).
  assert (Htrained : trained = snd grown).
  { unfold trained. rewrite Hrec, Hfinal. reflexivity. }
  assert (Hrow : row
                 = class_axis
                     (DecisionTreeClassifier.normalise
                        (DecisionTreeClassifier.count_table uy y trained nb)
                        (pre_predict to_branch_1 T (fst grown) sample_x))
                     s t).
  { unfold row. rewrite Htrained, Hfit. reflexivity. }
  assert (Hleaf : 0 <= leaf < nb).
  { unfold leaf. rewrite Hrec. unfold nb. rewrite <- Hlen.
    apply codes_below_at2; [apply Z.pow_pos_nonneg; lia |].
    apply pre_predict_below. }
  assert (Hty : (t < length (nth 0 y []))%nat).
  { unfold y. rewrite targets_first_row by assumption. exact Ht. }
  assert (Huy : NoDup uy) by (apply pre_fit_labels_NoDup, Hlabels).
  rewrite normalise_class_axis in Hrow
    by (rewrite ?pre_predict_length, ?pre_predict_row_length; assumption).
  cbv zeta in Hrow.
  assert (Hleaf' : at2 (pre_predict to_branch_1 T (fst grown) sample_x) s t
                   = leaf) by (unfold leaf; rewrite Hrec; reflexivity).
  rewrite Hleaf' in Hrow.
  rewrite count_table_gather in Hrow by assumption.
  assert (Hn : zsum (map (fun u => leaf_class_count y trained t u leaf) uy)
               = n).
  { unfold n. rewrite Hlab. apply leaf_column_total, Huy. }
  rewrite Hn in Hrow.
  rewrite Hlab. exact Hrow.
Qed.

(** C2, as the code has it.  After [fit] on a dataset with at least one
    row, every row holding the [T] target columns, the probabilities of a
    sample for a target have one entry per label; they are non-negative
    and sum to 1 when the leaf that the sample reaches holds a training
    row whose target value is one of the labels, and they are all zero
    when it holds none.  On the first fit of an instance every training
    row is such a row. *)
Theorem predict_with_probability_simplex
    (self : DecisionTreeClassifier.tree) (in_sample : matrix) (T : nat)
    (sample_x : matrix) (s t : nat)
    (Hlabels : NoDup (DecisionTreeClassifier.labels self))
    (Hrows : in_sample <> [])
    (Hcols : Forall (fun row => (T <= length row)%nat) in_sample)
    (Hs : (s < length sample_x)%nat)
    (Ht : (t < T)%nat) :
  let fitted :=
    DecisionTreeClassifier.fit to_branch_1 best_split self in_sample T in
  let row :=
    class_axis
      (DecisionTreeClassifier.probability_of
         (DecisionTreeClassifier.predict_with_probability
            to_branch_1 fitted sample_x)) s t in
  let leaf :=
    at2 (pre_predict to_branch_1 T
           (DecisionTreeClassifier.record fitted) sample_x) s t in
  let trained :=
    pre_predict to_branch_1 T (DecisionTreeClassifier.record fitted)
                (features T in_sample) in
  let n :=
    known_rows_in_leaf (DecisionTreeClassifier.labels fitted)
                       (targets T in_sample) trained t leaf in
  length row = length (DecisionTreeClassifier.labels fitted)
  /\ (0 < n -> simplex row)
  /\ (n = 0 -> all_zero row)
  /\ 0 <= n
  /\ (DecisionTreeClassifier.unique_y self = None ->
      n = rows_in_leaf trained t leaf).
Proof.
  intros fitted row leaf trained n.
  pose proof (fit_class_axis self in_sample T sample_x s t
                Hlabels Hrows Hcols Hs Ht) as Hrow.
  cbv zeta in Hrow. fold fitted in Hrow. fold leaf in Hrow.
  fold trained in Hrow. fold n in Hrow. fold row in Hrow.
  set (y := targets T in_sample) in *.
  set (uy := DecisionTreeClassifier.labels fitted) in *.
  assert (Huy : NoDup uy).
  { unfold uy, fitted. rewrite fit_unfold.
    apply (pre_fit_labels_NoDup self y Hlabels). }
  assert (Hn : zsum (map (fun u => leaf_class_count y trained t u leaf) uy)
               = n) by (apply leaf_column_total, Huy).
  assert (Hnonneg : Forall (fun c => 0 <= c)
                      (map (fun u => leaf_class_count y trained t u leaf) uy)).
  { apply Forall_forall. intros c Hc. apply in_map_iff in Hc.
    destruct Hc as [u [<- _]]. apply leaf_class_count_nonneg. }
  split; [| split; [| split; [| split]]].
  - rewrite Hrow, !length_map. reflexivity.
  - intros Hpos. rewrite Hrow, <- Hn.
    apply normalised_simplex; [exact Hnonneg | rewrite Hn; exact Hpos].
  - intros Hz. rewrite Hrow, <- Hn.
    apply normalised_zero; [exact Hnonneg | rewrite Hn; exact Hz].
  - unfold n, known_rows_in_leaf. apply count_true_nonneg.
  - intros Hnone. unfold n, known_rows_in_leaf, rows_in_leaf.
    assert (Hty' : length trained = length y).
    { unfold trained. rewrite pre_predict_length. unfold y, features, targets.
      rewrite !length_map. reflexivity. }
    rewrite Hty'. f_equal. apply map_ext_in. intros o Ho. apply in_seq in Ho.
    replace (known uy (at2 y o t)) with true; [apply andb_true_r |].
    symmetry. unfold known. apply existsb_exists.
    exists (at2 y o t). split; [| apply Z.eqb_refl].
    unfold uy, fitted. rewrite fit_unfold.
    change (In (at2 y o t)
               (DecisionTreeClassifier.labels
                  (DecisionTreeClassifier.pre_fit self y))).
    unfold DecisionTreeClassifier.pre_fit,
      DecisionTreeClassifier.pre_fit_flat, DecisionTreeClassifier.labels.
    rewrite Hnone. cbn. apply unique_In.
    apply target_value_in_concat; try assumption.
    unfold y, targets in Ho. rewrite length_map in Ho. lia.
Qed.

End ProbabilityFacts.

(** A tree of depth 1 fitted once on two rows with the targets 0 and 1:
    the sample reaches a leaf that holds both rows. *)
Lemma predict_with_probability_simplex_witness :
  simplex
    (class_axis
       (DecisionTreeClassifier.probability_of
          (DecisionTreeClassifier.predict_with_probability Z.gtb
             (DecisionTreeClassifier.fit Z.gtb constant_split
                (DecisionTreeClassifier.new 1 DecisionTreeClassifier.ENTROPY)
                [[0; 1]; [1; 2]] 1)
             [[1]])) 0 0).
Proof.
  destruct (predict_with_probability_simplex Z.gtb constant_split
              (DecisionTreeClassifier.new 1 DecisionTreeClassifier.ENTROPY)
              [[0; 1]; [1; 2]] 1 [[1]] 0 0) as [_ [H _]].
  - constructor.
  - discriminate.
  - repeat constructor.
  - simpl; lia.
  - lia.
  - apply H. reflexivity.
Defined.

(** The leaf code of a row depends on that row alone. *)
Lemma fold_level_row (to_branch_1 : Z -> Z -> bool) (T : nat)
    (level : list DecisionTree.split) (codes x : matrix) (o : nat) :
  (o < length x)%nat ->
  nth o (DecisionTree.fold_level to_branch_1 T level codes x) []
  = map (fun t =>
           nth t (nth o codes []) 0 * DecisionTree.branch_arity
           + DecisionTree.branch_choice to_branch_1
               (nth t level DecisionTree.no_split) (nth o x []))
        (seq 0 T).
Proof.
  intros Ho. unfold DecisionTree.fold_level.
  rewrite nth_map_seq by exact Ho. reflexivity.
Qed.

Lemma replay_row (to_branch_1 : Z -> Z -> bool) (T : nat)
    (record : DecisionTree.split_table) (x x' : matrix) (o o' : nat) :
  (o < length x)%nat -> (o' < length x')%nat ->
  nth o x [] = nth o' x' [] ->
  forall codes codes',
    nth o codes [] = nth o' codes' [] ->
    nth o (DecisionTree.replay to_branch_1 T x record codes) []
    = nth o' (DecisionTree.replay to_branch_1 T x' record codes') [].
Proof.
  intros Ho Ho' Hx.
  induction record as [| level record IH]; intros codes codes' Hc;
    [exact Hc |].
  cbn [DecisionTree.replay fold_left]. apply IH.
  rewrite !fold_level_row by assumption. rewrite Hx, Hc. reflexivity.
Qed.

Lemma pre_predict_row (to_branch_1 : Z -> Z -> bool) (T : nat)
    (record : DecisionTree.split_table) (x : matrix) (o : nat) :
  (o < length x)%nat ->
  nth o (DecisionTree.pre_predict to_branch_1 T record x) []
  = nth 0 (DecisionTree.pre_predict to_branch_1 T record [nth o x []]) [].
Proof.
  intros Ho. unfold DecisionTree.pre_predict.
  apply replay_row; [exact Ho | cbn; lia | reflexivity |].
  cbn [map nth]. clear - Ho. revert o Ho.
  induction x as [| row x IH]; intros o Ho; [cbn in Ho; lia |].
  destruct o as [| o]; [reflexivity |]. cbn [map nth]. apply IH.
  cbn in Ho. lia.
Qed.

(** C2 as it is worded fails on an instance fitted twice.  The first fit
    sees the target 0 only; the second brings two rows with the target 5.
    The sample has the features of the first of them, so it reaches a leaf
    that holds a training row of the last fit; yet the probabilities are
    [0], which do not sum to 1.  No engine and no depth changes this. *)
Lemma predict_with_probability_unseen_label :
  ~ (exists (to_branch_1 : Z -> Z -> bool)
            (best_split : gain_callback -> matrix -> matrix -> nat -> matrix
                          -> nat -> DecisionTree.split)
            (depth : nat),
       let first :=
         DecisionTreeClassifier.fit to_branch_1 best_split
           (DecisionTreeClassifier.new depth DecisionTreeClassifier.ENTROPY)
           [[0; 1]; [0; 2]] 1 in
       let fitted :=
         DecisionTreeClassifier.fit to_branch_1 best_split first
           [[5; 1]; [5; 2]] 1 in
       let row :=
         class_axis
           (DecisionTreeClassifier.probability_of
              (DecisionTreeClassifier.predict_with_probability
                 to_branch_1 fitted [[1]])) 0 0 in
       let leaf :=
         at2 (DecisionTree.pre_predict to_branch_1 1
                (DecisionTreeClassifier.record fitted) [[1]]) 0 0 in
       let trained :=
         DecisionTree.pre_predict to_branch_1 1
           (DecisionTreeClassifier.record fitted)
           (DecisionTree.features 1 [[5; 1]; [5; 2]]) in
       simplex_unless_empty_leaf row (rows_in_leaf trained 0 leaf)).
Proof.
  intros (to_branch_1 & best_split & depth & H). cbv zeta in H.
  set (first := DecisionTreeClassifier.fit to_branch_1 best_split
                  (DecisionTreeClassifier.new depth
                     DecisionTreeClassifier.ENTROPY)
                  [[0; 1]; [0; 2]] 1) in *.
  assert (Hfirst : DecisionTreeClassifier.unique_y first = Some [0]).
  { unfold first. rewrite fit_unfold. reflexivity. }
  assert (Hlabels : NoDup (DecisionTreeClassifier.labels first)).
  { unfold DecisionTreeClassifier.labels. rewrite Hfirst.
    repeat constructor. simpl. tauto. }
  set (fitted := DecisionTreeClassifier.fit to_branch_1 best_split first
                   [[5; 1]; [5; 2]] 1) in *.
  assert (Hfitted : DecisionTreeClassifier.labels fitted = [0]).
  { unfold fitted. rewrite fit_unfold.
    unfold DecisionTreeClassifier.labels.
    cbn [DecisionTreeClassifier.unique_y DecisionTreeClassifier.set_record
           DecisionTreeClassifier.post_fit DecisionTreeClassifier.set_count].
    unfold DecisionTreeClassifier.pre_fit, DecisionTreeClassifier.pre_fit_flat.
    rewrite Hfirst. rewrite Hfirst. reflexivity. }
  pose proof (fit_class_axis to_branch_1 best_split first
                [[5; 1]; [5; 2]] 1 [[1]] 0 0 Hlabels
                ltac:(discriminate) ltac:(repeat constructor)
                ltac:(simpl; lia) ltac:(lia)) as Hrow.
  cbv zeta in Hrow. fold fitted in Hrow. rewrite Hrow in H. clear Hrow.
  rewrite Hfitted in H.
  change (DecisionTree.features 1 [[5; 1]; [5; 2]]) with [[1]; [2]] in H.
  change (DecisionTree.targets 1 [[5; 1]; [5; 2]]) with [[5]; [5]] in H.
  set (record := DecisionTreeClassifier.record fitted) in *.
  set (trained := DecisionTree.pre_predict to_branch_1 1 record [[1]; [2]])
    in *.
  set (leaf := at2 (DecisionTree.pre_predict to_branch_1 1 record [[1]]) 0 0)
    in *.
  assert (Hreach : at2 trained 0 0 = leaf).
  { unfold leaf, trained, at2.
    rewrite (pre_predict_row to_branch_1 1 record [[1]; [2]] 0)
      by (simpl; lia).
    reflexivity. }
  assert (Hrows : (rows_in_leaf trained 0 leaf =? 0) = false).
  { unfold rows_in_leaf, trained. rewrite pre_predict_length.
    fold trained. cbn [length seq map]. rewrite Hreach, Z.eqb_refl.
    unfold count_true. cbn [filter length].
    apply Z.eqb_neq. destruct (at2 trained 1 0 =? leaf); cbn [length]; lia. }
  unfold simplex_unless_empty_leaf in H. rewrite Hrows in H.
  assert (Hknown : known_rows_in_leaf [0] [[5]; [5]] trained 0 leaf = 0).
  { unfold known_rows_in_leaf. cbn [length seq map].
    change (known [0] (at2 [[5]; [5]] 0 0)) with false.
    change (known [0] (at2 [[5]; [5]] 1 0)) with false.
    rewrite !andb_false_r. reflexivity. }
  assert (Hcount : leaf_class_count [[5]; [5]] trained 0 0 leaf = 0).
  { unfold leaf_class_count. cbn [length seq map].
    change (at2 [[5]; [5]] 0 0 =? 0) with false.
    change (at2 [[5]; [5]] 1 0 =? 0) with false.
    rewrite !andb_false_r. reflexivity. }
  rewrite Hknown in H. cbn [map] in H. rewrite Hcount in H.
  destruct H as [_ Hsum]. cbn in Hsum.
  injection Hsum as Hsum. lra.
Qed.

(** ** C5: the ensembles average their trees *)

Lemma nanmean_axis0_entry (batch : list cube) (s t u : nat) :
  (s < length (nth 0 batch []))%nat ->
  (t < length (nth s (nth 0 batch []) []))%nat ->
  (u < length (nth t (nth s (nth 0 batch []) []) []))%nat ->
  fat3 (nanmean_axis0 batch) s t u
  = nanmean (map (fun p => fat3 p s t u) batch).
Proof.
  intros Hs Ht Hu. unfold nanmean_axis0. unfold fat3 at 1.
  rewrite nth_map_seq by exact Hs. rewrite nth_map_seq by exact Ht.
  rewrite nth_map_seq by exact Hu. reflexivity.
Qed.




(** ** C4: an ensemble of one tree *)

Lemma nanmean_singleton (r : R) : nanmean [Fin r] = Fin r.
Proof.
  unfold nanmean. cbn [filter is_nan negb length fsum fold_left fadd fmul INR].
  f_equal. rewrite Rinv_1. ring.
Qed.

(** A batch of one tensor without special value is averaged to itself. *)
Lemma nanmean_axis0_singleton (p : cube) :
  Forall (Forall (Forall (fun v => exists r, v = Fin r))) p ->
  nanmean_axis0 [p] = p.
Proof.
  intros Hp. unfold nanmean_axis0. cbn [nth map].
  transitivity (map (map (map (fun v => nanmean [v]))) p).
  - rewrite <- (map_nth_seq (map (map (fun v => nanmean [v]))) p []).
    apply map_ext. intros s.
    rewrite <- (map_nth_seq (map (fun v => nanmean [v])) (nth s p []) []).
    apply map_ext. intros t.
    rewrite <- (map_nth_seq (fun v => nanmean [v]) (nth t (nth s p []) []) NaN).
    reflexivity.
  - rewrite <- (map_id p) at 2. apply map_ext_in. intros m Hm.
    rewrite Forall_forall in Hp. specialize (Hp m Hm).
    rewrite <- (map_id m) at 2. apply map_ext_in. intros row Hrow.
    rewrite Forall_forall in Hp. specialize (Hp row Hrow).
    rewrite <- (map_id row) at 2. apply map_ext_in. intros v Hv.
    rewrite Forall_forall in Hp. destruct (Hp v Hv) as [r ->].
    apply nanmean_singleton.
Qed.

Lemma normalise_finite (cnt : table) (codes : matrix) :
  Forall (Forall (Forall (fun v => exists r, v = Fin r)))
         (DecisionTreeClassifier.normalise cnt codes).
Proof.
  unfold DecisionTreeClassifier.normalise.
  apply Forall_forall. intros m Hm. apply in_map_iff in Hm.
  destruct Hm as [s [<- _]].
  apply Forall_forall. intros row Hrow. apply in_map_iff in Hrow.
  destruct Hrow as [t [<- _]].
  apply Forall_forall. intros v Hv. apply in_map_iff in Hv.
  destruct Hv as [c [<- _]].
  destruct (truediv c _); cbn [nan_to_num]; eexists; reflexivity.
Qed.

Section EnsembleOfOne.

Import DecisionTree.

Variable to_branch_1 : Z -> Z -> bool.
Variable best_split :
  gain_callback -> matrix -> matrix -> nat -> matrix -> nat -> split.

(** The batched [fit] on a batch of one dataset leaves, member for
    member, what [fit] leaves on that dataset. *)
Lemma fit_batch_singleton (depth : nat)
    (impurity : DecisionTreeClassifier.Impurity)
    (subset : matrix) (T : nat) :
  let single :=
    DecisionTreeClassifier.fit to_branch_1 best_split
      (DecisionTreeClassifier.new depth impurity) subset T in
  let batch :=
    DecisionTreeClassifier.fit_batch to_branch_1 best_split
      (DecisionTreeClassifier.new_batch depth impurity) [subset] T in
  DecisionTreeClassifier.record batch
  = [DecisionTreeClassifier.record single]
  /\ DecisionTreeClassifier.stored_count batch []
     = [DecisionTreeClassifier.stored_count single []]
  /\ DecisionTreeClassifier.unique_y batch
     = DecisionTreeClassifier.unique_y single
  /\ DecisionTreeClassifier.number_of_target batch
     = DecisionTreeClassifier.number_of_target single.
Proof.
  cbv zeta.
  unfold DecisionTreeClassifier.fit, DecisionTreeClassifier.fit_batch,
    DecisionTree.fit, DecisionTree.fit_batch.
  cbn [map combine fst snd].
  set (y := targets T subset). set (x := features T subset).
  assert (Hgain :
            DecisionTreeClassifier.information_gain_entropy
              (DecisionTreeClassifier.pre_fit_batch
                 (DecisionTreeClassifier.new_batch depth impurity) [y])
            = DecisionTreeClassifier.information_gain_entropy
                (DecisionTreeClassifier.pre_fit
                   (DecisionTreeClassifier.new depth impurity) y)).
  { unfold DecisionTreeClassifier.information_gain_entropy,
      DecisionTreeClassifier.pre_fit_batch, DecisionTreeClassifier.pre_fit,
      DecisionTreeClassifier.pre_fit_flat, DecisionTreeClassifier.labels.
    cbn. rewrite app_nil_r. reflexivity. }
  rewrite Hgain.
  change (DecisionTreeClassifier.depth
            (DecisionTreeClassifier.new_batch depth impurity)) with depth.
  change (DecisionTreeClassifier.depth
            (DecisionTreeClassifier.new depth impurity)) with depth.
  destruct (grow to_branch_1 best_split _ T y x depth 0 _) as [r leaf].
  cbn [fst snd].
  unfold DecisionTreeClassifier.post_fit_batch,
    DecisionTreeClassifier.post_fit, DecisionTreeClassifier.pre_fit_batch,
    DecisionTreeClassifier.pre_fit, DecisionTreeClassifier.pre_fit_flat,
    DecisionTreeClassifier.labels, DecisionTreeClassifier.stored_count.
  cbn. rewrite app_nil_r. repeat split; reflexivity.
Qed.

(** The batched prediction of an instance that holds one tree. *)
Lemma predict_batch_singleton (batch : DecisionTreeClassifier.forest)
    (single : DecisionTreeClassifier.tree) (sample_x : matrix) :
  DecisionTreeClassifier.record batch
  = [DecisionTreeClassifier.record single] ->
  DecisionTreeClassifier.stored_count batch []
  = [DecisionTreeClassifier.stored_count single []] ->
  DecisionTreeClassifier.unique_y batch
  = DecisionTreeClassifier.unique_y single ->
  DecisionTreeClassifier.number_of_target batch
  = DecisionTreeClassifier.number_of_target single ->
  let out :=
    DecisionTreeClassifier.predict_with_probability
      to_branch_1 single sample_x in
  DecisionTreeClassifier.predict_with_probability_batch
    to_branch_1 batch sample_x
  = ([DecisionTreeClassifier.probability_of out],
     DecisionTreeClassifier.unique_y_of out).
Proof.
  intros Hr Hc Hu Ht. cbv zeta.
  unfold DecisionTreeClassifier.predict_with_probability_batch,
    DecisionTreeClassifier.predict_with_probability.
  rewrite Hr, Hc, Hu, Ht. reflexivity.
Qed.

(** Averaging the one tree of an ensemble gives the prediction of that
    tree. *)
Lemma ensemble_of_one (depth : nat)
    (impurity : DecisionTreeClassifier.Impurity)
    (subset : matrix) (T : nat) (sample_x : matrix) :
  let batch :=
    DecisionTreeClassifier.fit_batch to_branch_1 best_split
      (DecisionTreeClassifier.new_batch depth impurity) [subset] T in
  let trees :=
    DecisionTreeClassifier.predict_with_probability_batch
      to_branch_1 batch sample_x in
  {| DecisionTreeClassifier.probability_of := nanmean_axis0 (fst trees);
     DecisionTreeClassifier.unique_y_of := snd trees |}
  = DecisionTreeClassifier.predict_with_probability to_branch_1
      (DecisionTreeClassifier.fit to_branch_1 best_split
         (DecisionTreeClassifier.new depth impurity) subset T)
      sample_x.
Proof.
  cbv zeta.
  destruct (fit_batch_singleton depth impurity subset T)
    as [Hr [Hc [Hu Ht]]].
  rewrite (predict_batch_singleton _ _ sample_x Hr Hc Hu Ht).
  cbn [fst snd]. rewrite nanmean_axis0_singleton.
  - reflexivity.
  - apply normalise_finite.
Qed.

End EnsembleOfOne.

Lemma fresh_fit_labels
    (to_branch_1 : Z -> Z -> bool)
    (best_split : gain_callback -> matrix -> matrix -> nat -> matrix -> nat
                  -> DecisionTree.split)
    (depth : nat) (impurity : DecisionTreeClassifier.Impurity)
    (in_sample : matrix) (T : nat) :
  DecisionTreeClassifier.labels
    (DecisionTreeClassifier.fit to_branch_1 best_split
       (DecisionTreeClassifier.new depth impurity) in_sample T)
  = unique (concat (DecisionTree.targets T in_sample)).
Proof. rewrite fit_unfold. reflexivity. Qed.

Lemma targets_flat_length (T : nat) (m : matrix) :
  (length (concat (DecisionTree.targets T m)) <= T * length m)%nat.
Proof.
  unfold DecisionTree.targets.
  induction m as [| row m IH]; cbn [map concat length]; [lia |].
  rewrite length_app. pose proof (firstn_le_length T row).
  pose proof (length_firstn T row). lia.
Qed.

Section Bootstrap.

Import DecisionTree.

Variable key : Type.
Variable seed_key : Z -> key.
Variable next : key -> nat * key.

Lemma draw_with_replacement_spec (bound n : nat) :
  forall k,
    length (fst (draw_with_replacement key next bound n k)) = n
    /\ (bound <> 0%nat ->
        Forall (fun i => (i < bound)%nat)
               (fst (draw_with_replacement key next bound n k))).
Proof.
  induction n as [| n IH]; intros k; cbn [draw_with_replacement].
  - split; [reflexivity | constructor].
  - unfold bind, randint, ret. destruct (next k) as [raw k1].
    specialize (IH k1).
    destruct (draw_with_replacement key next bound n k1) as [rest k2].
    cbn [fst] in *. destruct IH as [IH1 IH2].
    split; [cbn [length]; lia |].
    intros Hb. constructor; [apply Nat.mod_upper_bound, Hb | apply IH2, Hb].
Qed.

(** With one subset, the preparation returns one bootstrap sample of the
    rows. *)
Lemma bagging_preparation_one (in_sample : matrix) (subset_size : nat)
    (seed : Z) (k0 : key) :
  exists rows,
    fst (bagging_preparation key seed_key next in_sample 1 subset_size
           seed k0)
    = [gather_rows in_sample rows]
    /\ length rows = subset_size
    /\ (in_sample <> [] ->
        Forall (fun i => (i < length in_sample)%nat) rows).
Proof.
  unfold bagging_preparation, bind, reseed. cbn [bootstrap].
  unfold bind, ret.
  pose proof (draw_with_replacement_spec (length in_sample) subset_size
                (seed_key seed)) as [Hlen Hall].
  destruct (draw_with_replacement key next (length in_sample) subset_size
              (seed_key seed)) as [rows k1].
  cbn [fst] in *. exists rows. split; [reflexivity |].
  split; [exact Hlen |].
  intros Hne. apply Hall. destruct in_sample; [contradiction | discriminate].
Qed.

Lemma gather_rows_wide (T : nat) (in_sample : matrix) (rows : list nat) :
  Forall (fun row => (T <= length row)%nat) in_sample ->
  Forall (fun i => (i < length in_sample)%nat) rows ->
  Forall (fun row => (T <= length row)%nat) (gather_rows in_sample rows).
Proof.
  intros Hw Hr. unfold gather_rows. apply Forall_forall.
  intros row Hrow. apply in_map_iff in Hrow. destruct Hrow as [i [<- Hi]].
  rewrite Forall_forall in Hw, Hr. apply Hw, nth_In, Hr, Hi.
Qed.

Variable to_branch_1 : Z -> Z -> bool.
Variable best_split :
  gain_callback -> matrix -> matrix -> nat -> matrix -> nat -> split.

(** [BaggingClassifier] with one subset predicts what the tree fitted on
    its bootstrap sample predicts. *)
Lemma bagging_of_one (depth : nat)
    (impurity : DecisionTreeClassifier.Impurity) (subset_size : nat)
    (seed : Z) (in_sample : matrix) (T : nat) (sample_x : matrix)
    (k0 : key) (subset : matrix) :
  fst (bagging_preparation key seed_key next in_sample 1 subset_size
         seed k0) = [subset] ->
  BaggingClassifier.predict_with_probability to_branch_1
    (fst (BaggingClassifier.fit to_branch_1 best_split key seed_key next
            (BaggingClassifier.init depth impurity 1 subset_size seed)
            in_sample T k0))
    sample_x
  = DecisionTreeClassifier.predict_with_probability to_branch_1
      (DecisionTreeClassifier.fit to_branch_1 best_split
         (DecisionTreeClassifier.new depth impurity) subset T)
      sample_x.
Proof.
  intros Hprep. unfold BaggingClassifier.fit, bind, ret.
  cbn [BaggingClassifier.init BaggingClassifier.number_of_subset
         BaggingClassifier.subset_size BaggingClassifier.seed
         BaggingClassifier.base].
  destruct (bagging_preparation key seed_key next in_sample 1 subset_size
              seed k0) as [prepared k1].
  cbn [fst] in *. subst prepared.
  unfold BaggingClassifier.predict_with_probability.
  cbn [BaggingClassifier.with_base BaggingClassifier.base].
  apply ensemble_of_one.
Qed.

(** The same for [RandomForestClassifier]. *)
Lemma random_forest_of_one (depth : nat)
    (impurity : DecisionTreeClassifier.Impurity)
    (number_of_chosen_feature subset_size : nat)
    (seed : Z) (in_sample : matrix) (T : nat) (sample_x : matrix)
    (k0 : key) :
  match fst (RandomForestClassifier.fit to_branch_1 best_split
               key seed_key next
               (RandomForestClassifier.init depth impurity
                  number_of_chosen_feature 1 subset_size seed)
               in_sample T k0) with
  | Some forest =>
      exists subset,
        fst (random_forest_preparation key seed_key next in_sample T
               number_of_chosen_feature 1 subset_size seed k0)
        = Prepared [subset]
        /\ RandomForestClassifier.predict_with_probability
             to_branch_1 forest sample_x
           = DecisionTreeClassifier.predict_with_probability to_branch_1
               (DecisionTreeClassifier.fit to_branch_1 best_split
                  (DecisionTreeClassifier.new depth impurity) subset T)
               sample_x
  | None =>
      fst (random_forest_preparation key seed_key next in_sample T
             number_of_chosen_feature 1 subset_size seed k0)
      = ConfigError
  end.
Proof.
  unfold RandomForestClassifier.fit, bind, ret.
  cbn [RandomForestClassifier.init
         RandomForestClassifier.number_of_chosen_feature
         RandomForestClassifier.number_of_subset
         RandomForestClassifier.subset_size RandomForestClassifier.seed
         RandomForestClassifier.base].
  unfold random_forest_preparation.
  destruct (_ <? _)%nat.
  - reflexivity.
  - unfold bind, reseed, ret. cbn [bootstrap]. unfold bind, ret.
    destruct (draw_with_replacement key next (length in_sample) subset_size
                (seed_key seed)) as [rows k1].
    cbn [choose_features]. unfold bind, ret.
    destruct (draw_without_replacement key next _ number_of_chosen_feature k1)
      as [cols k2].
    cbn [fst]. eexists. split; [reflexivity |].
    unfold RandomForestClassifier.predict_with_probability.
    cbn [RandomForestClassifier.with_base RandomForestClassifier.base].
    apply ensemble_of_one.
Qed.

End Bootstrap.

(** C4, as the code has it.  An ensemble built with [number_of_subset = 1]
    predicts the probabilities of the single tree, of the same depth and
    impurity, fitted on the one subset that its preparation draws from the
    dataset (not on the dataset itself). *)
Theorem ensemble_of_one_is_tree_on_its_subset
    (to_branch_1 : Z -> Z -> bool)
    (best_split : gain_callback -> matrix -> matrix -> nat -> matrix -> nat
                  -> DecisionTree.split)
    (key : Type) (seed_key : Z -> key) (next : key -> nat * key)
    (depth : nat) (impurity : DecisionTreeClassifier.Impurity)
    (number_of_chosen_feature subset_size : nat) (seed : Z)
    (in_sample : matrix) (T : nat) (sample_x : matrix) (k0 : key) :
  (exists subset,
     fst (DecisionTree.bagging_preparation key seed_key next in_sample 1
            subset_size seed k0) = [subset]
     /\ BaggingClassifier.predict_with_probability to_branch_1
          (fst (BaggingClassifier.fit to_branch_1 best_split
                  key seed_key next
                  (BaggingClassifier.init depth impurity 1 subset_size seed)
                  in_sample T k0))
          sample_x
        = DecisionTreeClassifier.predict_with_probability to_branch_1
            (DecisionTreeClassifier.fit to_branch_1 best_split
               (DecisionTreeClassifier.new depth impurity) subset T)
            sample_x)
  /\ match fst (RandomForestClassifier.fit to_branch_1 best_split
                  key seed_key next
                  (RandomForestClassifier.init depth impurity
                     number_of_chosen_feature 1 subset_size seed)
                  in_sample T k0) with
     | Some forest =>
         exists subset,
           fst (DecisionTree.random_forest_preparation key seed_key next
                  in_sample T number_of_chosen_feature 1 subset_size seed k0)
           = DecisionTree.Prepared [subset]
           /\ RandomForestClassifier.predict_with_probability
                to_branch_1 forest sample_x
              = DecisionTreeClassifier.predict_with_probability to_branch_1
                  (DecisionTreeClassifier.fit to_branch_1 best_split
                     (DecisionTreeClassifier.new depth impurity) subset T)
                  sample_x
     | None =>
         fst (DecisionTree.random_forest_preparation key seed_key next
                in_sample T number_of_chosen_feature 1 subset_size seed k0)
         = DecisionTree.ConfigError
     end.
Proof.
  split.
  - destruct (bagging_preparation_one key seed_key next in_sample
                subset_size seed k0) as [rows [Hprep _]].
    eexists. split; [exact Hprep |].
    apply bagging_of_one, Hprep.
  - apply random_forest_of_one.
Qed.

(** C4 as it is worded fails: on three rows with the targets 0, 1 and 2, a
    bagging ensemble of one subset of two rows sees at most two labels, so
    its probabilities have at most two entries along the class axis, where
    the tree fitted on the dataset has three.  This holds for every
    generator, every engine and every depth. *)
Lemma bagging_of_one_is_not_tree_on_dataset :
  ~ (exists (key : Type) (seed_key : Z -> key) (next : key -> nat * key)
            (k0 : key) (to_branch_1 : Z -> Z -> bool)
            (best_split : gain_callback -> matrix -> matrix -> nat -> matrix
                          -> nat -> DecisionTree.split)
            (depth : nat),
       DecisionTreeClassifier.probability_of
         (BaggingClassifier.predict_with_probability to_branch_1
            (fst (BaggingClassifier.fit to_branch_1 best_split
                    key seed_key next
                    (BaggingClassifier.init depth
                       DecisionTreeClassifier.ENTROPY 1 2 0)
                    c4_in_sample 1 k0))
            [[1]])
       = DecisionTreeClassifier.probability_of
           (DecisionTreeClassifier.predict_with_probability to_branch_1
              (DecisionTreeClassifier.fit to_branch_1 best_split
                 (DecisionTreeClassifier.new depth
                    DecisionTreeClassifier.ENTROPY)
                 c4_in_sample 1)
              [[1]])).
Proof.
  intros (key & seed_key & next & k0 & to_branch_1 & best_split & depth & H).
  destruct (bagging_preparation_one key seed_key next c4_in_sample 2 0 k0)
    as [rows [Hprep [Hlen Hall]]].
  rewrite (bagging_of_one key seed_key next to_branch_1 best_split depth
             DecisionTreeClassifier.ENTROPY 2 0 c4_in_sample 1 [[1]] k0
             _ Hprep) in H.
  apply (f_equal (fun p => length (class_axis p 0 0))) in H.
  assert (Hwide : Forall (fun row => (1 <= length row)%nat) c4_in_sample)
    by (repeat constructor).
  assert (Hne : c4_in_sample <> []) by discriminate.
  assert (Hsub : DecisionTree.gather_rows c4_in_sample rows <> []).
  { destruct rows; [discriminate Hlen | discriminate]. }
  rewrite (fit_class_axis to_branch_1 best_split
             (DecisionTreeClassifier.new depth DecisionTreeClassifier.ENTROPY)
             (DecisionTree.gather_rows c4_in_sample rows) 1 [[1]] 0 0)
    in H;
    [| constructor | exact Hsub
     | apply gather_rows_wide; [exact Hwide | apply Hall, Hne]
     | simpl; lia | lia ].
  rewrite (fit_class_axis to_branch_1 best_split
             (DecisionTreeClassifier.new depth DecisionTreeClassifier.ENTROPY)
             c4_in_sample 1 [[1]] 0 0)
    in H; [| constructor | exact Hne | exact Hwide | simpl; lia | lia ].
  rewrite !length_map, !fresh_fit_labels in H.
  pose proof (unique_length
                (concat (DecisionTree.targets 1
                           (DecisionTree.gather_rows c4_in_sample rows))))
    as Hu.
  pose proof (targets_flat_length 1
                (DecisionTree.gather_rows c4_in_sample rows)) as Hflat.
  unfold DecisionTree.gather_rows in Hflat at 2.
  rewrite length_map, Hlen in Hflat.
  change (length (unique (concat (DecisionTree.targets 1 c4_in_sample))))
    with 3%nat in H.
  lia.
Qed.

(** ** The scenario of [test_bagging_preparation] *)

(** The array that the test expects is the one the preparation returns when
    the six draws of the generator seeded with 0 are 1, 1, 0, 2, 0, 2
    modulo the three rows.  Which draws the generator of the tensor runtime
    makes is not fixed here. *)
Lemma bagging_preparation_scenario
    (key : Type) (seed_key : Z -> key) (next : key -> nat * key)
    (k0 : key) (r1 r2 r3 r4 r5 r6 : nat) (k1 k2 k3 k4 k5 k6 : key) :
  next (seed_key 0) = (r1, k1) -> next k1 = (r2, k2) ->
  next k2 = (r3, k3) -> next k3 = (r4, k4) ->
  next k4 = (r5, k5) -> next k5 = (r6, k6) ->
  Nat.modulo r1 3 = 1%nat -> Nat.modulo r2 3 = 1%nat ->
  Nat.modulo r3 3 = 0%nat -> Nat.modulo r4 3 = 2%nat ->
  Nat.modulo r5 3 = 0%nat -> Nat.modulo r6 3 = 2%nat ->
  fst (DecisionTree.bagging_preparation key seed_key next
         [[1; 2; 3]; [4; 5; 6]; [7; 8; 9]] 3 2 0 k0)
  = [[[4; 5; 6]; [4; 5; 6]]; [[1; 2; 3]; [7; 8; 9]]; [[1; 2; 3]; [7; 8; 9]]].
Proof.
  intros H1 H2 H3 H4 H5 H6 M1 M2 M3 M4 M5 M6.
  unfold DecisionTree.bagging_preparation, DecisionTree.bind,
    DecisionTree.reseed.
  cbn [DecisionTree.bootstrap DecisionTree.draw_with_replacement length].
  unfold DecisionTree.bind, DecisionTree.randint, DecisionTree.ret.
  rewrite H1, H2, H3, H4, H5, H6. cbn [fst].
  rewrite M1, M2, M3, M4, M5, M6. reflexivity.
Qed.

(** * Further properties of the classifier *)

(** ** The entropy criterion *)

Lemma fold_fadd_finite (l : list fval) :
  Forall (fun x => exists r, x = Fin r) l ->
  forall a, exists r, fold_left fadd l (Fin a) = Fin r.
Proof.
  induction 1 as [| x l [r ->] _ IH]; intros a; cbn [fold_left fadd].
  - exists a. reflexivity.
  - apply IH.
Qed.

Lemma fold_fadd_nonpos (l : list fval) :
  Forall (fun x => exists r, x = Fin r /\ (r <= 0)%R) l ->
  forall a, (a <= 0)%R ->
            exists r, fold_left fadd l (Fin a) = Fin r /\ (r <= 0)%R.
Proof.
  induction 1 as [| x l [r [-> Hr]] _ IH]; intros a Ha; cbn [fold_left fadd].
  - exists a. split; [reflexivity | exact Ha].
  - apply IH. lra.
Qed.

Lemma fold_fadd_zero (l : list fval) :
  Forall (fun x => x = Fin 0) l -> fold_left fadd l (Fin 0) = Fin 0.
Proof.
  induction 1 as [| x l -> _ IH]; cbn [fold_left fadd]; [reflexivity |].
  rewrite Rplus_0_l. exact IH.
Qed.

Lemma ln_nonpos (p : R) : (0 < p <= 1)%R -> (ln p <= 0)%R.
Proof.
  intros [Hp [Hlt | ->]].
  - left. rewrite <- ln_1. apply ln_increasing; assumption.
  - rewrite ln_1. lra.
Qed.

(** One term of the double sum, for a count [cc] of a class in a branch of
    [bc] observations among [N]. *)
Lemma entropy_term_shape (cc bc N : Z) :
  0 < N ->
  exists r,
    fmul (nan_to_num (fmul (log2 (truediv cc bc)) (truediv cc bc)))
         (truediv cc N) = Fin r.
Proof.
  intros HN. rewrite (truediv_nonzero cc N) by lia.
  destruct (nan_to_num (fmul (log2 (truediv cc bc)) (truediv cc bc))) eqn:E;
    try (destruct (fmul (log2 (truediv cc bc)) (truediv cc bc));
         discriminate E).
  eexists. reflexivity.
Qed.

Lemma entropy_term_nonpos (cc bc N : Z) :
  0 <= cc <= bc -> 0 < N ->
  exists r,
    fmul (nan_to_num (fmul (log2 (truediv cc bc)) (truediv cc bc)))
         (truediv cc N) = Fin r
    /\ (r <= 0)%R.
Proof.
  intros Hc HN. rewrite (truediv_nonzero cc N) by lia.
  assert (HNr : (0 < IZR N)%R) by (apply IZR_lt; exact HN).
  destruct (Z.eq_dec bc 0) as [Hb | Hb].
  - assert (cc = 0) by lia. subst. cbn [truediv Z.eqb log2 fmul nan_to_num].
    eexists. split; [reflexivity |]. unfold Rdiv. rewrite !Rmult_0_l. lra.
  - rewrite (truediv_nonzero cc bc) by exact Hb.
    assert (Hbr : (0 < IZR bc)%R) by (apply IZR_lt; lia).
    destruct (Z.eq_dec cc 0) as [-> | Hcc].
    + replace (0 / IZR bc)%R with 0%R by (unfold Rdiv; ring).
      rewrite entropy_term_zero. cbn [fmul].
      eexists. split; [reflexivity |]. unfold Rdiv. rewrite !Rmult_0_l. lra.
    + assert (Hccr : (0 < IZR cc)%R) by (apply IZR_lt; lia).
      assert (Hle : (IZR cc <= IZR bc)%R) by (apply IZR_le; lia).
      assert (Hp : (0 < IZR cc / IZR bc <= 1)%R).
      { split.
        - apply Rdiv_lt_0_compat; assumption.
        - apply (Rmult_le_reg_r (IZR bc)); [exact Hbr |].
          unfold Rdiv. rewrite Rmult_assoc, Rinv_l by lra. lra. }
      rewrite log2_pos by apply Hp. cbn [fmul nan_to_num].
      eexists. split; [reflexivity |].
      pose proof (ln_nonpos _ Hp) as Hln. pose proof ln2_pos as H2.
      assert (Hq : (ln (IZR cc / IZR bc) / ln 2 <= 0)%R).
      { assert (Hinv : (0 < / ln 2)%R) by (apply Rinv_0_lt_compat, H2).
        unfold Rdiv at 1. nra. }
      assert (Hw : (0 <= IZR cc / IZR N)%R).
      { left. apply Rdiv_lt_0_compat; assumption. }
      destruct Hp as [Hp0 _].
      set (a := (ln (IZR cc / IZR bc) / ln 2)%R) in *.
      set (p := (IZR cc / IZR bc)%R) in *.
      set (w := (IZR cc / IZR N)%R) in *.
      assert (Hap : (a * p <= 0)%R) by nra. nra.
Qed.

Lemma count_true_and_le {A : Type} (a b : A -> bool) (l : list A) :
  count_true (map (fun o => a o && b o) l) <= count_true (map a l).
Proof.
  rewrite !count_true_zsum.
  induction l as [| o l IH]; cbn [map zsum fold_right]; [lia |].
  fold (zsum (map (fun o => Z.b2z (a o && b o)) l)).
  fold (zsum (map (fun o => Z.b2z (a o)) l)).
  destruct (a o), (b o); cbn [andb Z.b2z]; lia.
Qed.

Lemma category_count_bounds (y : matrix) (branches : tensor4)
    (t c f : nat) (b u : Z) :
  u <> 0 ->
  0 <= DecisionTreeClassifier.category_count y branches t c f b u
    <= DecisionTreeClassifier.branch_count branches t c f b.
Proof.
  intros Hu. rewrite category_count_other_label by exact Hu.
  rewrite branch_count_is_count_branch. split.
  - apply count_true_nonneg.
  - apply count_true_and_le.
Qed.

(** X2.  With at least one observation, every entry of the tensor that
    [information_gain_entropy] returns is a finite number: the NaN and the
    infinities of [log2(p) * p] are replaced before they are summed, and
    the weights are divided by a non-zero number of observations. *)
Theorem information_gain_entropy_finite
    (uy : list Z) (in_sample_y : matrix) (branches : tensor4)
    (number_of_branches : Z)
    (Hobs : in_sample_y <> []) :
  Forall (Forall (Forall (fun g => exists r, g = Fin r)))
         (DecisionTreeClassifier.information_gain_entropy_of
            uy in_sample_y branches number_of_branches).
Proof.
  assert (HN : 0 < Z.of_nat (length in_sample_y)).
  { destruct in_sample_y; [contradiction | cbn [length]; lia]. }
  unfold DecisionTreeClassifier.information_gain_entropy_of.
  apply Forall_forall. intros m Hm. apply in_map_iff in Hm.
  destruct Hm as [t [<- _]].
  apply Forall_forall. intros row Hrow. apply in_map_iff in Hrow.
  destruct Hrow as [c [<- _]].
  apply Forall_forall. intros g Hg. apply in_map_iff in Hg.
  destruct Hg as [f [<- _]].
  unfold DecisionTreeClassifier.gain.
  assert (Hsum : exists r,
             fsum
               (map (fun b =>
                       fsum
                         (map (fun u =>
                                 fmul
                                   (nan_to_num
                                      (fmul
                                         (log2 (DecisionTreeClassifier.probability
                                                  in_sample_y branches t c f b u))
                                         (DecisionTreeClassifier.probability
                                            in_sample_y branches t c f b u)))
                                   (truediv
                                      (DecisionTreeClassifier.category_count
                                         in_sample_y branches t c f b u)
                                      (Z.of_nat (length in_sample_y))))
                              uy))
                    (arange number_of_branches)) = Fin r).
  { apply fold_fadd_finite. apply Forall_forall. intros x Hx.
    apply in_map_iff in Hx. destruct Hx as [b [<- _]].
    apply fold_fadd_finite. apply Forall_forall. intros x Hx.
    apply in_map_iff in Hx. destruct Hx as [u [<- _]].
    apply entropy_term_shape, HN. }
  destruct Hsum as [r ->]. eexists. reflexivity.
Qed.

Lemma information_gain_entropy_finite_witness :
  Forall (Forall (Forall (fun g => exists r, g = Fin r)))
         (DecisionTreeClassifier.information_gain_entropy_of
            c1_unique_y c1_in_sample_y c1_branches 2).
Proof.
  apply (information_gain_entropy_finite
           c1_unique_y c1_in_sample_y c1_branches 2).
  discriminate.
Defined.

(** X3.  When 0 is not one of the labels and there is at least one
    observation, no entry of the returned tensor exceeds 1: every class
    count is at most the size of its branch, so every term of the sum is
    at most 0. *)
Theorem information_gain_entropy_at_most_one
    (uy : list Z) (in_sample_y : matrix) (branches : tensor4)
    (number_of_branches : Z)
    (Hzero : ~ In 0 uy)
    (Hobs : in_sample_y <> []) :
  Forall (Forall (Forall (fun g => exists r, g = Fin r /\ (r <= 1)%R)))
         (DecisionTreeClassifier.information_gain_entropy_of
            uy in_sample_y branches number_of_branches).
Proof.
  assert (HN : 0 < Z.of_nat (length in_sample_y)).
  { destruct in_sample_y; [contradiction | cbn [length]; lia]. }
  unfold DecisionTreeClassifier.information_gain_entropy_of.
  apply Forall_forall. intros m Hm. apply in_map_iff in Hm.
  destruct Hm as [t [<- _]].
  apply Forall_forall. intros row Hrow. apply in_map_iff in Hrow.
  destruct Hrow as [c [<- _]].
  apply Forall_forall. intros g Hg. apply in_map_iff in Hg.
  destruct Hg as [f [<- _]].
  unfold DecisionTreeClassifier.gain.
  assert (Hsum : exists r,
             fsum
               (map (fun b =>
                       fsum
                         (map (fun u =>
                                 fmul
                                   (nan_to_num
                                      (fmul
                                         (log2 (DecisionTreeClassifier.probability
                                                  in_sample_y branches t c f b u))
                                         (DecisionTreeClassifier.probability
                                            in_sample_y branches t c f b u)))
                                   (truediv
                                      (DecisionTreeClassifier.category_count
                                         in_sample_y branches t c f b u)
                                      (Z.of_nat (length in_sample_y))))
                              uy))
                    (arange number_of_branches)) = Fin r /\ (r <= 0)%R).
  { apply fold_fadd_nonpos; [| lra]. apply Forall_forall. intros x Hx.
    apply in_map_iff in Hx. destruct Hx as [b [<- _]].
    apply fold_fadd_nonpos; [| lra]. apply Forall_forall. intros x Hx.
    apply in_map_iff in Hx. destruct Hx as [u [<- Hu]].
    apply entropy_term_nonpos; [| exact HN].
    apply category_count_bounds. intros ->. contradiction. }
  destruct Hsum as [r [-> Hr]]. cbn [fadd].
  eexists. split; [reflexivity | lra].
Qed.

Lemma information_gain_entropy_at_most_one_witness :
  Forall (Forall (Forall (fun g => exists r, g = Fin r /\ (r <= 1)%R)))
         (DecisionTreeClassifier.information_gain_entropy_of
            [1; 2] [[1]; [2]] c1_branches 2).
Proof.
  apply (information_gain_entropy_at_most_one [1; 2] [[1]; [2]] c1_branches 2).
  - simpl. intros [H | [H | H]]; [discriminate H | discriminate H | exact H].
  - discriminate.
Defined.

(** In a list where the observations selected by [a] agree on [c], those
    that satisfy both are none or all of the selected ones. *)
Lemma count_true_pure {A : Type} (a c : A -> bool) (l : list A) :
  (forall o o', In o l -> In o' l -> a o = true -> a o' = true ->
                c o = c o') ->
  count_true (map (fun o => a o && c o) l) = 0
  \/ count_true (map (fun o => a o && c o) l) = count_true (map a l).
Proof.
  intros Hpure.
  destruct (existsb (fun o => a o && c o) l) eqn:E.
  - right. apply existsb_exists in E. destruct E as [o0 [Hin0 H0]].
    apply andb_prop in H0. destruct H0 as [Ha0 Hc0].
    f_equal. apply map_ext_in. intros o Hin.
    destruct (a o) eqn:Ha; [| reflexivity].
    rewrite (Hpure o o0 Hin Hin0 Ha Ha0), Hc0. reflexivity.
  - left. rewrite count_true_zsum.
    erewrite zsum_map_ext_in; [apply zsum_map_zero |].
    intros o Hin. cbv beta.
    destruct (a o && c o) eqn:Hac; [| reflexivity].
    assert (Hex : existsb (fun o => a o && c o) l = true)
      by (apply existsb_exists; exists o; split; assumption).
    rewrite E in Hex. discriminate Hex.
Qed.

Lemma entropy_term_pure (cc bc N : Z) :
  cc = 0 \/ cc = bc -> 0 < N ->
  fmul (nan_to_num (fmul (log2 (truediv cc bc)) (truediv cc bc)))
       (truediv cc N) = Fin 0.
Proof.
  intros Hc HN. rewrite (truediv_nonzero cc N) by lia.
  destruct (Z.eq_dec cc 0) as [-> | Hcc].
  - destruct (Z.eq_dec bc 0) as [-> | Hb].
    + cbn [truediv Z.eqb log2 fmul nan_to_num]. f_equal. ring.
    + rewrite (truediv_nonzero 0 bc) by exact Hb.
      replace (0 / IZR bc)%R with 0%R by (unfold Rdiv; ring).
      rewrite entropy_term_zero. cbn [fmul]. f_equal. ring.
  - destruct Hc as [Hc | Hc]; [contradiction |]. subst bc.
    rewrite (truediv_nonzero cc cc) by exact Hcc.
    replace (IZR cc / IZR cc)%R with 1%R
      by (field; apply not_0_IZR; exact Hcc).
    rewrite entropy_term_one. cbn [fmul]. f_equal. ring.
Qed.

(** X4.  When 0 is not one of the labels and the observations that a
    candidate split sends to the same branch all carry the same target, the
    gain of that candidate is exactly 1, the value that X3 bounds it by. *)
Theorem information_gain_entropy_pure_split
    (uy : list Z) (in_sample_y : matrix) (branches : tensor4)
    (number_of_branches : Z) (t c f : nat)
    (Hzero : ~ In 0 uy)
    (Hobs : in_sample_y <> [])
    (Hpure : forall o o',
        (o < length branches)%nat -> (o' < length branches)%nat ->
        at4 branches o t c f = at4 branches o' t c f ->
        at2 in_sample_y o t = at2 in_sample_y o' t) :
  DecisionTreeClassifier.gain uy in_sample_y branches number_of_branches
                              t c f = Fin 1.
Proof.
  assert (HN : 0 < Z.of_nat (length in_sample_y)).
  { destruct in_sample_y; [contradiction | cbn [length]; lia]. }
  unfold DecisionTreeClassifier.gain.
  replace (fsum _) with (Fin 0); [cbn [fadd]; f_equal; ring |].
  symmetry. apply fold_fadd_zero. apply Forall_forall. intros x Hx.
  apply in_map_iff in Hx. destruct Hx as [b [<- _]].
  apply fold_fadd_zero. apply Forall_forall. intros x Hx.
  apply in_map_iff in Hx. destruct Hx as [u [<- Hu]].
  apply entropy_term_pure; [| exact HN].
  assert (Hne : u <> 0) by (intros ->; contradiction).
  rewrite category_count_other_label by exact Hne.
  rewrite branch_count_is_count_branch.
  unfold EntropySpec.count_class_branch, EntropySpec.count_branch.
  apply count_true_pure. intros o o' Ho Ho' Ha Ha'.
  apply in_seq in Ho. apply in_seq in Ho'.
  apply Z.eqb_eq in Ha. apply Z.eqb_eq in Ha'.
  rewrite (Hpure o o') by (try lia; congruence). reflexivity.
Qed.

Lemma information_gain_entropy_pure_split_witness :
  DecisionTreeClassifier.gain [1; 2] [[1]; [2]] c1_branches 2 0 0 0 = Fin 1.
Proof.
  apply (information_gain_entropy_pure_split [1; 2] [[1]; [2]] c1_branches 2
           0 0 0).
  - simpl. intros [H | [H | H]]; [discriminate H | discriminate H | exact H].
  - discriminate.
  - intros [| [| o]] [| [| o']] Ho Ho' H;
      try reflexivity; try (simpl in Ho, Ho'; lia);
      vm_compute in H; discriminate H.
Defined.

Lemma gain_without_label_zero_witness :
  DecisionTreeClassifier.gain [1; 2] [[1]; [2]] c1_branches 2 0 0 0
  = EntropySpec.gain [1; 2] [[1]; [2]] c1_branches 2 0 0 0.
Proof.
  apply (gain_without_label_zero [1; 2] [[1]; [2]] c1_branches 2 0 0 0).
  simpl. intros [H | [H | H]]; [discriminate H | discriminate H | exact H].
Defined.

(** ** The count tensor of [post_fit] *)

Lemma at2_in_concat (m : matrix) (o t : nat) :
  (o < length m)%nat -> (t < length (nth o m []))%nat ->
  In (at2 m o t) (concat m).
Proof.
  intros Ho Ht. unfold at2. apply in_concat.
  exists (nth o m []). split; apply nth_In; assumption.
Qed.

Lemma count_true_all {A : Type} (g : A -> bool) (l : list A) :
  (forall a, In a l -> g a = true) ->
  count_true (map g l) = Z.of_nat (length l).
Proof.
  intros H. unfold count_true. f_equal.
  induction l as [| a l IH]; [reflexivity |].
  cbn [map filter]. rewrite (H a) by (left; reflexivity).
  cbn [length]. f_equal. apply IH. intros b Hb. apply H. right. exact Hb.
Qed.

Lemma at3_nonneg (tbl : table) (i j k : nat) :
  Forall (Forall (Forall (fun c => 0 <= c))) tbl -> 0 <= at3 tbl i j k.
Proof.
  intros H. unfold at3. rewrite Forall_forall in H.
  destruct (nth_in_or_default i tbl []) as [Hi | Hi];
    [| rewrite Hi; destruct j, k; cbn; lia].
  specialize (H _ Hi). rewrite Forall_forall in H.
  destruct (nth_in_or_default j (nth i tbl []) []) as [Hj | Hj];
    [| rewrite Hj; destruct k; cbn; lia].
  specialize (H _ Hj). rewrite Forall_forall in H.
  destruct (nth_in_or_default k (nth j (nth i tbl []) []) 0) as [Hk | Hk];
    [exact (H _ Hk) | rewrite Hk; lia].
Qed.

Lemma count_table_entries_nonneg (uy : list Z) (y branch : matrix)
    (number_of_branches : Z) :
  Forall (Forall (Forall (fun c => 0 <= c)))
         (DecisionTreeClassifier.count_table uy y branch number_of_branches).
Proof.
  unfold DecisionTreeClassifier.count_table.
  apply Forall_forall. intros m Hm. apply in_map_iff in Hm.
  destruct Hm as [t [<- _]].
  apply Forall_forall. intros row Hrow. apply in_map_iff in Hrow.
  destruct Hrow as [u [<- _]].
  apply Forall_forall. intros c Hc. apply in_map_iff in Hc.
  destruct Hc as [l [<- _]]. apply count_true_nonneg.
Qed.

(** X5.  [post_fit] stores a tensor of shape (targets, labels, leaves) in
    which the entry of target [t], label [u] and leaf [l] is the number of
    training rows whose leaf code is [l] and whose target value is [u].
    The mask [branch / branch] is NaN outside the leaf, so a row outside
    the leaf is counted for no label, the label 0 included. *)
Theorem post_fit_count_entry
    (self : DecisionTreeClassifier.tree) (in_sample_y branch : matrix)
    (number_of_branches : Z) (t i : nat) (l : Z)
    (Htarget : (t < length (nth 0 in_sample_y []))%nat)
    (Hlabel : (i < length (DecisionTreeClassifier.labels self))%nat)
    (Hleaf : 0 <= l < number_of_branches) :
  exists cnt,
    DecisionTreeClassifier.count
      (DecisionTreeClassifier.post_fit self in_sample_y branch
         number_of_branches) = Some cnt
    /\ length cnt = length (nth 0 in_sample_y [])
    /\ length (nth t cnt []) = length (DecisionTreeClassifier.labels self)
    /\ length (nth i (nth t cnt []) []) = Z.to_nat number_of_branches
    /\ at3 cnt t i (Z.to_nat l)
       = count_true
           (map (fun o =>
                   (at2 branch o t =? l)
                   && (at2 in_sample_y o t
                       =? nth i (DecisionTreeClassifier.labels self) 0))
                (seq 0 (length in_sample_y))).
Proof.
  eexists. split; [reflexivity |].
  set (uy := DecisionTreeClassifier.labels self) in *.
  assert (Hrow : nth i (nth t (DecisionTreeClassifier.count_table uy
                                 in_sample_y branch number_of_branches) [])
                     []
                 = map (fun l0 => leaf_class_count in_sample_y branch t
                                    (nth i uy 0) l0)
                       (arange number_of_branches)).
  { rewrite count_table_target by exact Htarget.
    rewrite (nth_indep _ []
               ((fun u => map (fun l0 => leaf_class_count in_sample_y branch
                                           t u l0)
                              (arange number_of_branches)) 0))
      by (rewrite length_map; exact Hlabel).
    rewrite (map_nth (fun u => map (fun l0 => leaf_class_count in_sample_y
                                                 branch t u l0)
                                   (arange number_of_branches))).
    reflexivity. }
  split; [| split; [| split]].
  - unfold DecisionTreeClassifier.count_table.
    rewrite length_map, length_seq. reflexivity.
  - rewrite count_table_target by exact Htarget. apply length_map.
  - rewrite Hrow. unfold arange. rewrite !length_map, length_seq. reflexivity.
  - unfold at3. rewrite Hrow. rewrite nth_map_arange by exact Hleaf.
    reflexivity.
Qed.

Lemma post_fit_count_entry_witness :
  exists cnt,
    DecisionTreeClassifier.count
      (DecisionTreeClassifier.post_fit
         (DecisionTreeClassifier.pre_fit
            (DecisionTreeClassifier.new 1 DecisionTreeClassifier.ENTROPY)
            [[0]; [1]; [0]])
         [[0]; [1]; [0]] [[1]; [0]; [1]] 2) = Some cnt
    /\ at3 cnt 0 0 1 = 2.
Proof.
  destruct (post_fit_count_entry
              (DecisionTreeClassifier.pre_fit
                 (DecisionTreeClassifier.new 1 DecisionTreeClassifier.ENTROPY)
                 [[0]; [1]; [0]])
              [[0]; [1]; [0]] [[1]; [0]; [1]] 2 0 0 1)
    as [cnt [Hc [_ [_ [_ He]]]]].
  - simpl; lia.
  - simpl; lia.
  - lia.
  - exists cnt. split; [exact Hc | exact He].
Defined.

(** X6.  For every target and leaf, the counts of [post_fit] summed over
    the labels are the number of training rows of that leaf whose target
    value is one of the labels. *)
Theorem post_fit_leaf_total
    (self : DecisionTreeClassifier.tree) (in_sample_y branch : matrix)
    (number_of_branches : Z) (t : nat) (l : Z)
    (Hlabels : NoDup (DecisionTreeClassifier.labels self))
    (Htarget : (t < length (nth 0 in_sample_y []))%nat)
    (Hleaf : 0 <= l < number_of_branches) :
  exists cnt,
    DecisionTreeClassifier.count
      (DecisionTreeClassifier.post_fit self in_sample_y branch
         number_of_branches) = Some cnt
    /\ zsum (map (fun i => at3 cnt t i (Z.to_nat l))
                 (seq 0 (length (DecisionTreeClassifier.labels self))))
       = known_rows_in_leaf (DecisionTreeClassifier.labels self)
                            in_sample_y branch t l.
Proof.
  eexists. split; [reflexivity |].
  rewrite <- leaf_column_total by exact Hlabels.
  rewrite <- (count_table_gather (DecisionTreeClassifier.labels self)
                in_sample_y branch number_of_branches t l Htarget Hleaf).
  rewrite count_table_target by exact Htarget.
  rewrite length_map. reflexivity.
Qed.

Lemma post_fit_leaf_total_witness :
  exists cnt,
    DecisionTreeClassifier.count
      (DecisionTreeClassifier.post_fit
         (DecisionTreeClassifier.pre_fit
            (DecisionTreeClassifier.new 1 DecisionTreeClassifier.ENTROPY)
            [[0]; [1]; [0]])
         [[0]; [7]; [1]] [[1]; [1]; [1]] 2) = Some cnt
    /\ zsum (map (fun i => at3 cnt 0 i 1) (seq 0 2)) = 2.
Proof.
  destruct (post_fit_leaf_total
              (DecisionTreeClassifier.pre_fit
                 (DecisionTreeClassifier.new 1 DecisionTreeClassifier.ENTROPY)
                 [[0]; [1]; [0]])
              [[0]; [7]; [1]] [[1]; [1]; [1]] 2 0 1)
    as [cnt [Hc Hs]].
  - change (NoDup [0; 1]). repeat constructor; simpl; intuition discriminate.
  - simpl; lia.
  - lia.
  - exists cnt. split; [exact Hc | exact Hs].
Defined.

(** X7.  On the first fit of an instance nothing is left out: for every
    target, the counts that [post_fit] stores after [pre_fit] on the same
    targets sum, over labels and leaves, to the number of training rows. *)
Theorem first_fit_counts_every_row
    (self : DecisionTreeClassifier.tree) (in_sample_y branch : matrix)
    (number_of_branches : Z) (t : nat)
    (Hfirst : DecisionTreeClassifier.unique_y self = None)
    (Hrows : in_sample_y <> [])
    (Hwide : Forall (fun row => (t < length row)%nat) in_sample_y)
    (Hleaf : forall o, (o < length in_sample_y)%nat ->
                       0 <= at2 branch o t < number_of_branches) :
  exists cnt,
    DecisionTreeClassifier.count
      (DecisionTreeClassifier.post_fit
         (DecisionTreeClassifier.pre_fit self in_sample_y)
         in_sample_y branch number_of_branches) = Some cnt
    /\ zsum (map zsum (nth t cnt [])) = Z.of_nat (length in_sample_y).
Proof.
  eexists. split; [reflexivity |].
  assert (Hlab : DecisionTreeClassifier.labels
                   (DecisionTreeClassifier.pre_fit self in_sample_y)
                 = unique (concat in_sample_y)).
  { unfold DecisionTreeClassifier.pre_fit,
      DecisionTreeClassifier.pre_fit_flat, DecisionTreeClassifier.labels.
    rewrite Hfirst. reflexivity. }
  rewrite Hlab.
  assert (Ht0 : (t < length (nth 0 in_sample_y []))%nat).
  { destruct in_sample_y as [| r0 rest]; [contradiction |].
    inversion Hwide; subst. assumption. }
  rewrite count_table_total; [| apply unique_NoDup | exact Ht0 | exact Hleaf].
  unfold known_rows. rewrite count_true_all; [rewrite length_seq; reflexivity |].
  intros o Ho. apply in_seq in Ho. unfold known. apply existsb_exists.
  exists (at2 in_sample_y o t). split; [| apply Z.eqb_refl].
  apply unique_In, at2_in_concat; [lia |].
  rewrite Forall_forall in Hwide. apply Hwide, nth_In. lia.
Qed.

Lemma first_fit_counts_every_row_witness :
  exists cnt,
    DecisionTreeClassifier.count
      (DecisionTreeClassifier.post_fit
         (DecisionTreeClassifier.pre_fit
            (DecisionTreeClassifier.new 1 DecisionTreeClassifier.ENTROPY)
            [[0]; [1]; [0]])
         [[0]; [1]; [0]] [[1]; [0]; [1]] 2) = Some cnt
    /\ zsum (map zsum (nth 0%nat cnt [])) = 3.
Proof.
  destruct (first_fit_counts_every_row
              (DecisionTreeClassifier.new 1 DecisionTreeClassifier.ENTROPY)
              [[0]; [1]; [0]] [[1]; [0]; [1]] 2 0)
    as [cnt [Hc Hs]].
  - reflexivity.
  - discriminate.
  - repeat constructor.
  - intros [| [| [| o]]] Ho;
      [vm_compute; split; congruence .. | simpl in Ho; lia].
  - exists cnt. split; [exact Hc | exact Hs].
Defined.

(** ** The probabilities of [predict_with_probability] *)

Lemma zsum_member_le (g : list Z) (c : Z) :
  Forall (fun x => 0 <= x) g -> In c g -> c <= zsum g.
Proof.
  induction 1 as [| x g Hx Hg IH]; intros Hin; [contradiction |].
  cbn [zsum fold_right]. fold (zsum g). pose proof (zsum_nonneg g Hg).
  destruct Hin as [-> | Hin]; [lia | specialize (IH Hin); lia].
Qed.

Lemma normalised_unit_interval (g : list Z) (c : Z) :
  Forall (fun x => 0 <= x) g -> In c g ->
  exists r, nan_to_num (truediv c (zsum g)) = Fin r /\ (0 <= r <= 1)%R.
Proof.
  intros Hg Hc. pose proof (zsum_member_le g c Hg Hc) as Hle.
  assert (H0 : 0 <= c) by (rewrite Forall_forall in Hg; exact (Hg c Hc)).
  destruct (Z.eq_dec (zsum g) 0) as [Hz | Hz].
  - assert (c = 0) by lia. subst c. rewrite Hz.
    exists 0%R. split; [reflexivity | lra].
  - rewrite truediv_nonzero by exact Hz. cbn [nan_to_num].
    eexists. split; [reflexivity |].
    assert (Hs : (0 < IZR (zsum g))%R) by (apply IZR_lt; lia).
    assert (Hc0 : (0 <= IZR c)%R) by (apply IZR_le; exact H0).
    assert (Hcs : (IZR c <= IZR (zsum g))%R) by (apply IZR_le; exact Hle).
    split.
    + apply Rmult_le_pos; [exact Hc0 | left; apply Rinv_0_lt_compat, Hs].
    + apply (Rmult_le_reg_r (IZR (zsum g))); [exact Hs |].
      unfold Rdiv. rewrite Rmult_assoc, Rinv_l by lra. lra.
Qed.

Lemma normalise_unit_interval (cnt : table) (codes : matrix) :
  Forall (Forall (Forall (fun c => 0 <= c))) cnt ->
  Forall (Forall (Forall (fun p => exists r, p = Fin r /\ (0 <= r <= 1)%R)))
         (DecisionTreeClassifier.normalise cnt codes).
Proof.
  intros Hcnt. unfold DecisionTreeClassifier.normalise.
  apply Forall_forall. intros m Hm. apply in_map_iff in Hm.
  destruct Hm as [s [<- _]].
  apply Forall_forall. intros row Hrow. apply in_map_iff in Hrow.
  destruct Hrow as [t [<- _]]. cbv zeta.
  apply Forall_forall. intros p Hp. apply in_map_iff in Hp.
  destruct Hp as [c [<- Hc]].
  apply normalised_unit_interval; [| exact Hc].
  apply Forall_forall. intros x Hx. apply in_map_iff in Hx.
  destruct Hx as [u [<- _]]. apply at3_nonneg, Hcnt.
Qed.

(** X8.  After [post_fit], whatever the training data, the stored Split
    Record and the sample, every probability that
    [predict_with_probability] returns is a finite number between 0 and 1:
    no NaN and no infinity leaves the method. *)
Theorem predict_with_probability_unit_interval
    (to_branch_1 : Z -> Z -> bool)
    (self : DecisionTreeClassifier.tree) (in_sample_y branch : matrix)
    (number_of_branches : Z) (sample_x : matrix) :
  Forall (Forall (Forall (fun p => exists r, p = Fin r /\ (0 <= r <= 1)%R)))
         (DecisionTreeClassifier.probability_of
            (DecisionTreeClassifier.predict_with_probability to_branch_1
               (DecisionTreeClassifier.post_fit self in_sample_y branch
                  number_of_branches)
               sample_x)).
Proof.
  cbn [DecisionTreeClassifier.predict_with_probability
         DecisionTreeClassifier.probability_of].
  apply normalise_unit_interval.
  apply count_table_entries_nonneg.
Qed.

(** The probabilities of a sample after [post_fit], by label. *)
Lemma post_fit_class_axis
    (to_branch_1 : Z -> Z -> bool)
    (self : DecisionTreeClassifier.tree) (in_sample_y branch : matrix)
    (number_of_branches : Z) (sample_x : matrix) (s t : nat) :
  (t < length (nth 0 in_sample_y []))%nat ->
  (s < length sample_x)%nat ->
  (t < DecisionTreeClassifier.number_of_target self)%nat ->
  let fitted :=
    DecisionTreeClassifier.post_fit self in_sample_y branch
      number_of_branches in
  let leaf :=
    at2 (DecisionTree.pre_predict to_branch_1
           (DecisionTreeClassifier.number_of_target fitted)
           (DecisionTreeClassifier.record fitted) sample_x) s t in
  0 <= leaf < number_of_branches ->
  class_axis
    (DecisionTreeClassifier.probability_of
       (DecisionTreeClassifier.predict_with_probability to_branch_1 fitted
          sample_x)) s t
  = map (fun c =>
           nan_to_num
             (truediv c
                (zsum (map (fun u => leaf_class_count in_sample_y branch t
                                       u leaf)
                           (DecisionTreeClassifier.labels fitted)))))
        (map (fun u => leaf_class_count in_sample_y branch t u leaf)
             (DecisionTreeClassifier.labels fitted)).
Proof.
  intros Ht Hs HT fitted leaf Hleaf.
  cbn [DecisionTreeClassifier.predict_with_probability
         DecisionTreeClassifier.probability_of].
  rewrite normalise_class_axis
    by (rewrite ?pre_predict_length, ?pre_predict_row_length; assumption).
  cbv zeta. fold leaf.
  change (DecisionTreeClassifier.stored_count fitted [])
    with (DecisionTreeClassifier.count_table
            (DecisionTreeClassifier.labels self) in_sample_y branch
            number_of_branches).
  rewrite count_table_gather by assumption. reflexivity.
Qed.

(** X9.  The probability that [predict_with_probability] gives a label is
    the share of that label among the training rows of the leaf that the
    sample reaches, counted among the rows whose target value is a label,
    as soon as the leaf holds such a row. *)
Theorem predict_with_probability_leaf_frequency
    (to_branch_1 : Z -> Z -> bool)
    (self : DecisionTreeClassifier.tree) (in_sample_y branch : matrix)
    (number_of_branches : Z) (sample_x : matrix) (s t : nat)
    (Hlabels : NoDup (DecisionTreeClassifier.labels self))
    (Htarget : (t < length (nth 0 in_sample_y []))%nat)
    (Hsample : (s < length sample_x)%nat)
    (Hfitted : (t < DecisionTreeClassifier.number_of_target self)%nat) :
  let fitted :=
    DecisionTreeClassifier.post_fit self in_sample_y branch
      number_of_branches in
  let leaf :=
    at2 (DecisionTree.pre_predict to_branch_1
           (DecisionTreeClassifier.number_of_target fitted)
           (DecisionTreeClassifier.record fitted) sample_x) s t in
  let n :=
    known_rows_in_leaf (DecisionTreeClassifier.labels fitted)
                       in_sample_y branch t leaf in
  0 <= leaf < number_of_branches ->
  0 < n ->
  class_axis
    (DecisionTreeClassifier.probability_of
       (DecisionTreeClassifier.predict_with_probability to_branch_1 fitted
          sample_x)) s t
  = map (fun u =>
           Fin (IZR (count_true
                       (map (fun o => (at2 branch o t =? leaf)
                                      && (at2 in_sample_y o t =? u))
                            (seq 0 (length in_sample_y))))
                / IZR n))
        (DecisionTreeClassifier.labels fitted).
Proof.
  intros fitted leaf n Hleaf Hn.
  pose proof (post_fit_class_axis to_branch_1 self in_sample_y branch
                number_of_branches sample_x s t Htarget Hsample Hfitted Hleaf)
    as Hrow.
  fold fitted in Hrow. fold leaf in Hrow. rewrite Hrow. clear Hrow.
  rewrite (leaf_column_total (DecisionTreeClassifier.labels fitted)
             in_sample_y branch t leaf Hlabels).
  fold n. rewrite map_map. apply map_ext. intros u.
  rewrite truediv_nonzero by lia. reflexivity.
Qed.

(** X10.  When every training row of the leaf that the sample reaches
    carries the same label, and there is such a row, that label gets the
    probability 1 and every other label the probability 0. *)
Theorem predict_with_probability_pure_leaf
    (to_branch_1 : Z -> Z -> bool)
    (self : DecisionTreeClassifier.tree) (in_sample_y branch : matrix)
    (number_of_branches : Z) (sample_x : matrix) (s t : nat) (u0 : Z)
    (Hlabels : NoDup (DecisionTreeClassifier.labels self))
    (Hu0 : In u0 (DecisionTreeClassifier.labels self))
    (Htarget : (t < length (nth 0 in_sample_y []))%nat)
    (Hsample : (s < length sample_x)%nat)
    (Hfitted : (t < DecisionTreeClassifier.number_of_target self)%nat) :
  let fitted :=
    DecisionTreeClassifier.post_fit self in_sample_y branch
      number_of_branches in
  let leaf :=
    at2 (DecisionTree.pre_predict to_branch_1
           (DecisionTreeClassifier.number_of_target fitted)
           (DecisionTreeClassifier.record fitted) sample_x) s t in
  0 <= leaf < number_of_branches ->
  (exists o, (o < length in_sample_y)%nat /\ at2 branch o t = leaf) ->
  (forall o, (o < length in_sample_y)%nat -> at2 branch o t = leaf ->
             at2 in_sample_y o t = u0) ->
  class_axis
    (DecisionTreeClassifier.probability_of
       (DecisionTreeClassifier.predict_with_probability to_branch_1 fitted
          sample_x)) s t
  = map (fun u => if u =? u0 then Fin 1 else Fin 0)
        (DecisionTreeClassifier.labels fitted).
Proof.
  intros fitted leaf Hleaf [o0 [Ho0 Hin0]] Hpure.
  pose proof (post_fit_class_axis to_branch_1 self in_sample_y branch
                number_of_branches sample_x s t Htarget Hsample Hfitted Hleaf)
    as Hrow.
  fold fitted in Hrow. fold leaf in Hrow. rewrite Hrow. clear Hrow.
  rewrite (leaf_column_total (DecisionTreeClassifier.labels fitted)
             in_sample_y branch t leaf Hlabels).
  set (rows := count_true (map (fun o => at2 branch o t =? leaf)
                               (seq 0 (length in_sample_y)))).
  assert (Hcount : forall u,
             leaf_class_count in_sample_y branch t u leaf
             = if u =? u0 then rows else 0).
  { intros u. unfold leaf_class_count, rows.
    destruct (u =? u0) eqn:E.
    - apply Z.eqb_eq in E. subst u. f_equal. apply map_ext_in.
      intros o Ho. apply in_seq in Ho.
      destruct (at2 branch o t =? leaf) eqn:El; [| reflexivity].
      apply Z.eqb_eq in El. rewrite (Hpure o ltac:(lia) El).
      rewrite Z.eqb_refl. reflexivity.
    - apply Z.eqb_neq in E. rewrite count_true_zsum.
      erewrite zsum_map_ext_in; [apply zsum_map_zero |].
      intros o Ho. apply in_seq in Ho. cbv beta.
      destruct (at2 branch o t =? leaf) eqn:El; [| reflexivity].
      apply Z.eqb_eq in El. rewrite (Hpure o ltac:(lia) El).
      replace (u0 =? u) with false; [reflexivity |].
      symmetry. apply Z.eqb_neq. congruence. }
  assert (Hn : known_rows_in_leaf (DecisionTreeClassifier.labels fitted)
                 in_sample_y branch t leaf = rows).
  { unfold known_rows_in_leaf, rows. f_equal. apply map_ext_in.
    intros o Ho. apply in_seq in Ho.
    destruct (at2 branch o t =? leaf) eqn:El; [| reflexivity].
    apply Z.eqb_eq in El. rewrite (Hpure o ltac:(lia) El).
    replace (known (DecisionTreeClassifier.labels fitted) u0) with true;
      [reflexivity |].
    symmetry. unfold known. apply existsb_exists.
    exists u0. split; [exact Hu0 | apply Z.eqb_refl]. }
  assert (Hrows : 0 < rows).
  { unfold rows. rewrite count_true_zsum.
    assert (Hin : In o0 (seq 0 (length in_sample_y)))
      by (apply in_seq; lia).
    clear - Hin Hin0.
    induction (seq 0 (length in_sample_y)) as [| o l IH]; [contradiction |].
    cbn [map zsum fold_right].
    fold (zsum (map (fun a => Z.b2z (at2 branch a t =? leaf)) l)).
    assert (Hnn : 0 <= zsum (map (fun a => Z.b2z (at2 branch a t =? leaf)) l)).
    { apply zsum_nonneg. apply Forall_forall. intros x Hx.
      apply in_map_iff in Hx. destruct Hx as [a [<- _]].
      destruct (at2 branch a t =? leaf); cbn; lia. }
    destruct Hin as [-> | Hin].
    - rewrite Hin0, Z.eqb_refl. cbn [Z.b2z]. lia.
    - specialize (IH Hin).
      destruct (at2 branch o t =? leaf); cbn [Z.b2z]; lia. }
  rewrite Hn, map_map. apply map_ext. intros u. rewrite Hcount.
  rewrite truediv_nonzero by lia.
  destruct (u =? u0); cbn [nan_to_num]; f_equal.
  - field. apply not_0_IZR. lia.
  - unfold Rdiv. ring.
Qed.

Lemma fitted_stump_state :
  DecisionTreeClassifier.labels fitted_stump = [0; 1]
  /\ DecisionTreeClassifier.number_of_target fitted_stump = 1%nat
  /\ DecisionTreeClassifier.record fitted_stump = [[DecisionTree.no_split]].
Proof. unfold fitted_stump. rewrite fit_unfold. repeat split. Qed.

Lemma post_fit_keeps (self : DecisionTreeClassifier.tree)
    (in_sample_y branch : matrix) (number_of_branches : Z) :
  DecisionTreeClassifier.number_of_target
    (DecisionTreeClassifier.post_fit self in_sample_y branch
       number_of_branches)
  = DecisionTreeClassifier.number_of_target self
  /\ DecisionTreeClassifier.record
       (DecisionTreeClassifier.post_fit self in_sample_y branch
          number_of_branches)
     = DecisionTreeClassifier.record self
  /\ DecisionTreeClassifier.labels
       (DecisionTreeClassifier.post_fit self in_sample_y branch
          number_of_branches)
     = DecisionTreeClassifier.labels self.
Proof. repeat split. Qed.

(** The leaf 1 holds a row with the target 0 and a row with the target 1:
    the sample that reaches it gets the probabilities 1/2 and 1/2. *)
Lemma predict_with_probability_leaf_frequency_witness :
  class_axis
    (DecisionTreeClassifier.probability_of
       (DecisionTreeClassifier.predict_with_probability Z.gtb
          (DecisionTreeClassifier.post_fit fitted_stump
             [[0]; [1]; [0]] [[1]; [1]; [0]] 2)
          [[1]])) 0 0
  = [Fin (1 / 2); Fin (1 / 2)].
Proof.
  destruct fitted_stump_state as [Hl [Ht Hr]].
  destruct (post_fit_keeps fitted_stump [[0]; [1]; [0]] [[1]; [1]; [0]] 2)
    as [Kt [Kr Kl]].
  assert (HN : NoDup (DecisionTreeClassifier.labels fitted_stump)).
  { rewrite Hl. repeat constructor; simpl; intuition discriminate. }
  assert (HT : (0 < DecisionTreeClassifier.number_of_target fitted_stump)%nat)
    by (rewrite Ht; lia).
  pose proof (predict_with_probability_leaf_frequency Z.gtb fitted_stump
                [[0]; [1]; [0]] [[1]; [1]; [0]] 2 [[1]] 0 0
                HN ltac:(simpl; lia) ltac:(simpl; lia) HT) as H.
  cbv zeta in H. rewrite Kt, Kr, Kl, Ht, Hr, Hl in H.
  apply H.
  - vm_compute. split; congruence.
  - reflexivity.
Defined.

(** The leaf 1 holds two rows, both with the target 1. *)
Lemma predict_with_probability_pure_leaf_witness :
  class_axis
    (DecisionTreeClassifier.probability_of
       (DecisionTreeClassifier.predict_with_probability Z.gtb
          (DecisionTreeClassifier.post_fit fitted_stump
             [[1]; [1]; [0]] [[1]; [1]; [0]] 2)
          [[1]])) 0 0
  = [Fin 0; Fin 1].
Proof.
  destruct fitted_stump_state as [Hl [Ht Hr]].
  destruct (post_fit_keeps fitted_stump [[1]; [1]; [0]] [[1]; [1]; [0]] 2)
    as [Kt [Kr Kl]].
  assert (HN : NoDup (DecisionTreeClassifier.labels fitted_stump)).
  { rewrite Hl. repeat constructor; simpl; intuition discriminate. }
  assert (HU : In 1 (DecisionTreeClassifier.labels fitted_stump)).
  { rewrite Hl. simpl. tauto. }
  assert (HT : (0 < DecisionTreeClassifier.number_of_target fitted_stump)%nat)
    by (rewrite Ht; lia).
  pose proof (predict_with_probability_pure_leaf Z.gtb fitted_stump
                [[1]; [1]; [0]] [[1]; [1]; [0]] 2 [[1]] 0 0 1
                HN HU ltac:(simpl; lia) ltac:(simpl; lia) HT) as H.
  cbv zeta in H. rewrite Kt, Kr, Kl, Ht, Hr, Hl in H.
  apply H.
  - vm_compute. split; congruence.
  - exists 0%nat. split; [simpl; lia | reflexivity].
  - intros [| [| [| o]]] Ho Hb; try reflexivity;
      [vm_compute in Hb; discriminate Hb | simpl in Ho; lia].
Defined.

(** ** The probabilities of the ensembles *)

Lemma fold_fadd_unit (l : list fval) :
  Forall unit_interval l ->
  forall a, exists r,
      fold_left fadd l (Fin a) = Fin r
      /\ (a <= r <= a + INR (length l))%R.
Proof.
  induction 1 as [| x l [r [-> Hr]] _ IH]; intros a.
  - exists a. split; [reflexivity |]. cbn [length INR]. lra.
  - cbn [fold_left fadd]. destruct (IH (a + r)%R) as [r' [E Hr']].
    exists r'. split; [exact E |].
    rewrite length_cons, S_INR. lra.
Qed.

(** The mean of floats of which each is NaN or lies between 0 and 1, one at
    least not being NaN, lies between 0 and 1. *)
Lemma nanmean_unit (l : list fval) :
  (forall x, In x l -> x = NaN \/ unit_interval x) ->
  (exists x, In x l /\ x <> NaN) ->
  unit_interval (nanmean l).
Proof.
  intros Hall [x0 [Hin0 Hx0]]. unfold nanmean. cbv zeta.
  set (kept := filter (fun x => negb (is_nan x)) l).
  assert (Hkept : Forall unit_interval kept).
  { apply Forall_forall. intros x Hx. apply filter_In in Hx.
    destruct Hx as [Hin Hnn]. destruct (Hall x Hin) as [-> | Hu];
      [discriminate Hnn | exact Hu]. }
  assert (Hin : In x0 kept).
  { apply filter_In. split; [exact Hin0 |].
    destruct x0; try reflexivity. contradiction. }
  destruct (fold_fadd_unit kept Hkept 0%R) as [r [E Hr]].
  destruct kept as [| k kept'] eqn:Ek; [contradiction |].
  unfold fsum. rewrite E. cbn [fmul].
  assert (Hk : (0 < INR (length (k :: kept')))%R)
    by (apply lt_0_INR; cbn [length]; lia).
  eexists. split; [reflexivity |].
  set (n := INR (length (k :: kept'))) in *.
  assert (Hinv : (0 < / n)%R) by (apply Rinv_0_lt_compat, Hk).
  split.
  - apply Rmult_le_pos; lra.
  - apply (Rmult_le_reg_r n); [exact Hk |].
    rewrite Rmult_assoc, Rinv_l by lra. lra.
Qed.

Lemma fat3_in_range (p : cube) (s t u : nat) :
  (s < length p)%nat -> (t < length (nth s p []))%nat ->
  (u < length (nth t (nth s p []) []))%nat ->
  exists m row, In m p /\ In row m /\ In (fat3 p s t u) row.
Proof.
  intros Hs Ht Hu. exists (nth s p []), (nth t (nth s p []) []).
  split; [apply nth_In, Hs |]. split; [apply nth_In, Ht |].
  unfold fat3. apply nth_In, Hu.
Qed.

Lemma fat3_nan_or_entry (P : fval -> Prop) (p : cube) (s t u : nat) :
  Forall (Forall (Forall P)) p -> fat3 p s t u = NaN \/ P (fat3 p s t u).
Proof.
  intros H. unfold fat3. rewrite Forall_forall in H.
  destruct (nth_in_or_default s p []) as [Hs | Hs];
    [| rewrite Hs; left; destruct t, u; reflexivity].
  specialize (H _ Hs). rewrite Forall_forall in H.
  destruct (nth_in_or_default t (nth s p []) []) as [Ht | Ht];
    [| rewrite Ht; left; destruct u; reflexivity].
  specialize (H _ Ht). rewrite Forall_forall in H.
  destruct (nth_in_or_default u (nth t (nth s p []) []) NaN) as [Hu | Hu];
    [right; exact (H _ Hu) | left; exact Hu].
Qed.

Lemma nanmean_axis0_unit (batch : list cube) :
  Forall (Forall (Forall (Forall unit_interval))) batch ->
  Forall (Forall (Forall unit_interval)) (nanmean_axis0 batch).
Proof.
  intros Hb. unfold nanmean_axis0. cbv zeta.
  apply Forall_forall. intros m Hm. apply in_map_iff in Hm.
  destruct Hm as [s [<- Hs]]. apply in_seq in Hs.
  apply Forall_forall. intros row Hrow. apply in_map_iff in Hrow.
  destruct Hrow as [t [<- Ht]]. apply in_seq in Ht.
  apply Forall_forall. intros x Hx. apply in_map_iff in Hx.
  destruct Hx as [u [<- Hu]]. apply in_seq in Hu.
  destruct batch as [| first rest]; [cbn in Hs; lia |].
  cbn [nth] in Hs, Ht, Hu. inversion Hb as [| ? ? Hfirst Hrest]; subst.
  apply nanmean_unit.
  - intros x Hx. apply in_map_iff in Hx. destruct Hx as [p [<- Hp]].
    apply fat3_nan_or_entry. rewrite Forall_forall in Hb. exact (Hb p Hp).
  - exists (fat3 first s t u). split; [left; reflexivity |].
    destruct (fat3_in_range first s t u) as [m [row [Hm [Hr He]]]];
      [lia | lia | lia |].
    rewrite Forall_forall in Hfirst. specialize (Hfirst m Hm).
    rewrite Forall_forall in Hfirst. specialize (Hfirst row Hr).
    rewrite Forall_forall in Hfirst. destruct (Hfirst _ He) as [r [-> _]].
    discriminate.
Qed.

Lemma predict_batch_unit (to_branch_1 : Z -> Z -> bool)
    (self : DecisionTreeClassifier.forest) (in_sample_y branch : list matrix)
    (number_of_branches : Z) (sample_x : matrix) :
  Forall (Forall (Forall (Forall unit_interval)))
         (fst (DecisionTreeClassifier.predict_with_probability_batch
                 to_branch_1
                 (DecisionTreeClassifier.post_fit_batch self in_sample_y
                    branch number_of_branches)
                 sample_x)).
Proof.
  unfold DecisionTreeClassifier.predict_with_probability_batch. cbn [fst].
  apply Forall_forall. intros p Hp. apply in_map_iff in Hp.
  destruct Hp as [[cnt r] [<- Hin]]. cbn [fst snd].
  apply in_combine_l in Hin.
  cbn [DecisionTreeClassifier.stored_count DecisionTreeClassifier.count
         DecisionTreeClassifier.post_fit_batch
         DecisionTreeClassifier.set_count] in Hin.
  apply in_map_iff in Hin. destruct Hin as [yb [<- _]].
  apply normalise_unit_interval, count_table_entries_nonneg.
Qed.

(** X11.  After the batched [post_fit], every probability that
    [predict_with_probability] of a bagging ensemble or of a random forest
    returns is a finite number between 0 and 1, whatever the data, the
    number of trees and the sample. *)
Theorem ensemble_probability_unit_interval
    (to_branch_1 : Z -> Z -> bool)
    (bag : BaggingClassifier.t) (forest : RandomForestClassifier.t)
    (self : DecisionTreeClassifier.forest) (in_sample_y branch : list matrix)
    (number_of_branches : Z) (sample_x : matrix) :
  let base :=
    DecisionTreeClassifier.post_fit_batch self in_sample_y branch
      number_of_branches in
  Forall (Forall (Forall unit_interval))
         (DecisionTreeClassifier.probability_of
            (BaggingClassifier.predict_with_probability to_branch_1
               (BaggingClassifier.with_base bag base) sample_x))
  /\ Forall (Forall (Forall unit_interval))
            (DecisionTreeClassifier.probability_of
               (RandomForestClassifier.predict_with_probability to_branch_1
                  (RandomForestClassifier.with_base forest base) sample_x)).
Proof.
  cbv zeta. split.
  - cbn [BaggingClassifier.predict_with_probability
           DecisionTreeClassifier.probability_of
           BaggingClassifier.with_base BaggingClassifier.base].
    apply nanmean_axis0_unit, predict_batch_unit.
  - cbn [RandomForestClassifier.predict_with_probability
           DecisionTreeClassifier.probability_of
           RandomForestClassifier.with_base RandomForestClassifier.base].
    apply nanmean_axis0_unit, predict_batch_unit.
Qed.

(** Sums of numbers. *)

Lemma fold_fadd_Fin (l : list R) (a : R) :
  fold_left fadd (map Fin l) (Fin a) = Fin (a + rsum l).
Proof.
  revert a. induction l as [| r l IH]; intros a;
    cbn [map fold_left fadd rsum fold_right].
  - f_equal. ring.
  - rewrite IH. fold (rsum l). f_equal. ring.
Qed.

Lemma fsum_Fin (l : list R) : fsum (map Fin l) = Fin (rsum l).
Proof. unfold fsum. rewrite fold_fadd_Fin. f_equal. ring. Qed.

Lemma finite_row (row : list fval) :
  Forall (fun p => exists r, p = Fin r) row ->
  row = map Fin (map real_of row).
Proof.
  induction 1 as [| p row [r ->] _ IH]; [reflexivity |].
  cbn [map real_of]. f_equal. exact IH.
Qed.

Lemma rsum_map_add {A : Type} (f g : A -> R) (l : list A) :
  rsum (map (fun a => (f a + g a)%R) l)
  = (rsum (map f l) + rsum (map g l))%R.
Proof.
  induction l as [| a l IH]; cbn [map rsum fold_right]; [ring |].
  fold (rsum (map (fun a => (f a + g a)%R) l)).
  fold (rsum (map f l)). fold (rsum (map g l)). rewrite IH. ring.
Qed.

Lemma rsum_map_zero {A : Type} (l : list A) :
  rsum (map (fun _ => 0%R) l) = 0%R.
Proof.
  induction l as [| a l IH]; cbn [map rsum fold_right]; [reflexivity |].
  fold (rsum (map (fun _ : A => 0%R) l)). rewrite IH. ring.
Qed.

Lemma rsum_swap {A B : Type} (f : A -> B -> R) (la : list A) (lb : list B) :
  rsum (map (fun a => rsum (map (f a) lb)) la)
  = rsum (map (fun b => rsum (map (fun a => f a b) la)) lb).
Proof.
  induction la as [| a la IH]; cbn [map rsum fold_right].
  - symmetry. apply rsum_map_zero.
  - fold (rsum (map (fun a => rsum (map (f a) lb)) la)). rewrite IH.
    symmetry. apply (rsum_map_add (f a)).
Qed.

Lemma rsum_map_scale {A : Type} (k : R) (f : A -> R) (l : list A) :
  rsum (map (fun a => (f a * k)%R) l) = (rsum (map f l) * k)%R.
Proof.
  induction l as [| a l IH]; cbn [map rsum fold_right]; [ring |].
  fold (rsum (map (fun a => (f a * k)%R) l)). fold (rsum (map f l)).
  rewrite IH. ring.
Qed.

Lemma rsum_map_one {A : Type} (f : A -> R) (l : list A) :
  (forall a, In a l -> f a = 1%R) -> rsum (map f l) = INR (length l).
Proof.
  induction l as [| a l IH]; intros H; [reflexivity |].
  cbn [map rsum fold_right]. fold (rsum (map f l)).
  rewrite length_cons, S_INR, (H a) by (left; reflexivity).
  rewrite IH by (intros b Hb; apply H; right; exact Hb). ring.
Qed.

Lemma rsum_nonneg (l : list R) :
  Forall (fun r => (0 <= r)%R) l -> (0 <= rsum l)%R.
Proof.
  induction 1 as [| r l Hr _ IH]; cbn [rsum fold_right]; [lra |].
  fold (rsum l). lra.
Qed.

Lemma simplex_row_sum (row : list fval) :
  simplex row -> rsum (map real_of row) = 1%R.
Proof.
  intros [Hfin Hsum].
  assert (Hrow : row = map Fin (map real_of row)).
  { apply finite_row. eapply Forall_impl; [| exact Hfin].
    intros p [r [-> _]]. exists r. reflexivity. }
  rewrite Hrow, fsum_Fin in Hsum. injection Hsum as Hsum. exact Hsum.
Qed.

(** The mean of a list of numbers, none of which is left out. *)
Lemma nanmean_finite (l : list fval) :
  l <> [] -> Forall (fun p => exists r, p = Fin r) l ->
  nanmean l = Fin (rsum (map real_of l) * / INR (length l)).
Proof.
  intros Hne Hfin. unfold nanmean. cbv zeta.
  assert (Hkeep : filter (fun x => negb (is_nan x)) l = l).
  { clear Hne. induction Hfin as [| p l [r ->] _ IH]; [reflexivity |].
    cbn [filter is_nan negb]. f_equal. exact IH. }
  rewrite Hkeep. destruct l as [| p l']; [contradiction |].
  rewrite (finite_row _ Hfin) at 1. rewrite fsum_Fin. reflexivity.
Qed.

(** Averaging rows of one length that lie on the simplex gives a row on
    the simplex. *)
Lemma nanmean_axis0_simplex (trees : list cube) (s t U : nat) :
  trees <> [] ->
  Forall (fun p => simplex (class_axis p s t)
                   /\ length (class_axis p s t) = U) trees ->
  simplex (class_axis (nanmean_axis0 trees) s t).
Proof.
  intros Hne Hall.
  destruct trees as [| first rest] eqn:Etrees; [contradiction |].
  rewrite <- Etrees in *.
  assert (Hfirst : simplex (class_axis first s t)
                   /\ length (class_axis first s t) = U).
  { rewrite Forall_forall in Hall. apply Hall. rewrite Etrees. left.
    reflexivity. }
  destruct Hfirst as [Hsf Hlf].
  assert (HU : (0 < U)%nat).
  { destruct (class_axis first s t) eqn:E.
    - destruct Hsf as [_ Hsum]. cbn in Hsum. injection Hsum as Hsum. lra.
    - cbn [length] in Hlf. lia. }
  assert (Hs : (s < length first)%nat).
  { destruct (Nat.lt_ge_cases s (length first)) as [H | H]; [exact H |].
    unfold class_axis in Hlf. rewrite (nth_overflow first [] H) in Hlf.
    destruct t; cbn in Hlf; lia. }
  assert (Ht : (t < length (nth s first []))%nat).
  { destruct (Nat.lt_ge_cases t (length (nth s first []))) as [H | H];
      [exact H |].
    unfold class_axis in Hlf. rewrite (nth_overflow _ [] H) in Hlf.
    cbn in Hlf. lia. }
  assert (Hrow : class_axis (nanmean_axis0 trees) s t
                 = map (fun u => nanmean (map (fun p => fat3 p s t u) trees))
                       (seq 0 U)).
  { unfold class_axis, nanmean_axis0. cbv zeta.
    rewrite Etrees. cbn [nth]. rewrite <- Etrees.
    rewrite nth_map_seq by exact Hs. rewrite nth_map_seq by exact Ht.
    unfold class_axis in Hlf. rewrite Hlf. reflexivity. }
  assert (Hentry : forall p u, In p trees -> (u < U)%nat ->
             exists r, fat3 p s t u = Fin r /\ (0 <= r)%R).
  { intros p u Hp Hu. rewrite Forall_forall in Hall.
    destruct (Hall p Hp) as [[Hfin _] Hlen].
    rewrite Forall_forall in Hfin. apply Hfin.
    unfold fat3, class_axis in *. apply nth_In. lia. }
  assert (Hmean : forall u, (u < U)%nat ->
             nanmean (map (fun p => fat3 p s t u) trees)
             = Fin (rsum (map (fun p => real_of (fat3 p s t u)) trees)
                    * / INR (length trees))).
  { intros u Hu. rewrite nanmean_finite.
    - rewrite map_map, length_map. reflexivity.
    - rewrite Etrees. discriminate.
    - apply Forall_forall. intros x Hx. apply in_map_iff in Hx.
      destruct Hx as [p [<- Hp]].
      destruct (Hentry p u Hp Hu) as [r [-> _]]. exists r. reflexivity. }
  assert (HK : (0 < INR (length trees))%R).
  { apply lt_0_INR. rewrite Etrees. cbn [length]. lia. }
  assert (Hrow' : class_axis (nanmean_axis0 trees) s t
                  = map Fin
                      (map (fun u =>
                              (rsum (map (fun p => real_of (fat3 p s t u))
                                         trees)
                               * / INR (length trees))%R)
                           (seq 0 U))).
  { rewrite Hrow, map_map. apply map_ext_in. intros u Hu.
    apply in_seq in Hu. apply Hmean. lia. }
  rewrite Hrow'. split.
  - apply Forall_forall. intros x Hx. apply in_map_iff in Hx.
    destruct Hx as [r [<- Hr]]. apply in_map_iff in Hr.
    destruct Hr as [u [<- Hu]]. apply in_seq in Hu.
    eexists. split; [reflexivity |].
    apply Rmult_le_pos; [| left; apply Rinv_0_lt_compat, HK].
    apply rsum_nonneg. apply Forall_forall. intros r Hr.
    apply in_map_iff in Hr. destruct Hr as [p [<- Hp]].
    destruct (Hentry p u Hp ltac:(lia)) as [r' [-> Hr']]. exact Hr'.
  - rewrite fsum_Fin. f_equal.
    rewrite (rsum_map_scale (/ INR (length trees))
               (fun u => rsum (map (fun p => real_of (fat3 p s t u)) trees))).
    rewrite <- (rsum_swap (fun p u => real_of (fat3 p s t u))).
    rewrite (rsum_map_one _ trees).
    + field. lra.
    + intros p Hp. rewrite Forall_forall in Hall.
      destruct (Hall p Hp) as [Hsp Hlen].
      rewrite <- (simplex_row_sum _ Hsp). rewrite <- Hlen.
      rewrite <- (map_nth_seq real_of (class_axis p s t) NaN).
      reflexivity.
Qed.

Lemma nth_map_seq_overflow {A : Type} (f : nat -> A) (n i : nat) (d : A) :
  (n <= i)%nat -> nth i (map f (seq 0 n)) d = d.
Proof.
  intros H. apply nth_overflow. rewrite length_map, length_seq. exact H.
Qed.

(** A row of probabilities of a tree is empty or has one entry per
    label. *)
Lemma tree_row_length (uy : list Z) (y branch : matrix)
    (number_of_branches : Z) (codes : matrix) (s t : nat) :
  class_axis
    (DecisionTreeClassifier.normalise
       (DecisionTreeClassifier.count_table uy y branch number_of_branches)
       codes) s t <> [] ->
  length
    (class_axis
       (DecisionTreeClassifier.normalise
          (DecisionTreeClassifier.count_table uy y branch number_of_branches)
          codes) s t)
  = length uy.
Proof.
  intros Hne.
  destruct (Nat.lt_ge_cases s (length codes)) as [Hs | Hs].
  2:{ exfalso. apply Hne. unfold class_axis, DecisionTreeClassifier.normalise.
      rewrite nth_map_seq_overflow by exact Hs. destruct t; reflexivity. }
  destruct (Nat.lt_ge_cases t (length (nth s codes []))) as [Ht | Ht].
  2:{ exfalso. apply Hne. unfold class_axis, DecisionTreeClassifier.normalise.
      rewrite nth_map_seq by exact Hs.
      rewrite nth_map_seq_overflow by exact Ht. reflexivity. }
  rewrite normalise_class_axis in * by assumption. cbv zeta in *.
  rewrite !length_map, length_seq in *.
  destruct (Nat.lt_ge_cases t (length (nth 0 y []))) as [Hy | Hy].
  - rewrite count_table_target by exact Hy. apply length_map.
  - exfalso. apply Hne.
    assert (Hlen : length (DecisionTreeClassifier.count_table uy y branch
                             number_of_branches) = length (nth 0 y [])).
    { unfold DecisionTreeClassifier.count_table.
      rewrite length_map, length_seq. reflexivity. }
    rewrite (nth_overflow _ []) by (rewrite Hlen; exact Hy). reflexivity.
Qed.

(** X12.  When, for a sample and a target, every tree of an ensemble gives
    probabilities that are non-negative and sum to 1, so does the ensemble:
    its probabilities are the plain mean over all the trees. *)
Theorem ensemble_of_simplex_trees
    (to_branch_1 : Z -> Z -> bool)
    (bag : BaggingClassifier.t) (forest : RandomForestClassifier.t)
    (self : DecisionTreeClassifier.forest) (in_sample_y branch : list matrix)
    (number_of_branches : Z) (sample_x : matrix) (s t : nat) :
  let base :=
    DecisionTreeClassifier.post_fit_batch self in_sample_y branch
      number_of_branches in
  let trees :=
    fst (DecisionTreeClassifier.predict_with_probability_batch
           to_branch_1 base sample_x) in
  trees <> [] ->
  Forall (fun p => simplex (class_axis p s t)) trees ->
  simplex
    (class_axis
       (DecisionTreeClassifier.probability_of
          (BaggingClassifier.predict_with_probability to_branch_1
             (BaggingClassifier.with_base bag base) sample_x)) s t)
  /\ simplex
       (class_axis
          (DecisionTreeClassifier.probability_of
             (RandomForestClassifier.predict_with_probability to_branch_1
                (RandomForestClassifier.with_base forest base) sample_x))
          s t).
Proof.
  intros base trees Hne Hall.
  assert (Hkey : simplex (class_axis (nanmean_axis0 trees) s t)).
  { apply (nanmean_axis0_simplex trees s t
             (length (DecisionTreeClassifier.labels self)) Hne).
    apply Forall_forall. intros p Hp.
    rewrite Forall_forall in Hall. pose proof (Hall p Hp) as Hsp.
    split; [exact Hsp |].
    unfold trees, base,
      DecisionTreeClassifier.predict_with_probability_batch in Hp.
    cbn [fst] in Hp. apply in_map_iff in Hp.
    destruct Hp as [[cnt r] [<- Hin]]. cbn [fst snd] in *.
    apply in_combine_l in Hin.
    cbn [DecisionTreeClassifier.stored_count DecisionTreeClassifier.count
           DecisionTreeClassifier.post_fit_batch
           DecisionTreeClassifier.set_count] in Hin.
    apply in_map_iff in Hin. destruct Hin as [yb [<- _]].
    apply tree_row_length. intros E. rewrite E in Hsp.
    destruct Hsp as [_ Hsum]. cbn in Hsum. injection Hsum as Hsum. lra. }
  split; exact Hkey.
Qed.

(** A tree row on the simplex, from the counts of its leaf. *)
Lemma tree_row_simplex (uy : list Z) (y branch : matrix)
    (number_of_branches : Z) (codes : matrix) (s t : nat) :
  NoDup uy ->
  (t < length (nth 0 y []))%nat ->
  (s < length codes)%nat -> (t < length (nth s codes []))%nat ->
  0 <= at2 codes s t < number_of_branches ->
  0 < known_rows_in_leaf uy y branch t (at2 codes s t) ->
  simplex
    (class_axis
       (DecisionTreeClassifier.normalise
          (DecisionTreeClassifier.count_table uy y branch number_of_branches)
          codes) s t).
Proof.
  intros Hnodup Hy Hs Ht Hleaf Hn.
  rewrite normalise_class_axis by assumption. cbv zeta.
  rewrite count_table_gather by assumption.
  apply normalised_simplex.
  - apply Forall_forall. intros c Hc. apply in_map_iff in Hc.
    destruct Hc as [u [<- _]]. apply leaf_class_count_nonneg.
  - rewrite leaf_column_total by exact Hnodup. exact Hn.
Qed.

Lemma fitted_pair_state :
  DecisionTreeClassifier.labels fitted_pair = [0; 1]
  /\ DecisionTreeClassifier.number_of_target fitted_pair = 1%nat
  /\ DecisionTreeClassifier.record fitted_pair
     = [[[DecisionTree.no_split]]; [[DecisionTree.no_split]]].
Proof. repeat split. Qed.

(** Two trees; the sample reaches the leaf 1 of both, which holds the
    targets 0 and 1 in the first tree and 1 and 1 in the second. *)
Lemma ensemble_of_simplex_trees_witness :
  simplex
    (class_axis
       (DecisionTreeClassifier.probability_of
          (BaggingClassifier.predict_with_probability Z.gtb
             (BaggingClassifier.with_base
                (BaggingClassifier.init 1 DecisionTreeClassifier.ENTROPY 2 2 0)
                (DecisionTreeClassifier.post_fit_batch fitted_pair
                   [[[0]; [1]]; [[1]; [1]]] [[[1]; [1]]; [[1]; [1]]] 2))
             [[1]])) 0 0).
Proof.
  destruct fitted_pair_state as [Hl [Ht Hr]].
  assert (Htrees :
            fst (DecisionTreeClassifier.predict_with_probability_batch Z.gtb
                   (DecisionTreeClassifier.post_fit_batch fitted_pair
                      [[[0]; [1]]; [[1]; [1]]] [[[1]; [1]]; [[1]; [1]]] 2)
                   [[1]])
            = [DecisionTreeClassifier.normalise
                 (DecisionTreeClassifier.count_table [0; 1]
                    [[0]; [1]] [[1]; [1]] 2)
                 [[1]];
               DecisionTreeClassifier.normalise
                 (DecisionTreeClassifier.count_table [0; 1]
                    [[1]; [1]] [[1]; [1]] 2)
                 [[1]]]).
  { unfold DecisionTreeClassifier.predict_with_probability_batch.
    cbn [fst DecisionTreeClassifier.stored_count DecisionTreeClassifier.count
           DecisionTreeClassifier.post_fit_batch
           DecisionTreeClassifier.set_count
           DecisionTreeClassifier.record
           DecisionTreeClassifier.number_of_target].
    rewrite Hl, Ht, Hr. reflexivity. }
  destruct (ensemble_of_simplex_trees Z.gtb
              (BaggingClassifier.init 1 DecisionTreeClassifier.ENTROPY 2 2 0)
              (RandomForestClassifier.init 1 DecisionTreeClassifier.ENTROPY
                 1 2 2 0)
              fitted_pair
              [[[0]; [1]]; [[1]; [1]]] [[[1]; [1]]; [[1]; [1]]] 2 [[1]] 0 0)
    as [H _].
  - rewrite Htrees. discriminate.
  - rewrite Htrees.
    constructor; [| constructor; [| constructor]];
      (apply tree_row_simplex;
       [ repeat constructor; simpl; intuition discriminate
       | simpl; lia | simpl; lia | simpl; lia
       | vm_compute; split; congruence
       | reflexivity ]).
  - exact H.
Defined.

(** X13.  Where every tree has an entry, the probability that an ensemble
    returns is the sum of the entries of all its trees over the number of
    trees: the trees have replaced their NaN by 0 before the average, so
    [nanmean] leaves no tree out, and a tree that votes 0 for every label
    still counts in the denominator. *)
Theorem ensemble_mean_counts_every_tree
    (to_branch_1 : Z -> Z -> bool)
    (bag : BaggingClassifier.t) (forest : RandomForestClassifier.t)
    (self : DecisionTreeClassifier.forest) (in_sample_y branch : list matrix)
    (number_of_branches : Z) (sample_x : matrix) (s t u : nat) :
  let base :=
    DecisionTreeClassifier.post_fit_batch self in_sample_y branch
      number_of_branches in
  let trees :=
    fst (DecisionTreeClassifier.predict_with_probability_batch
           to_branch_1 base sample_x) in
  trees <> [] ->
  Forall (fun p => (s < length p)%nat
                   /\ (t < length (nth s p []))%nat
                   /\ (u < length (nth t (nth s p []) []))%nat) trees ->
  fat3 (DecisionTreeClassifier.probability_of
          (BaggingClassifier.predict_with_probability to_branch_1
             (BaggingClassifier.with_base bag base) sample_x)) s t u
  = Fin (rsum (map (fun p => real_of (fat3 p s t u)) trees)
         * / INR (length trees))
  /\ fat3 (DecisionTreeClassifier.probability_of
             (RandomForestClassifier.predict_with_probability to_branch_1
                (RandomForestClassifier.with_base forest base) sample_x))
          s t u
     = Fin (rsum (map (fun p => real_of (fat3 p s t u)) trees)
            * / INR (length trees)).
Proof.
  intros base trees Hne Hshape.
  assert (Hkey : fat3 (nanmean_axis0 trees) s t u
                 = Fin (rsum (map (fun p => real_of (fat3 p s t u)) trees)
                        * / INR (length trees))).
  { assert (Hfirst : (s < length (nth 0 trees []))%nat
                     /\ (t < length (nth s (nth 0 trees []) []))%nat
                     /\ (u < length (nth t (nth s (nth 0 trees []) []) []))%nat).
    { destruct trees as [| first rest]; [contradiction |].
      inversion Hshape; subst. cbn [nth]. assumption. }
    destruct Hfirst as [H1 [H2 H3]].
    rewrite nanmean_axis0_entry by assumption.
    rewrite nanmean_finite.
    - rewrite map_map, length_map. reflexivity.
    - destruct trees; [contradiction | discriminate].
    - apply Forall_forall. intros x Hx. apply in_map_iff in Hx.
      destruct Hx as [p [<- Hp]].
      rewrite Forall_forall in Hshape. destruct (Hshape p Hp) as [K1 [K2 K3]].
      destruct (fat3_in_range p s t u K1 K2 K3) as [m [row [Hm [Hr He]]]].
      pose proof (predict_batch_unit to_branch_1 self in_sample_y branch
                    number_of_branches sample_x) as Hunit.
      fold base in Hunit. fold trees in Hunit.
      rewrite Forall_forall in Hunit. specialize (Hunit p Hp).
      rewrite Forall_forall in Hunit. specialize (Hunit m Hm).
      rewrite Forall_forall in Hunit. specialize (Hunit row Hr).
      rewrite Forall_forall in Hunit. destruct (Hunit _ He) as [r [-> _]].
      exists r. reflexivity. }
  split; exact Hkey.
Qed.

Lemma fitted_pair_trees :
  fst (DecisionTreeClassifier.predict_with_probability_batch Z.gtb
         (DecisionTreeClassifier.post_fit_batch fitted_pair
            [[[0]; [1]]; [[1]; [1]]] [[[1]; [1]]; [[1]; [1]]] 2)
         [[1]])
  = [DecisionTreeClassifier.normalise
       (DecisionTreeClassifier.count_table [0; 1] [[0]; [1]] [[1]; [1]] 2)
       [[1]];
     DecisionTreeClassifier.normalise
       (DecisionTreeClassifier.count_table [0; 1] [[1]; [1]] [[1]; [1]] 2)
       [[1]]].
Proof.
  destruct fitted_pair_state as [Hl [Ht Hr]].
  unfold DecisionTreeClassifier.predict_with_probability_batch.
  cbn [fst DecisionTreeClassifier.stored_count DecisionTreeClassifier.count
         DecisionTreeClassifier.post_fit_batch
         DecisionTreeClassifier.set_count
         DecisionTreeClassifier.record
         DecisionTreeClassifier.number_of_target].
  rewrite Hl, Ht, Hr. reflexivity.
Qed.

Lemma ensemble_mean_counts_every_tree_witness :
  let trees :=
    fst (DecisionTreeClassifier.predict_with_probability_batch Z.gtb
           (DecisionTreeClassifier.post_fit_batch fitted_pair
              [[[0]; [1]]; [[1]; [1]]] [[[1]; [1]]; [[1]; [1]]] 2)
           [[1]]) in
  fat3 (DecisionTreeClassifier.probability_of
          (BaggingClassifier.predict_with_probability Z.gtb
             (BaggingClassifier.with_base
                (BaggingClassifier.init 1 DecisionTreeClassifier.ENTROPY 2 2 0)
                (DecisionTreeClassifier.post_fit_batch fitted_pair
                   [[[0]; [1]]; [[1]; [1]]] [[[1]; [1]]; [[1]; [1]]] 2))
             [[1]])) 0 0 0
  = Fin (rsum (map (fun p => real_of (fat3 p 0 0 0)) trees)
         * / INR (length trees)).
Proof.
  cbv zeta.
  destruct (ensemble_mean_counts_every_tree Z.gtb
              (BaggingClassifier.init 1 DecisionTreeClassifier.ENTROPY 2 2 0)
              (RandomForestClassifier.init 1 DecisionTreeClassifier.ENTROPY
                 1 2 2 0)
              fitted_pair
              [[[0]; [1]]; [[1]; [1]]] [[[1]; [1]]; [[1]; [1]]] 2 [[1]] 0 0 0)
    as [H _].
  - rewrite fitted_pair_trees. discriminate.
  - rewrite fitted_pair_trees.
    constructor; [| constructor; [| constructor]];
      (split; [| split]); simpl; lia.
  - exact H.
Defined.

(** X15.  In an ensemble the first [pre_fit] sees the targets of all the
    subsets at once: the labels, in increasing order, are the values met in
    any subset, so every tree gets a column for a label that only another
    subset holds; a later [pre_fit] changes nothing. *)
Theorem pre_fit_batch_shares_labels
    (self : DecisionTreeClassifier.forest) (in_sample_y : list matrix)
    (Hfirst : DecisionTreeClassifier.unique_y self = None) :
  let first := DecisionTreeClassifier.pre_fit_batch self in_sample_y in
  StronglySorted Z.lt (DecisionTreeClassifier.labels first)
  /\ (forall v,
        In v (DecisionTreeClassifier.labels first)
        <-> exists y row, In y in_sample_y /\ In row y /\ In v row)
  /\ (forall later, DecisionTreeClassifier.pre_fit_batch first later = first).
Proof.
  intros first.
  assert (Hu : DecisionTreeClassifier.unique_y first
               = Some (unique (concat (map (@concat Z) in_sample_y)))).
  { unfold first, DecisionTreeClassifier.pre_fit_batch,
      DecisionTreeClassifier.pre_fit_flat.
    rewrite Hfirst. reflexivity. }
  unfold DecisionTreeClassifier.labels. rewrite Hu.
  split; [apply unique_sorted |]. split.
  - intros v. rewrite unique_In, in_concat. split.
    + intros [flat [Hflat Hv]]. apply in_map_iff in Hflat.
      destruct Hflat as [y [<- Hy]]. apply in_concat in Hv.
      destruct Hv as [row [Hrow Hv]]. exists y, row. auto.
    + intros [y [row [Hy [Hrow Hv]]]]. exists (concat y). split.
      * apply in_map, Hy.
      * apply in_concat. exists row. auto.
  - intros later. unfold DecisionTreeClassifier.pre_fit_batch at 1.
    unfold DecisionTreeClassifier.pre_fit_flat. rewrite Hu. reflexivity.
Qed.

Lemma pre_fit_batch_shares_labels_witness :
  DecisionTreeClassifier.labels
    (DecisionTreeClassifier.pre_fit_batch
       (DecisionTreeClassifier.pre_fit_batch
          (DecisionTreeClassifier.new_batch 1 DecisionTreeClassifier.ENTROPY)
          [[[2]; [0]]; [[1]; [2]]])
       [[[5]; [5]]])
  = [0; 1; 2].
Proof.
  destruct (pre_fit_batch_shares_labels
              (DecisionTreeClassifier.new_batch 1
                 DecisionTreeClassifier.ENTROPY)
              [[[2]; [0]]; [[1]; [2]]] eq_refl) as [_ [_ H]].
  rewrite H. reflexivity.
Defined.

(** ** What [__str__] tells *)

Module PrintingFacts.

Import String Ascii.
Local Open Scope string_scope.

Example DecisionTreeClassifier_str_example :
  Printing.DecisionTreeClassifier_str
    (DecisionTreeClassifier.new 3 DecisionTreeClassifier.ENTROPY)
  = "Decision Tree Classifier: depth=3, impurity=Entropy".
Proof. reflexivity. Qed.

Example BaggingClassifier_str_example :
  Printing.BaggingClassifier_str
    (BaggingClassifier.init 3 DecisionTreeClassifier.ENTROPY 10 20 (-1))
  = "Bagging Classifier: depth=3, impurity=Entropy, "
    ++ "number_of_subset=10, subset_size=20, seed=-1".
Proof. reflexivity. Qed.

Lemma append_cancel_l (p a b : string) : p ++ a = p ++ b -> a = b.
Proof.
  induction p as [| c p IH]; cbn [append]; intros H; [exact H |].
  injection H as H. apply IH, H.
Qed.

Lemma str_append_assoc (a b c : string) : (a ++ b) ++ c = a ++ (b ++ c).
Proof.
  induction a as [| x a IH]; cbn [append]; [reflexivity |].
  rewrite IH. reflexivity.
Qed.

(** A decimal numeral followed by a comma is read back: digits hold no
    comma. *)
Lemma uint_then_comma (d1 d2 : Decimal.uint) (r1 r2 : string) :
  DecimalString.NilEmpty.string_of_uint d1 ++ String ","%char r1
  = DecimalString.NilEmpty.string_of_uint d2 ++ String ","%char r2 ->
  d1 = d2 /\ r1 = r2.
Proof.
  revert d2. induction d1 as [| d1 IH | d1 IH | d1 IH | d1 IH | d1 IH
                              | d1 IH | d1 IH | d1 IH | d1 IH | d1 IH];
    intros [| d2 | d2 | d2 | d2 | d2 | d2 | d2 | d2 | d2 | d2];
    cbn [DecimalString.NilEmpty.string_of_uint append]; intros H;
    try discriminate H;
    try (injection H as H; destruct (IH d2 H) as [-> ->];
         split; reflexivity).
  injection H as H. split; [reflexivity | exact H].
Qed.

Lemma str_nat_then_comma (n1 n2 : nat) (r1 r2 : string) :
  Printing.str_nat n1 ++ String ","%char r1 = Printing.str_nat n2 ++ String ","%char r2 ->
  n1 = n2 /\ r1 = r2.
Proof.
  intros H. apply uint_then_comma in H. destruct H as [Hd Hr].
  split; [| exact Hr].
  rewrite <- (DecimalNat.Unsigned.of_to n1), <- (DecimalNat.Unsigned.of_to n2).
  rewrite Hd. reflexivity.
Qed.

Lemma str_Z_inj (z1 z2 : Z) : Printing.str_Z z1 = Printing.str_Z z2 -> z1 = z2.
Proof.
  unfold Printing.str_Z. intros H.
  assert (Hd : Z.to_int z1 = Z.to_int z2).
  { pose proof (DecimalString.NilEmpty.isi (Z.to_int z1)) as H1.
    pose proof (DecimalString.NilEmpty.isi (Z.to_int z2)) as H2.
    rewrite H in H1. rewrite H1 in H2. injection H2 as H2. exact H2. }
  rewrite <- (DecimalZ.of_to z1), <- (DecimalZ.of_to z2), Hd. reflexivity.
Qed.

Lemma str_nat_inj (n1 n2 : nat) :
  Printing.str_nat n1 = Printing.str_nat n2 -> n1 = n2.
Proof.
  unfold Printing.str_nat. intros H.
  assert (Hd : Nat.to_uint n1 = Nat.to_uint n2).
  { pose proof (DecimalString.NilEmpty.usu (Nat.to_uint n1)) as H1.
    pose proof (DecimalString.NilEmpty.usu (Nat.to_uint n2)) as H2.
    rewrite H in H1. rewrite H1 in H2. injection H2 as H2. exact H2. }
  rewrite <- (DecimalNat.Unsigned.of_to n1), <- (DecimalNat.Unsigned.of_to n2).
  rewrite Hd. reflexivity.
Qed.

Ltac strip H := repeat (injection H as H).

Ltac read_nat H :=
  apply str_nat_then_comma in H;
  let E := fresh "E" in destruct H as [E H].

(** X14.  [__str__] identifies the configuration: two decision tree
    classifiers print the same text exactly when they have the same depth
    and impurity, two bagging classifiers or two random forests exactly
    when all the parameters that the text shows are the same, and the
    texts of the three classes never coincide. *)
Theorem str_identifies_configuration :
  (forall (ST CT : Type) (a b : DecisionTreeClassifier.t ST CT),
      Printing.DecisionTreeClassifier_str a
      = Printing.DecisionTreeClassifier_str b
      <-> DecisionTreeClassifier.depth a = DecisionTreeClassifier.depth b
          /\ DecisionTreeClassifier.impurity a
             = DecisionTreeClassifier.impurity b)
  /\ (forall a b : BaggingClassifier.t,
         Printing.BaggingClassifier_str a = Printing.BaggingClassifier_str b
         <-> DecisionTreeClassifier.depth (BaggingClassifier.base a)
             = DecisionTreeClassifier.depth (BaggingClassifier.base b)
             /\ DecisionTreeClassifier.impurity (BaggingClassifier.base a)
                = DecisionTreeClassifier.impurity (BaggingClassifier.base b)
             /\ BaggingClassifier.number_of_subset a
                = BaggingClassifier.number_of_subset b
             /\ BaggingClassifier.subset_size a
                = BaggingClassifier.subset_size b
             /\ BaggingClassifier.seed a = BaggingClassifier.seed b)
  /\ (forall a b : RandomForestClassifier.t,
         Printing.RandomForestClassifier_str a
         = Printing.RandomForestClassifier_str b
         <-> DecisionTreeClassifier.depth (RandomForestClassifier.base a)
             = DecisionTreeClassifier.depth (RandomForestClassifier.base b)
             /\ DecisionTreeClassifier.impurity
                  (RandomForestClassifier.base a)
                = DecisionTreeClassifier.impurity
                    (RandomForestClassifier.base b)
             /\ RandomForestClassifier.number_of_chosen_feature a
                = RandomForestClassifier.number_of_chosen_feature b
             /\ RandomForestClassifier.number_of_subset a
                = RandomForestClassifier.number_of_subset b
             /\ RandomForestClassifier.subset_size a
                = RandomForestClassifier.subset_size b
             /\ RandomForestClassifier.seed a
                = RandomForestClassifier.seed b)
  /\ (forall (ST CT : Type) (a : DecisionTreeClassifier.t ST CT)
             (b : BaggingClassifier.t) (c : RandomForestClassifier.t),
         Printing.DecisionTreeClassifier_str a
         <> Printing.BaggingClassifier_str b
         /\ Printing.DecisionTreeClassifier_str a
            <> Printing.RandomForestClassifier_str c
         /\ Printing.BaggingClassifier_str b
            <> Printing.RandomForestClassifier_str c).
Proof.
  split; [| split; [| split]].
  - intros ST CT a b. unfold Printing.DecisionTreeClassifier_str. split.
    + intros H. rewrite !str_append_assoc in H. cbn [append] in H.
      strip H. read_nat H. split; [exact E |].
      destruct (DecisionTreeClassifier.impurity a),
        (DecisionTreeClassifier.impurity b). reflexivity.
    + intros [-> ->]. reflexivity.
  - intros a b. unfold Printing.BaggingClassifier_str. split.
    + intros H. rewrite !str_append_assoc in H.
      destruct (DecisionTreeClassifier.impurity (BaggingClassifier.base a)),
        (DecisionTreeClassifier.impurity (BaggingClassifier.base b)).
      cbn [append Printing.Impurity_value] in H.
      strip H. read_nat H. strip H. read_nat H. strip H. read_nat H.
      strip H. apply str_Z_inj in H.
      repeat split; assumption.
    + intros (-> & -> & -> & -> & ->). reflexivity.
  - intros a b. unfold Printing.RandomForestClassifier_str. split.
    + intros H. rewrite !str_append_assoc in H.
      destruct (DecisionTreeClassifier.impurity
                  (RandomForestClassifier.base a)),
        (DecisionTreeClassifier.impurity (RandomForestClassifier.base b)).
      cbn [append Printing.Impurity_value] in H.
      strip H. read_nat H. strip H. read_nat H. strip H. read_nat H.
      strip H. read_nat H. strip H. apply str_Z_inj in H.
      repeat split; assumption.
    + intros (-> & -> & -> & -> & -> & ->). reflexivity.
  - intros ST CT a b c.
    unfold Printing.DecisionTreeClassifier_str,
      Printing.BaggingClassifier_str, Printing.RandomForestClassifier_str.
    repeat split; intros H; cbn [append] in H; discriminate H.
Qed.

End PrintingFacts.
